(** * YouTube Content Chat Assistant: the content-to-answer pipeline

    A shallow embedding of the TypeScript sources of the assistant
    (vector-database.ts, conversational-ai.ts, youtube-scraper.ts and the
    two API routes) together with the properties of the pipeline that its
    specification states.

    The code is asynchronous but strictly sequential: every promise is
    awaited where it is created.  An [async] method is therefore modelled
    as a function from the state before the call to an outcome and the
    state after it.  Third-party services (the embedding provider, the
    Supabase client, the LangChain chain, the D1 database, HTTP fetches)
    are Section variables: every theorem holds for all behaviours of
    those services.  A service that can fail is given the state it acts
    on, so that a request that went through once may fail the next
    time. *)

From Stdlib Require Import QArith.
From Stdlib Require Import Ascii DecimalString DecimalN.
From stdpp Require Import base option list strings gmap sorting.

(** ** Outcomes of a call that may throw *)

(** A JavaScript call either returns a value or throws an [Error]; the
    error is represented by its [message]. *)
Inductive result (A : Type) : Type :=
| Ok (a : A)
| Throw (message : string).
Arguments Ok {A} a.
Arguments Throw {A} message.

Definition result_bind {A B} (r : result A) (k : A -> result B) : result B :=
  match r with
  | Ok a => k a
  | Throw e => Throw e
  end.

Notation "'let*' x ':=' r 'in' k" := (result_bind r (fun x => k))
  (at level 10, x name, r at level 100, k at level 200).

Definition is_ok {A} (r : result A) : bool :=
  match r with Ok _ => true | Throw _ => false end.

(** ** JavaScript values used by the sources *)

Module Js.

(** A [number] as far as the sources test it: a rational value or NaN. *)
Inductive number : Type :=
| Num (q : Q)
| NaN.

(** Truthiness of a number: [0] (and [-0]) and [NaN] are falsy. *)
Definition truthy_number (n : number) : bool :=
  match n with
  | Num q => negb (Qeq_bool q 0)
  | NaN => false
  end.

(** Truthiness of a string: only the empty string is falsy. *)
Definition truthy_string (s : string) : bool :=
  match s with
  | EmptyString => false
  | String _ _ => true
  end.

(** [x || d] for an optional property [x]: [undefined] and falsy values
    both give [d]. *)
Definition or_default {A} (truthy : A -> bool) (x : option A) (d : A) : A :=
  match x with
  | Some a => if truthy a then a else d
  | None => d
  end.

(** [s.includes(sub)] *)
Fixpoint includes (sub s : string) : bool :=
  String.prefix sub s ||
  match s with
  | EmptyString => false
  | String _ s' => includes sub s'
  end.

(** [n.toString()] for a non-negative integer. *)
Definition toString (n : N) : string :=
  NilZero.string_of_uint (N.to_uint n).

(** [s.padStart(2, '0')] *)
Definition padStart2 (s : string) : string :=
  match String.length s with
  | 0%nat => "00"
  | 1%nat => "0" +:+ s
  | _ => s
  end.

End Js.

(** ** Doubles

    The chat route reads the seconds of a timestamp marker with
    [parseFloat] and takes them apart with [/], [%] and [Math.floor]:
    arithmetic on IEEE 754 doubles.  The numbers that occur there are
    not negative.  A double has 53 significant bits: [nearest] rounds a
    rational to the nearest of them, a tie to the even significand, as
    the decimal-to-binary conversion and the division of JavaScript
    do. *)

Module Double.

(** [Finite m e] is the number [m * 2^e], with [0 <= m]. *)
Inductive t : Type :=
| Finite (m : Z) (e : Z)
| Infinity
| NaN.

(** What [Math.floor] gives: a whole number, or the argument when the
    argument is not finite. *)
Inductive whole : Type :=
| Whole (z : Z)
| WholeInfinity
| WholeNaN.

(** [z * 2^e] for [0 <= e], and [z] for the other exponents. *)
Definition shift (z e : Z) : Z := (z * 2 ^ Z.max 0 e)%Z.

(** The binade of the rational [a / b], for [0 < a] and [0 < b]: the
    exponent [e] with [2^e <= a / b < 2^(e+1)]. *)
Definition binade (a b : Z) : Z :=
  let l := (Z.log2 a - Z.log2 b)%Z in
  if (shift a (- l) <? shift b l)%Z then (l - 1)%Z else l.

(** The double nearest to [a / b], for [0 <= a] and [0 < b].  The
    spacing of the doubles around [a / b] is [2^(binade - 52)], and
    [2^(-1074)] below the normal numbers; what reaches [2^1024] is
    [Infinity]. *)
Definition nearest (a b : Z) : t :=
  if (a =? 0)%Z then Finite 0 0
  else
    let e := (Z.max (binade a b) (-1022) - 52)%Z in
    let n := shift a (- e) in
    let d := shift b e in
    let q := (n / d)%Z in
    let r := (n mod d)%Z in
    let m :=
      if (2 * r <? d)%Z then q
      else if (d <? 2 * r)%Z then (q + 1)%Z
      else if Z.even q then q else (q + 1)%Z in
    if (2 ^ 1024 <=? shift m e)%Z then Infinity else Finite m e.

(** [x / c] for a whole [0 < c] *)
Definition div (x : t) (c : Z) : t :=
  match x with
  | Finite m e => nearest (shift m e) (shift c (- e))
  | Infinity => Infinity
  | NaN => NaN
  end.

(** [x % c] for a whole [0 < c]: the remainder of two doubles is a
    double, nothing is rounded. *)
Definition rem (x : t) (c : Z) : t :=
  match x with
  | Finite m e => Finite (shift m e mod shift c (- e)) (Z.min e 0)
  | Infinity => NaN
  | NaN => NaN
  end.

(** [Math.floor(x)] *)
Definition floor (x : t) : whole :=
  match x with
  | Finite m e => Whole (if (0 <=? e)%Z then (m * 2 ^ e)%Z else (m / 2 ^ (- e))%Z)
  | Infinity => WholeInfinity
  | NaN => WholeNaN
  end.

(** The text of a whole number in a template literal or from
    [toString()].  Up to [2^53] it is the decimal numeral.  Beyond,
    JavaScript prints the shortest numeral that reads back as the same
    double, in exponent notation from [10^21] on: that text is
    [toString_large]. *)
Definition toString (toString_large : Z -> string) (x : whole) : string :=
  match x with
  | Whole z =>
      if (z <=? 2 ^ 53)%Z then Js.toString (Z.to_N z) else toString_large z
  | WholeInfinity => "Infinity"
  | WholeNaN => "NaN"
  end.

End Double.

(** ** The JavaScript [Map]

    A [Map] iterates in insertion order, and [set] on a key that is
    already present replaces the value while the key keeps the position
    of its first insertion.  Both facts matter to the source
    de-duplication, so the map is an association list. *)

Module JsMap.
Section WithValue.
Context {V : Type}.

Definition t := list (string * V).

Fixpoint set (k : string) (v : V) (m : t) : t :=
  match m with
  | [] => [(k, v)]
  | (k', v') :: m' =>
      if String.eqb k k' then (k', v) :: m' else (k', v') :: set k v m'
  end.

Fixpoint get (k : string) (m : t) : option V :=
  match m with
  | [] => None
  | (k', v') :: m' => if String.eqb k k' then Some v' else get k m'
  end.

(** [new Map(entries)]: the entries are set one after the other. *)
Definition step (m : t) (e : string * V) : t := set (fst e) (snd e) m.

Definition of_entries (entries : list (string * V)) : t :=
  fold_left step entries [].

Definition keys (m : t) : list string := map fst m.

(** [map.values()] *)
Definition values (m : t) : list V := map snd m.

(** The value of the last entry with key [k] in a list of entries. *)
Fixpoint last_with (k : string) (entries : list (string * V)) : option V :=
  match entries with
  | [] => None
  | (k', v) :: entries' =>
      match last_with k entries' with
      | Some v' => Some v'
      | None => if String.eqb k k' then Some v else None
      end
  end.

End WithValue.
Arguments t : clear implicits.

(** The distinct keys of a list, each at the place of its first
    occurrence. *)
Fixpoint first_occurrences (ks : list string) : list string :=
  match ks with
  | [] => []
  | k :: ks' => k :: filter (fun k' => k' <> k) (first_occurrences ks')
  end.
End JsMap.

(** ** Stateful calls that may throw

    A method of an object with state [S]: the outcome of the call and the
    state the object is left in.  A thrown error keeps the mutations made
    before the throw, as in JavaScript. *)

Definition Eff (S A : Type) : Type := S -> result A * S.

Definition ret {S A} (a : A) : Eff S A := fun s => (Ok a, s).

Definition throw {S A} (message : string) : Eff S A := fun s => (Throw message, s).

Definition bind {S A B} (m : Eff S A) (k : A -> Eff S B) : Eff S B :=
  fun s =>
    match m s with
    | (Ok a, s') => k a s'
    | (Throw e, s') => (Throw e, s')
    end.

(** [try { m } catch (error) { h error }] *)
Definition try_catch {S A} (m : Eff S A) (h : string -> Eff S A) : Eff S A :=
  fun s =>
    match m s with
    | (Ok a, s') => (Ok a, s')
    | (Throw e, s') => h e s'
    end.

Definition lift_result {S A} (r : result A) : Eff S A := fun s => (r, s).

Declare Scope eff_scope.
Delimit Scope eff_scope with eff.
Notation "x <- m ;; k" := (bind m (fun x => k))
  (at level 100, m at next level, right associativity) : eff_scope.
Notation "m ;;; k" := (bind m (fun _ => k))
  (at level 100, right associativity) : eff_scope.

(** [for (const x of xs) { body x }] *)
Fixpoint for_of {S A} (xs : list A) (body : A -> Eff S unit) : Eff S unit :=
  match xs with
  | [] => ret tt
  | x :: xs' => (body x ;;; for_of xs' body)%eff
  end.

(** ** Documents and their metadata *)

(** The metadata object attached to every chunk.  The sources build it as
    an object literal; the optional properties are the ones a given call
    site leaves out or passes [undefined] for. *)
Record Metadata : Type := {
  videoId : string;
  channelId : string;
  videoTitle : string;
  channelName : string;
  url : string;
  viewCount : option Z;
  uploadDate : option string;
  likeCount : option Z;
  author : option string;
  source : string;
  timestamp : option string
}.

(** LangChain's [Document]. *)
Record Document : Type := {
  pageContent : string;
  metadata : Metadata
}.

(** [textSplitter.createDocuments([text], [meta])]: one document per chunk
    the splitter returns, each carrying the metadata object. *)
Definition createDocuments (splitText : string -> list string)
    (text : string) (meta : Metadata) : list Document :=
  map (fun chunk => {| pageContent := chunk; metadata := meta |}) (splitText text).

(** ** The text splitter

    [RecursiveCharacterTextSplitter] is LangChain's; the sources construct
    it with [chunkSize: 1000] and [chunkOverlap: 200] and the library's
    defaults otherwise (separators paragraph, line, space and the empty
    string; separators kept at the head of the piece that follows them;
    the length of a text is its number of characters, which for the
    texts used here, ASCII text of one byte per character, is the
    length of the string).  The functions
    below follow the library's algorithm and are used where a property
    needs a concrete splitter; the normalizer itself is stated over an
    arbitrary splitter. *)

Module RecursiveCharacterTextSplitter.

Definition is_whitespace (c : ascii) : bool :=
  let n := nat_of_ascii c in
  (n =? 32)%nat || ((9 <=? n)%nat && (n <=? 13)%nat).

Fixpoint trimStart (s : string) : string :=
  match s with
  | EmptyString => EmptyString
  | String c s' => if is_whitespace c then trimStart s' else s
  end.

Fixpoint trimEnd (s : string) : string :=
  match s with
  | EmptyString => EmptyString
  | String c s' =>
      match trimEnd s' with
      | EmptyString => if is_whitespace c then EmptyString else String c EmptyString
      | r => String c r
      end
  end.

(** [s.trim()] *)
Definition trim (s : string) : string := trimEnd (trimStart s).

(** [docs.join(separator)] *)
Definition join (separator : string) (docs : list string) : string :=
  String.concat separator docs.

(** [text.split("")] *)
Fixpoint chars (s : string) : list string :=
  match s with
  | EmptyString => []
  | String c s' => String c EmptyString :: chars s'
  end.

(** [text.split(/(?=separator)/)] for a non-empty separator: the text is
    cut in front of every later position at which the separator starts. *)
Fixpoint lookahead_split (separator s : string) : list string :=
  match s with
  | EmptyString => [EmptyString]
  | String c s' =>
      match lookahead_split separator s' with
      | [] => [String c EmptyString]
      | piece :: pieces =>
          if String.prefix separator s'
          then String c EmptyString :: piece :: pieces
          else String c piece :: pieces
      end
  end.

(** [splitOnSeparator] with [keepSeparator = true]. *)
Definition splitOnSeparator (text separator : string) : list string :=
  let splits :=
    if Js.truthy_string separator then lookahead_split separator text
    else chars text in
  filter (fun s => Js.truthy_string s = true) splits.

Section WithSizes.
Variables chunkSize chunkOverlap : nat.

(** [joinDocs]: the joined and trimmed text, or nothing when it is empty. *)
Definition joinDocs (docs : list string) (separator : string) : list string :=
  let text := trim (join separator docs) in
  if Js.truthy_string text then [text] else [].

(** The inner [while] of [mergeSplits]: drop pieces from the front of
    the current document until what is left fits the overlap and
    leaves room for the next piece. *)
Fixpoint shift_while (currentDoc : list string) (total len seplen : nat)
    : list string * nat :=
  match currentDoc with
  | [] => ([], total)
  | first :: rest =>
      if (chunkOverlap <? total)%nat
         || ((chunkSize <? total + len + List.length currentDoc * seplen)%nat
             && (0 <? total)%nat)
      then shift_while rest (total - String.length first) len seplen
      else (currentDoc, total)
  end.

Definition merge_step (separator : string)
    (st : list string * list string * nat) (d : string)
    : list string * list string * nat :=
  let '(docs, currentDoc, total) := st in
  let len := String.length d in
  let seplen := String.length separator in
  let '(docs, currentDoc, total) :=
    if (chunkSize <? total + len + List.length currentDoc * seplen)%nat
    then
      match currentDoc with
      | [] => (docs, currentDoc, total)
      | _ :: _ =>
          let '(kept, total') := shift_while currentDoc total len seplen in
          (docs ++ joinDocs currentDoc separator, kept, total')
      end
    else (docs, currentDoc, total) in
  (docs, currentDoc ++ [d], (total + len)%nat).

Definition mergeSplits (splits : list string) (separator : string) : list string :=
  let '(docs, currentDoc, _) :=
    fold_left (merge_step separator) splits ([], [], 0%nat) in
  docs ++ joinDocs currentDoc separator.

Definition flush (goodSplits : list string) : list string :=
  match goodSplits with
  | [] => []
  | _ :: _ => mergeSplits goodSplits EmptyString
  end.

(** The loop of [_splitText] over the pieces: short pieces are
    collected and merged, a long piece is split further with the
    remaining separators ([deeper]) or emitted as it is. *)
Fixpoint split_pieces (deeper : option (string -> list string))
    (splits goodSplits : list string) : list string :=
  match splits with
  | [] => flush goodSplits
  | s :: splits' =>
      if (String.length s <? chunkSize)%nat
      then split_pieces deeper splits' (goodSplits ++ [s])
      else
        flush goodSplits
        ++ match deeper with
           | Some splitDeeper => splitDeeper s
           | None => [s]
           end
        ++ split_pieces deeper splits' []
  end.

(** [_splitText(text, separators)]: the first separator that is empty
    or occurs in the text is used; pieces that are still too long are
    split with the separators after it. *)
Fixpoint splitTextWith (separators : list string) (text : string) : list string :=
  match separators with
  | [] => split_pieces None (splitOnSeparator text EmptyString) []
  | s :: newSeparators =>
      if negb (Js.truthy_string s)
      then split_pieces None (splitOnSeparator text s) []
      else if Js.includes s text
      then split_pieces (Some (splitTextWith newSeparators))
                        (splitOnSeparator text s) []
      else splitTextWith newSeparators text
  end.

Definition separators : list string :=
  [String "010" (String "010" EmptyString); String "010" EmptyString; " "; ""].

Definition splitText (text : string) : list string :=
  splitTextWith separators text.

End WithSizes.

End RecursiveCharacterTextSplitter.

(** ** The vector index (vector-database.ts) *)

Module VectorDatabase.

Definition Embedding : Type := list Q.

Record VectorDBConfig : Type := {
  supabaseUrl : string;
  supabaseKey : string;
  openaiApiKey : string;
  tableName : string
}.

(** A row of the embeddings table: [id bigserial PRIMARY KEY, content
    text, metadata jsonb, embedding vector]. *)
Record Row : Type := {
  id : N;
  content : string;
  row_metadata : Metadata;
  embedding : Embedding
}.

(** The table behind [supabaseClient], with the next value of its
    [bigserial] sequence. *)
Record Table : Type := {
  rows : list Row;
  next_id : N
}.

(** The LangChain handle created by [fromExistingIndex]. *)
Record SupabaseVectorStore : Type := {
  store_tableName : string;
  queryName : string
}.

(** A [VectorDatabase] object together with the table its client
    reaches. *)
Record t : Type := {
  config : VectorDBConfig;
  vectorStore : option SupabaseVectorStore;
  table : Table
}.

Definition set_vectorStore (vs : option SupabaseVectorStore) (db : t) : t :=
  {| config := config db; vectorStore := vs; table := table db |}.

Definition set_table (tb : Table) (db : t) : t :=
  {| config := config db; vectorStore := vectorStore db; table := tb |}.

(** [new VectorDatabase(config)] against a table. *)
Definition new (cfg : VectorDBConfig) (tb : Table) : t :=
  {| config := cfg; vectorStore := None; table := tb |}.

(** Rows are inserted without an [id]: the sequence numbers them. *)
Fixpoint insert_rows (docs : list (Document * Embedding)) (tb : Table) : Table :=
  match docs with
  | [] => tb
  | (doc, vec) :: docs' =>
      insert_rows docs'
        {| rows := rows tb ++ [{| id := next_id tb;
                                  content := pageContent doc;
                                  row_metadata := metadata doc;
                                  embedding := vec |}];
           next_id := N.succ (next_id tb) |}
  end.

Definition document_of_row (r : Row) : Document :=
  {| pageContent := content r; metadata := row_metadata r |}.

(** The documents the table holds, in the order of insertion. *)
Definition documents (db : t) : list Document :=
  map document_of_row (rows (table db)).

(** How the table answers the write of [addDocuments]: the rows are
    stored, or the write is rejected with an error after some of the
    rows, the first [written] of them, have been stored (LangChain
    writes the rows in one request or in batches, depending on its
    version). *)
Inductive Upsert : Type :=
| Stored
| Rejected (written : nat) (error : string).

(** The queries of [getStats]. *)
Inductive StatsQuery : Type :=
| CountRows
| SelectKey (key : string).

(** What [getStats()] resolves to. *)
Record Stats : Type := {
  totalDocuments : nat;
  channels : nat;
  videos : nat
}.

(** Comparison of rationals is decidable: the [ORDER BY] of the search
    query sorts with it. *)
#[export] Instance Qle_dec : RelDecision Qle.
Proof. intros x y. destruct (Qlt_le_dec y x); [right; by apply Qlt_not_le | by left]. Defined.

Section Services.

(** The embedding provider ([OpenAIEmbeddings]): the vector of a
    text, or a failure. *)
Variable embed : string -> result Embedding.

(** [SupabaseVectorStore.fromExistingIndex]. *)
Variable fromExistingIndex : VectorDBConfig -> result SupabaseVectorStore.

(** pgvector's cosine distance, the operator [<=>]. *)
Variable cosine_distance : Embedding -> Embedding -> Q.

(** The [match_threshold] argument of [match_documents]. *)
Variable match_threshold : Q.

(** The text splitter, [textSplitter.splitText]. *)
Variable splitText : string -> list string.

(** The Supabase table as the client reaches it.  [upsert tb rows] is
    the answer to the write of [rows] into [tb]; [delete_fails tb key
    value] and [select_fails tb query] tell whether the request comes
    back with an error instead of being carried out.  The client does
    not throw: a failed request resolves to an object with an [error]
    property. *)
Variable upsert : Table -> list (Document * Embedding) -> Upsert.
Variable delete_fails : Table -> string -> string -> bool.
Variable select_fails : Table -> StatsQuery -> bool.

(** What a row of the response to [select(key)] holds under the
    property [key], the one [getStats] reads. *)
Variable selected : string -> Row -> option string.

(** [embeddings.embedDocuments(texts)] *)
Fixpoint embedDocuments (texts : list string) : result (list Embedding) :=
  match texts with
  | [] => Ok []
  | text :: texts' =>
      let* v := embed text in
      let* vs := embedDocuments texts' in
      Ok (v :: vs)
  end.

(** [initialize()] *)
Definition initialize : Eff t unit :=
  (vs <- (fun db => (fromExistingIndex (config db), db)) ;;
   fun db => (Ok tt, set_vectorStore (Some vs) db))%eff.

(** [vectorStore.addDocuments(documents)]: embed every text, then
    write one row per document; LangChain throws [Error inserting: ...]
    when the table rejects the write. *)
Definition addDocuments (documents : list Document) : Eff t unit :=
  (vectors <- lift_result (embedDocuments (map pageContent documents)) ;;
   fun db =>
     let new_rows := zip documents vectors in
     match upsert (table db) new_rows with
     | Stored => (Ok tt, set_table (insert_rows new_rows (table db)) db)
     | Rejected written error =>
         (Throw ("Error inserting: " +:+ error),
          set_table (insert_rows (take written new_rows) (table db)) db)
     end)%eff.

(** [if (this.vectorStore) { await this.vectorStore.addDocuments(docs) }] *)
Definition addDocuments_if_initialized (documents : list Document) : Eff t unit :=
  fun db =>
    match vectorStore db with
    | Some _ => addDocuments documents db
    | None => (Ok tt, db)
    end.

(** The metadata block of [processVideoContent]. *)
Record VideoMetadata : Type := {
  vm_channelName : string;
  vm_url : string;
  vm_viewCount : option Z;
  vm_uploadDate : option string
}.

Definition video_chunk_metadata (videoId channelId title : string)
    (meta : VideoMetadata) (source : string) : Metadata :=
  {| videoId := videoId;
     channelId := channelId;
     videoTitle := title;
     channelName := vm_channelName meta;
     url := vm_url meta;
     viewCount := vm_viewCount meta;
     uploadDate := vm_uploadDate meta;
     likeCount := None;
     author := None;
     source := source;
     timestamp := None |}.

(** [processVideoContent(videoId, channelId, title, transcript,
    description, metadata)] *)
Definition processVideoContent (videoId channelId title transcript description : string)
    (meta : VideoMetadata) : Eff t unit :=
  let md := video_chunk_metadata videoId channelId title meta in
  ((if Js.truthy_string transcript
    then addDocuments_if_initialized (createDocuments splitText transcript (md "transcript"))
    else ret tt) ;;;
   (if Js.truthy_string description
    then addDocuments_if_initialized (createDocuments splitText description (md "description"))
    else ret tt) ;;;
   let titleDoc := createDocuments splitText title (md "title") in
   fun db =>
     match vectorStore db with
     | Some _ =>
         if (0 <? List.length titleDoc)%nat then addDocuments titleDoc db
         else (Ok tt, db)
     | None => (Ok tt, db)
     end)%eff.

Record Comment : Type := {
  comment_author : string;
  comment_content : string;
  comment_likeCount : option Z
}.

Record CommentMetadata : Type := {
  cm_channelName : string;
  cm_url : string
}.

Definition comment_chunk_metadata (videoId channelId title : string)
    (meta : CommentMetadata) (comment : Comment) : Metadata :=
  {| videoId := videoId;
     channelId := channelId;
     videoTitle := title;
     channelName := cm_channelName meta;
     url := cm_url meta;
     viewCount := None;
     uploadDate := None;
     likeCount := comment_likeCount comment;
     author := Some (comment_author comment);
     source := "comments";
     timestamp := None |}.

(** The text a comment is indexed under. *)
Definition commentText (comment : Comment) : string :=
  comment_author comment +:+ ": " +:+ comment_content comment.

(** [processComments(videoId, channelId, title, comments, metadata)] *)
Definition processComments (videoId channelId title : string)
    (comments : list Comment) (meta : CommentMetadata) : Eff t unit :=
  match comments with
  | [] => ret tt
  | _ :: _ =>
      for_of comments (fun comment =>
        if negb (Js.truthy_string (comment_content comment)) then ret tt
        else
          addDocuments_if_initialized
            (createDocuments splitText (commentText comment)
               (comment_chunk_metadata videoId channelId title meta comment)))
  end.

(** The errors a method that hands [docs] to the index can throw: the
    error of the embedding provider for one of the documents, or
    LangChain's error for a write the table has rejected. *)
Definition external_failure (docs : list Document) (e : string) : Prop :=
  (exists d, d ∈ docs /\ embed (pageContent d) = Throw e)
  \/ (exists tb new_rows written error,
        upsert tb new_rows = Rejected written error
        /\ e = "Error inserting: " +:+ error).

(** What a method hands to the index.  [submits m docs]: [m] keeps the
    store handle and does nothing on an index that is not initialized;
    when it returns, the table holds [docs] after its former documents;
    when it throws, an external call has failed; it throws whenever a
    document cannot be embedded, and returns when every document can be
    embedded and the table rejects no write. *)
Definition submits (m : Eff t unit) (docs : list Document) : Prop :=
  forall db,
    vectorStore (snd (m db)) = vectorStore db
    /\ (vectorStore db = None -> m db = (Ok tt, db))
    /\ (is_ok (fst (m db)) = true ->
        documents (snd (m db))
        = documents db ++ match vectorStore db with
                          | Some _ => docs
                          | None => []
                          end)
    /\ (forall e, fst (m db) = Throw e ->
        vectorStore db <> None /\ external_failure docs e)
    /\ (vectorStore db <> None ->
        forallb (fun d => is_ok (embed (pageContent d))) docs = false ->
        is_ok (fst (m db)) = false)
    /\ ((forall tb new_rows, upsert tb new_rows = Stored) ->
        forallb (fun d => is_ok (embed (pageContent d))) docs = true ->
        is_ok (fst (m db)) = true).

(** The query of [match_documents]: similarity is one minus the
    cosine distance; rows above the threshold, nearest first, at
    most [match_count] of them. *)
Definition similarity (query_embedding : Embedding) (r : Row) : Q :=
  1 - cosine_distance (embedding r) query_embedding.

(** The order of [ORDER BY embedding <=> query_embedding]. *)
Definition nearer (query_embedding : Embedding) (r1 r2 : Row) : Prop :=
  Qle (cosine_distance (embedding r1) query_embedding)
      (cosine_distance (embedding r2) query_embedding).

#[export] Instance nearer_dec query_embedding : RelDecision (nearer query_embedding).
Proof. intros r1 r2. unfold nearer. apply Qle_dec. Defined.

Definition match_documents (query_embedding : Embedding) (match_count : nat)
    (tb : Table) : list (Row * Q) :=
  let candidates :=
    filter (fun r => Qle_bool (similarity query_embedding r) match_threshold = false)
           (rows tb) in
  let ordered :=
    merge_sort (nearer query_embedding) candidates in
  map (fun r => (r, similarity query_embedding r)) (take match_count ordered).

(** [vectorStore.similaritySearchWithScore(query, k)] *)
Definition similaritySearchWithScore (query : string) (k : nat)
    : Eff t (list (Document * Q)) :=
  (query_embedding <- lift_result (embed query) ;;
   fun db =>
     (Ok (map (fun rs => (document_of_row (fst rs), snd rs))
              (match_documents query_embedding k (table db))), db))%eff.

(** [similaritySearch(query, k = 5)] *)
Definition similaritySearch (query : string) (k : nat) : Eff t (list Document) :=
  ((fun db =>
      match vectorStore db with
      | None => initialize db
      | Some _ => (Ok tt, db)
      end) ;;;
   fun db =>
     match vectorStore db with
     | Some _ =>
         (scored <- similaritySearchWithScore query k ;;
          ret (map fst scored))%eff db
     | None => (Ok [], db)
     end)%eff.

(** [deleteVideoVectors(videoId)]: the result of the awaited request is
    not looked at, so the method returns in the same way whether the
    rows have been deleted or not. *)
Definition deleteVideoVectors (video : string) : Eff t unit :=
  fun db =>
    if delete_fails (table db) "metadata->>videoId" video then (Ok tt, db)
    else
      (Ok tt,
       set_table {| rows := filter (fun r => videoId (row_metadata r) <> video)
                                   (rows (table db));
                    next_id := next_id (table db) |} db).

(** [deleteChannelVectors(channelId)] *)
Definition deleteChannelVectors (channel : string) : Eff t unit :=
  fun db =>
    if delete_fails (table db) "metadata->>channelId" channel then (Ok tt, db)
    else
      (Ok tt,
       set_table {| rows := filter (fun r => channelId (row_metadata r) <> channel)
                                   (rows (table db));
                    next_id := next_id (table db) |} db).

(** [count] of the first query of [getStats]: the number of rows, or
    [null] when the query fails. *)
Definition count_rows (tb : Table) : option nat :=
  if select_fails tb CountRows then None else Some (length (rows tb)).

(** [data] of a query [select(key).limit(1000)]: the first 1000 rows,
    or [null] when the query fails. *)
Definition select_rows (key : string) (tb : Table) : option (list Row) :=
  if select_fails tb (SelectKey key) then None else Some (take 1000 (rows tb)).

(** The [Set] filled by [data?.forEach(item => { if (item[key])
    set.add(item[key]) })]. *)
Definition distinct_values (key : string) (data : option (list Row)) : gset string :=
  match data with
  | Some items =>
      list_to_set
        (filter (fun v => Js.truthy_string v = true)
                (omap (selected key) items))
  | None => ∅
  end.

(** [getStats()] *)
Definition getStats : Eff t Stats :=
  fun db =>
    let count := count_rows (table db) in
    let channelData := select_rows "metadata->>channelId" (table db) in
    let videoData := select_rows "metadata->>videoId" (table db) in
    (Ok {| totalDocuments := default 0 count;
           channels := size (distinct_values "metadata->>channelId" channelData);
           videos := size (distinct_values "metadata->>videoId" videoData) |},
     db).

End Services.

End VectorDatabase.

(** ** The conversation engine (conversational-ai.ts) *)

(** An entry of the [sources] array of an answer. *)
Module Source.
Record t : Type := {
  videoId : string;
  videoTitle : string;
  channelName : string;
  url : string;
  source : string;
  timestamp : option string
}.

Definition set_url (u : string) (s : t) : t :=
  {| videoId := videoId s; videoTitle := videoTitle s; channelName := channelName s;
     url := u; source := source s; timestamp := timestamp s |}.

Definition set_timestamp (ts : option string) (s : t) : t :=
  {| videoId := videoId s; videoTitle := videoTitle s; channelName := channelName s;
     url := url s; source := source s; timestamp := ts |}.
End Source.

Module ConversationalAI.

Record ConversationalAIConfig : Type := {
  openaiApiKey : string;
  modelName : option string;
  temperature : option Js.number;
  maxTokens : option Js.number
}.

Inductive Role : Type := user | assistant | system.

Record ChatMessage : Type := {
  role : Role;
  content : string
}.

(** The options the [OpenAI] model object is constructed with. *)
Record OpenAI : Type := {
  openAIApiKey : string;
  model_modelName : string;
  model_temperature : Js.number;
  model_maxTokens : Js.number
}.

(** The [ConversationalRetrievalQAChain] built by [initialize]. *)
Record Chain : Type := {
  retriever : VectorDatabase.SupabaseVectorStore;
  questionGeneratorTemplate : string;
  qaTemplate : string
}.

(** What [chain.call] resolves to. *)
Record ChainValues : Type := {
  text : string;
  sourceDocuments : option (list Document)
}.

(** A [ConversationalAI] object; [memory] is the content of its
    [BufferMemory] and [vectorDb] the vector database object its
    configuration refers to. *)
Record t : Type := {
  config : ConversationalAIConfig;
  vectorDb : VectorDatabase.t;
  model : OpenAI;
  chain : option Chain;
  memory : list ChatMessage;
  systemPrompt : string
}.

Record Answer : Type := {
  response : string;
  sources : list Source.t
}.

Definition default_temperature : Js.number := Js.Num (7 # 10).
Definition default_maxTokens : Js.number := Js.Num (1000 # 1).

Definition default_systemPrompt : string :=
"You are an AI assistant that helps users understand YouTube content. 
You have access to transcripts, descriptions, and metadata from YouTube videos.
When answering questions:
1. Base your answers on the actual content provided in the context.
2. If the context doesn't contain relevant information, say so rather than making things up.
3. Cite specific videos when providing information, including titles and timestamps when available.
4. Be conversational and helpful, but prioritize accuracy over speculation.
5. If asked about opinions, make it clear you're summarizing the content creator's views, not expressing your own.".

(** [new ConversationalAI(config)] *)
Definition new (cfg : ConversationalAIConfig) (db : VectorDatabase.t) : t :=
  {| config := cfg;
     vectorDb := db;
     model :=
       {| openAIApiKey := openaiApiKey cfg;
          model_modelName := Js.or_default Js.truthy_string (modelName cfg) "gpt-4";
          model_temperature :=
            Js.or_default Js.truthy_number (temperature cfg) default_temperature;
          model_maxTokens :=
            Js.or_default Js.truthy_number (maxTokens cfg) default_maxTokens |};
     chain := None;
     memory := [];
     systemPrompt := default_systemPrompt |}.

Definition set_vectorDb (db : VectorDatabase.t) (ai : t) : t :=
  {| config := config ai; vectorDb := db; model := model ai; chain := chain ai;
     memory := memory ai; systemPrompt := systemPrompt ai |}.

Definition set_chain (c : option Chain) (ai : t) : t :=
  {| config := config ai; vectorDb := vectorDb ai; model := model ai; chain := c;
     memory := memory ai; systemPrompt := systemPrompt ai |}.

Definition set_memory (m : list ChatMessage) (ai : t) : t :=
  {| config := config ai; vectorDb := vectorDb ai; model := model ai; chain := chain ai;
     memory := m; systemPrompt := systemPrompt ai |}.

Definition questionGenerator : string :=
"Given the following conversation and a follow up question, rephrase the follow up question to be a standalone question that captures all relevant context from the conversation.

Chat History:
{chat_history}

Follow Up Input: {question}
Standalone question:".

Definition qa_of (prompt : string) : string :=
  prompt +:+ "

Context information from YouTube videos:
{context}

Question: {question}
Answer:".

Definition apology : string :=
  "I encountered an error while processing your message. Please try again.".

Definition degraded : Answer := {| response := apology; sources := [] |}.

(** The object literal built for each source document. *)
Definition source_of_document (doc : Document) : Source.t :=
  {| Source.videoId := videoId (metadata doc);
     Source.videoTitle := videoTitle (metadata doc);
     Source.channelName := channelName (metadata doc);
     Source.url := url (metadata doc);
     Source.source := source (metadata doc);
     Source.timestamp := timestamp (metadata doc) |}.

(** [Array.from(new Map(sources.map(item => [item.videoId, item])).values())] *)
Definition uniqueSources (sources : list Source.t) : list Source.t :=
  JsMap.values (JsMap.of_entries (map (fun item => (Source.videoId item, item)) sources)).

(** [result.sourceDocuments?.map(...) || []] followed by the
    de-duplication. *)
Definition sources_of (result : ChainValues) : list Source.t :=
  uniqueSources
    (match sourceDocuments result with
     | Some docs => map source_of_document docs
     | None => []
     end).

Section Services.

Variable fromExistingIndex :
  VectorDatabase.VectorDBConfig -> result VectorDatabase.SupabaseVectorStore.

(** [ConversationalRetrievalQAChain.fromLLM]: the error LangChain
    throws when it cannot build the chain from the model and the
    options, if it throws.  The two prompt templates are parsed when
    the chain is built. *)
Variable fromLLM_fault : OpenAI -> Chain -> option string.

(** The body of the chain: question rewriting over the history,
    retrieval and generation, all by LangChain and the model
    provider.  It reads the memory and the index and fails when any
    of its steps fails. *)
Variable chain_run :
  Chain -> OpenAI -> VectorDatabase.t -> list ChatMessage -> string -> result ChainValues.

(** LangChain's [BaseChain.call]: the memory is loaded, the body is
    run, and only when the body has returned is the exchange saved to
    the memory ([saveContext], with [inputKey: 'question'] and
    [outputKey: 'text']). *)
Definition chain_call (c : Chain) (question : string) : Eff t ChainValues :=
  fun ai =>
    match chain_run c (model ai) (vectorDb ai) (memory ai) question with
    | Ok values =>
        (Ok values,
         set_memory (memory ai ++ [ {| role := user; content := question |};
                                    {| role := assistant; content := text values |} ]) ai)
    | Throw e => (Throw e, ai)
    end.

(** [initialize()]: the vector database is initialized, then the chain
    is built; an error of either is thrown again with a prefix. *)
Definition initialize : Eff t unit :=
  fun ai =>
    match VectorDatabase.initialize fromExistingIndex (vectorDb ai) with
    | (Ok _, db') =>
        match VectorDatabase.vectorStore db' with
        | Some vs =>
            let built := {| retriever := vs;
                            questionGeneratorTemplate := questionGenerator;
                            qaTemplate := qa_of (systemPrompt ai) |} in
            match fromLLM_fault (model ai) built with
            | None => (Ok tt, set_chain (Some built) (set_vectorDb db' ai))
            | Some e =>
                (Throw ("Failed to initialize conversational AI: " +:+ e),
                 set_vectorDb db' ai)
            end
        | None =>
            (Throw ("Failed to initialize conversational AI: "
                    +:+ "Cannot read properties of null (reading 'asRetriever')"),
             set_vectorDb db' ai)
        end
    | (Throw e, db') =>
        (Throw ("Failed to initialize conversational AI: " +:+ e), set_vectorDb db' ai)
    end.

(** [if (!this.chain) { await this.initialize(); }] *)
Definition ensure_initialized : Eff t unit :=
  fun ai =>
    match chain ai with
    | None => initialize ai
    | Some _ => (Ok tt, ai)
    end.

(** [processMessage(message)].  The lazy initialization stands in
    front of the [try]; the chain call and the extraction of the
    sources are inside it, and so would be the [TypeError] of a call on
    a chain that is [null]. *)
Definition processMessage (message : string) : Eff t Answer :=
  (ensure_initialized ;;;
   fun ai =>
     match chain ai with
     | None => (Ok degraded, ai)
     | Some c =>
         try_catch
           (result <- chain_call c message ;;
            ret {| response := text result; sources := sources_of result |})%eff
           (fun _ => ret degraded)
           ai
     end)%eff.

(** [clearHistory()] *)
Definition clearHistory : Eff t unit :=
  fun ai => (Ok tt, set_memory [] ai).

(** [setSystemPrompt(prompt)] *)
Definition setSystemPrompt (prompt : string) (ai : t) : t :=
  {| config := config ai; vectorDb := vectorDb ai; model := model ai; chain := None;
     memory := memory ai; systemPrompt := prompt |}.

(** [getConversationHistory()] *)
Definition getConversationHistory : Eff t (list ChatMessage) :=
  fun ai => (Ok (memory ai), ai).

End Services.

End ConversationalAI.

(** ** The metadata store (database.ts) *)

Module YouTubeDatabase.

Record Channel : Type := {
  channel_id : string;
  channel_name : string;
  channel_url : string;
  subscriber_count : option Z;
  video_count : option Z;
  channel_description : option string;
  channel_thumbnail_url : option string
}.

Record Video : Type := {
  video_id : string;
  video_channel_id : string;
  title : string;
  url : string;
  upload_date : option string;
  duration : option Z;
  view_count : option Z;
  like_count : option Z;
  description : option string;
  thumbnail_url : option string;
  tags : option string
}.

Record Transcript : Type := {
  transcript_video_id : string;
  language : option string;
  content : string
}.

Record AccessLog : Type := {
  path : string;
  ip : option string
}.

(** The tables the two routes touch.  [channel_id] and [video_id] are
    primary keys; transcripts are written through [storeTranscript]
    only, one per video. *)
Record t : Type := {
  channels : gmap string Channel;
  videos : gmap string Video;
  transcripts : gmap string Transcript;
  access_logs : list AccessLog
}.

Definition empty : t :=
  {| channels := ∅; videos := ∅; transcripts := ∅; access_logs := [] |}.

(** The statements the methods prepare and run. *)
Inductive Statement : Type :=
| SelectChannel (channelId : string)
| WriteChannel (channel : Channel)
| SelectVideo (videoId : string)
| SelectVideos (channelId : string)
| WriteVideo (video : Video)
| SelectTranscript (videoId : string)
| WriteTranscript (transcript : Transcript)
| InsertAccessLog (log : AccessLog).

Definition nonzero (z : Z) : bool := negb (z =? 0)%Z.

Section Services.

(** The D1 binding: a statement either runs or fails with a message.
    Whether it fails may depend on the state of the database it is run
    against. *)
Variable d1_fault : t -> Statement -> option string.

(** The foreign keys of the schema, which D1 enforces: a video refers
    to a channel of the [channels] table and a transcript to a video of
    the [videos] table. *)
Definition foreign_key_failed : string := "D1_ERROR: FOREIGN KEY constraint failed".

Definition violation (db : t) (stmt : Statement) : option string :=
  match stmt with
  | WriteVideo video =>
      match channels db !! video_channel_id video with
      | Some _ => None
      | None => Some foreign_key_failed
      end
  | WriteTranscript transcript =>
      match videos db !! transcript_video_id transcript with
      | Some _ => None
      | None => Some foreign_key_failed
      end
  | _ => None
  end.

Definition run (stmt : Statement) : Eff t unit :=
  fun db =>
    match d1_fault db stmt with
    | Some e => (Throw e, db)
    | None =>
        match violation db stmt with
        | Some e => (Throw e, db)
        | None => (Ok tt, db)
        end
    end.

(** [getChannel(channelId)] *)
Definition getChannel (channelId : string) : Eff t (option Channel) :=
  (run (SelectChannel channelId) ;;;
   fun db => (Ok (channels db !! channelId), db))%eff.

(** [storeChannel(channel)]: update or insert, with the defaults the
    statement binds. *)
Definition storeChannel (channel : Channel) : Eff t unit :=
  (_ <- getChannel (channel_id channel) ;;
   let stored :=
     {| channel_id := channel_id channel;
        channel_name := channel_name channel;
        channel_url := channel_url channel;
        subscriber_count := Some (Js.or_default nonzero (subscriber_count channel) 0%Z);
        video_count := Some (Js.or_default nonzero (video_count channel) 0%Z);
        channel_description :=
          Some (Js.or_default Js.truthy_string (channel_description channel) "");
        channel_thumbnail_url :=
          Some (Js.or_default Js.truthy_string (channel_thumbnail_url channel) "") |} in
   run (WriteChannel stored) ;;;
   fun db =>
     (Ok tt,
      {| channels := <[channel_id channel := stored]> (channels db);
         videos := videos db;
         transcripts := transcripts db;
         access_logs := access_logs db |}))%eff.

(** [getVideo(videoId)] *)
Definition getVideo (videoId : string) : Eff t (option Video) :=
  (run (SelectVideo videoId) ;;;
   fun db => (Ok (videos db !! videoId), db))%eff.

(** [listVideos(channelId, limit, offset)]; the order of the rows is
    the query's and is not used by the callers modelled here. *)
Definition listVideos (channelId : string) (limit offset : nat) : Eff t (list Video) :=
  (run (SelectVideos channelId) ;;;
   fun db =>
     let all := map snd (map_to_list (videos db)) in
     let selected :=
       if Js.truthy_string channelId
       then filter (fun v => video_channel_id v = channelId) all
       else all in
     (Ok (take limit (drop offset selected)), db))%eff.

(** [storeVideo(video)] *)
Definition storeVideo (video : Video) : Eff t unit :=
  (_ <- getVideo (video_id video) ;;
   let stored :=
     {| video_id := video_id video;
        video_channel_id := video_channel_id video;
        title := title video;
        url := url video;
        upload_date :=
          match upload_date video with
          | Some d => if Js.truthy_string d then Some d else None
          | None => None
          end;
        duration := Some (Js.or_default nonzero (duration video) 0%Z);
        view_count := Some (Js.or_default nonzero (view_count video) 0%Z);
        like_count := Some (Js.or_default nonzero (like_count video) 0%Z);
        description := Some (Js.or_default Js.truthy_string (description video) "");
        thumbnail_url := Some (Js.or_default Js.truthy_string (thumbnail_url video) "");
        tags := Some (Js.or_default Js.truthy_string (tags video) "") |} in
   run (WriteVideo stored) ;;;
   fun db =>
     (Ok tt,
      {| channels := channels db;
         videos := <[video_id video := stored]> (videos db);
         transcripts := transcripts db;
         access_logs := access_logs db |}))%eff.

(** [getTranscript(videoId)] *)
Definition getTranscript (videoId : string) : Eff t (option Transcript) :=
  (run (SelectTranscript videoId) ;;;
   fun db => (Ok (transcripts db !! videoId), db))%eff.

(** [storeTranscript(transcript)] *)
Definition storeTranscript (transcript : Transcript) : Eff t unit :=
  (_ <- getTranscript (transcript_video_id transcript) ;;
   let stored :=
     {| transcript_video_id := transcript_video_id transcript;
        language :=
          match language transcript with
          | Some l => if Js.truthy_string l then Some l else None
          | None => None
          end;
        content := content transcript |} in
   run (WriteTranscript stored) ;;;
   fun db =>
     (Ok tt,
      {| channels := channels db;
         videos := videos db;
         transcripts := <[transcript_video_id transcript := stored]> (transcripts db);
         access_logs := access_logs db |}))%eff.

(** [logAccess(path, userIp)] *)
Definition logAccess (p : string) (userIp : string) : Eff t unit :=
  let entry :=
    {| path := p; ip := if Js.truthy_string userIp then Some userIp else None |} in
  (run (InsertAccessLog entry) ;;;
   fun db =>
     (Ok tt,
      {| channels := channels db;
         videos := videos db;
         transcripts := transcripts db;
         access_logs := access_logs db ++ [entry] |}))%eff.

End Services.

End YouTubeDatabase.

(** ** The scraper (youtube-scraper.ts) *)

(** What [console.error] has printed so far. *)
Definition Console : Type := list string.

Definition console_error (line : string) : Eff Console unit :=
  fun console => (Ok tt, console ++ [line]).

Module YouTubeScraper.

Record ChannelInfo : Type := {
  channelId : string;
  channelName : string;
  channelUrl : string;
  subscriberCount : option Z;
  videoCount : option Z;
  channel_description : option string;
  channel_thumbnailUrl : option string
}.

Record VideoInfo : Type := {
  videoId : string;
  title : string;
  url : string;
  video_channelId : string;
  uploadDate : option string;
  duration : option Z;
  viewCount : option Z;
  likeCount : option Z;
  description : option string;
  thumbnailUrl : option string;
  tags : option (list string)
}.

Record TranscriptSegment : Type := {
  start : N;
  segment_duration : N;
  text : string
}.

Record TranscriptInfo : Type := {
  transcript_videoId : string;
  language : option string;
  segments : list TranscriptSegment
}.

Fixpoint skip (n : nat) (s : string) : string :=
  match n, s with
  | S n', String _ s' => skip n' s'
  | _, _ => s
  end.

Fixpoint take_until (stop : ascii -> bool) (s : string) : string :=
  match s with
  | EmptyString => EmptyString
  | String c s' => if stop c then EmptyString else String c (take_until stop s')
  end.

(** The first match of [literal] followed by one or more characters
    outside [stop], and the group those characters form. *)
Fixpoint capture_after (literal : string) (stop : ascii -> bool) (s : string)
    : option string :=
  let here :=
    if String.prefix literal s
    then
      let group := take_until stop (skip (String.length literal) s) in
      if Js.truthy_string group then Some group else None
    else None in
  match here with
  | Some group => Some group
  | None =>
      match s with
      | EmptyString => None
      | String _ s' => capture_after literal stop s'
      end
  end.

Definition slash_or_question (c : ascii) : bool :=
  Ascii.eqb c "/" || Ascii.eqb c "?".

Definition ampersand (c : ascii) : bool := Ascii.eqb c "&".

Fixpoint first_match (patterns : list (string * (ascii -> bool))) (s : string)
    : option string :=
  match patterns with
  | [] => None
  | (literal, stop) :: patterns' =>
      match capture_after literal stop s with
      | Some group => Some group
      | None => first_match patterns' s
      end
  end.

(** [extractChannelId(channelUrl)] *)
Definition extractChannelId (channelUrl : string) : option string :=
  first_match
    [ ("youtube.com/@", slash_or_question);
      ("youtube.com/channel/", slash_or_question);
      ("youtube.com/c/", slash_or_question);
      ("youtube.com/user/", slash_or_question) ]
    channelUrl.

(** [extractVideoId(videoUrl)] *)
Definition extractVideoId (videoUrl : string) : option string :=
  first_match
    [ ("youtube.com/watch?v=", ampersand);
      ("youtu.be/", slash_or_question);
      ("youtube.com/embed/", slash_or_question) ]
    videoUrl.

(** [fetchTranscript(videoId)]: the placeholder transcript. *)
Definition fetchTranscript (videoId : string) : Eff Console (option TranscriptInfo) :=
  ret (Some
    {| transcript_videoId := videoId;
       language := Some "en";
       segments :=
         [ {| start := 0; segment_duration := 5;
              text := "This is a placeholder transcript." |};
           {| start := 5; segment_duration := 5;
              text := "In a real implementation, you would need to use the YouTube API or a specialized library." |} ] |}).

(** [array.slice(i, j)] *)
Definition slice {A} (i j : nat) (l : list A) : list A :=
  take (j - i) (drop i l).

Definition batchSize : nat := 5.

Section Services.

(** The pages as fetched and parsed: the bodies of the [try] blocks
    of [scrapeChannel], [scrapeVideoLinks] and [scrapeVideo]. *)
Variable channel_page : string -> result ChannelInfo.
Variable videos_page : string -> nat -> result (list string).
Variable video_page : string -> result VideoInfo.

(** [scrapeChannel(channelUrl)] *)
Definition scrapeChannel (channelUrl : string) : Eff Console ChannelInfo :=
  try_catch (lift_result (channel_page channelUrl))
    (fun e =>
       console_error ("Error scraping channel: " +:+ e) ;;;
       throw ("Failed to scrape channel: " +:+ e))%eff.

(** [scrapeVideoLinks(channelUrl, maxVideos)] *)
Definition scrapeVideoLinks (channelUrl : string) (maxVideos : nat)
    : Eff Console (list string) :=
  try_catch (lift_result (videos_page (channelUrl +:+ "/videos") maxVideos))
    (fun e =>
       console_error ("Error scraping video links: " +:+ e) ;;;
       throw ("Failed to scrape video links: " +:+ e))%eff.

(** [scrapeVideo(videoUrl)] *)
Definition scrapeVideo (videoUrl : string) : Eff Console VideoInfo :=
  try_catch (lift_result (video_page videoUrl))
    (fun e =>
       console_error ("Error scraping video: " +:+ e) ;;;
       throw ("Failed to scrape video: " +:+ e))%eff.

(** What the scraping of one video leaves behind: its information when
    the page could be scraped, and the two lines of the console (the one
    of [scrapeVideo] and the one of [processVideoBatch]) when it could
    not. *)
Definition scraped (videoUrl : string) : option VideoInfo :=
  match video_page videoUrl with
  | Ok videoInfo => Some videoInfo
  | Throw _ => None
  end.

Definition reported (videoUrl : string) : list string :=
  match video_page videoUrl with
  | Ok _ => []
  | Throw e =>
      [ "Error scraping video: " +:+ e;
        "Error processing video " +:+ videoUrl +:+ ": "
        +:+ ("Failed to scrape video: " +:+ e) ]
  end.

(** The loop of [processVideoBatch]: a video that cannot be scraped
    is reported and the loop goes on with the next one. *)
Fixpoint processVideoBatch_loop (videoUrls : list string) (results : list VideoInfo)
    : Eff Console (list VideoInfo) :=
  match videoUrls with
  | [] => ret results
  | videoUrl :: rest =>
      (results' <-
         try_catch
           (videoInfo <- scrapeVideo videoUrl ;;
            ret (results ++ [videoInfo]))
           (fun e =>
              console_error ("Error processing video " +:+ videoUrl +:+ ": " +:+ e) ;;;
              ret results) ;;
       processVideoBatch_loop rest results')%eff
  end.

(** [processVideoBatch(videoUrls)] *)
Definition processVideoBatch (videoUrls : list string) : Eff Console (list VideoInfo) :=
  processVideoBatch_loop videoUrls [].

(** [for (let i = 0; i < videoLinks.length; i += batchSize)] with the
    method that is called on every batch, [this.processVideoBatch]; the
    index grows at every turn, so [length videoLinks] turns are
    enough. *)
Fixpoint batches_loop_with
    (processBatch : list string -> Eff Console (list VideoInfo))
    (turns i : nat) (videoLinks : list string)
    (videos : list VideoInfo) : Eff Console (list VideoInfo) :=
  match turns with
  | O => ret videos
  | S turns' =>
      if (i <? List.length videoLinks)%nat
      then
        (let batch := slice i (i + batchSize) videoLinks in
         batchResults <- processBatch batch ;;
         batches_loop_with processBatch turns' (i + batchSize) videoLinks
           (videos ++ batchResults))%eff
      else ret videos
  end.

Definition batches_loop : nat -> nat -> list string -> list VideoInfo
    -> Eff Console (list VideoInfo) :=
  batches_loop_with processVideoBatch.

(** [scrapeChannelWithVideos(channelUrl, maxVideos)] *)
Definition scrapeChannelWithVideos (channelUrl : string) (maxVideos : nat)
    : Eff Console (ChannelInfo * list VideoInfo) :=
  (channelInfo <- scrapeChannel channelUrl ;;
   videoLinks <- scrapeVideoLinks channelUrl maxVideos ;;
   videos <- batches_loop (List.length videoLinks) 0 videoLinks [] ;;
   ret (channelInfo, videos))%eff.

End Services.

(** Batches in the specification's words: the links cut into
    consecutive runs of [size] links, the last run possibly shorter;
    and a method called on one batch after the other, the videos it
    returns collected in order. *)
Fixpoint batches_of (turns size : nat) (links : list string) : list (list string) :=
  match turns, links with
  | S turns', _ :: _ => take size links :: batches_of turns' size (drop size links)
  | _, _ => []
  end.

Fixpoint process_batches
    (processBatch : list string -> Eff Console (list VideoInfo))
    (batches : list (list string)) (videos : list VideoInfo)
    : Eff Console (list VideoInfo) :=
  match batches with
  | [] => ret videos
  | batch :: batches' =>
      (batchResults <- processBatch batch ;;
       process_batches processBatch batches' (videos ++ batchResults))%eff
  end.

End YouTubeScraper.

(** ** HTTP responses of the two routes *)

Module Http.

Inductive Body : Type :=
| Error (error : string)
| ChannelSummary (channelId channelName : string) (videoCount : nat) (message : string)
| ChatAnswer (answer : ConversationalAI.Answer)
| ChatError (error : string) (answer : ConversationalAI.Answer).

Record Response : Type := {
  status : nat;
  body : Body
}.

Definition json (b : Body) : Response := {| status := 200; body := b |}.
Definition json_status (b : Body) (code : nat) : Response := {| status := code; body := b |}.

End Http.

(** ** The chat route (app/api/chat/route.ts) *)

Module ChatRoute.

(** The JSON body and the header the handler reads. *)
Record Request : Type := {
  message : option string;
  forwarded_for : option string
}.

(** The module-level objects of the route. *)
Record World : Type := {
  db : YouTubeDatabase.t;
  ai : ConversationalAI.t;
  console : Console
}.

Definition with_db {A} (m : Eff YouTubeDatabase.t A) : Eff World A :=
  fun w =>
    let '(r, d) := m (db w) in
    (r, {| db := d; ai := ai w; console := console w |}).

Definition with_ai {A} (m : Eff ConversationalAI.t A) : Eff World A :=
  fun w =>
    let '(r, a) := m (ai w) in
    (r, {| db := db w; ai := a; console := console w |}).

Definition with_console {A} (m : Eff Console A) : Eff World A :=
  fun w =>
    let '(r, c) := m (console w) in
    (r, {| db := db w; ai := ai w; console := c |}).

Definition is_digit (c : ascii) : bool :=
  let n := nat_of_ascii c in (48 <=? n)%nat && (n <=? 57)%nat.

(** The longest run of digits at the head of a string, and the rest. *)
Fixpoint digits_span (s : string) : string * string :=
  match s with
  | EmptyString => (EmptyString, EmptyString)
  | String c s' =>
      if is_digit c
      then let '(ds, rest) := digits_span s' in (String c ds, rest)
      else (EmptyString, s)
  end.

Fixpoint all_digits (s : string) : bool :=
  match s with
  | EmptyString => true
  | String c s' => is_digit c && all_digits s'
  end.

(** The group of a match of [/\[(\d+(?:\.\d+)?)s\]/]: the digits before
    the point and, when there is one, the digits after it. *)
Record Marker : Type := {
  whole : string;
  fraction : option string
}.

Definition closes (s : string) : bool := String.prefix "s]" s.

(** A match that starts at the head of the string.  A run of digits is
    always taken whole: the character after a shorter run is a digit,
    which no later part of the pattern accepts. *)
Definition marker_here (s : string) : option Marker :=
  match s with
  | String "[" s1 =>
      let '(ds, s2) := digits_span s1 in
      if Js.truthy_string ds
      then
        match s2 with
        | String "." s3 =>
            let '(fs, s4) := digits_span s3 in
            if Js.truthy_string fs && closes s4
            then Some {| whole := ds; fraction := Some fs |}
            else None
        | _ => if closes s2 then Some {| whole := ds; fraction := None |} else None
        end
      else None
  | _ => None
  end.

(** [timestamp.match(...)]: the leftmost match. *)
Fixpoint find_marker (s : string) : option Marker :=
  match marker_here s with
  | Some m => Some m
  | None =>
      match s with
      | EmptyString => None
      | String _ s' => find_marker s'
      end
  end.

Definition digit_value (c : ascii) : N := N.of_nat (nat_of_ascii c - 48).

Fixpoint N_of_digits_from (acc : N) (s : string) : N :=
  match s with
  | EmptyString => acc
  | String c s' => N_of_digits_from (10 * acc + digit_value c) s'
  end.

(** The number a run of decimal digits stands for. *)
Definition N_of_digits (s : string) : N := N_of_digits_from 0 s.

(** The groups a match can have: a digit at least before the point,
    and after it when there is one. *)
Definition captured (m : Marker) : bool :=
  Js.truthy_string (whole m) && all_digits (whole m)
  && match fraction m with
     | Some f => Js.truthy_string f && all_digits f
     | None => true
     end.

(** The text of the match with these groups. *)
Definition marker_text (m : Marker) : string :=
  match fraction m with
  | Some f => "[" +:+ whole m +:+ "." +:+ f +:+ "s]"
  | None => "[" +:+ whole m +:+ "s]"
  end.

(** [parseFloat(group)]: the double nearest to the decimal number of
    the group.  This is what V8 computes for every numeral; the
    language standard would let an engine round a numeral of more than
    20 significant digits at the 20th digit first. *)
Definition parseFloat (m : Marker) : Double.t :=
  match fraction m with
  | None => Double.nearest (Z.of_N (N_of_digits (whole m))) 1
  | Some f =>
      Double.nearest (Z.of_N (N_of_digits (whole m +:+ f)))
        (10 ^ Z.of_nat (String.length f))
  end.

(** [Math.floor(seconds)] *)
Definition whole_seconds (m : Marker) : Double.whole := Double.floor (parseFloat m).

(** The format [M:SS] in the specification's words: the whole minutes,
    a colon, and the remaining seconds on two digits. *)
Definition digit_char (d : N) : ascii := ascii_of_nat (48 + N.to_nat d).

Definition M_SS (seconds : N) : string :=
  Js.toString (seconds / 60)
  +:+ ":"
  +:+ String (digit_char ((seconds mod 60) / 10))
        (String (digit_char ((seconds mod 60) mod 10)) EmptyString).

Section Services.

Variable d1_fault : YouTubeDatabase.t -> YouTubeDatabase.Statement -> option string.

(** The text JavaScript prints for a whole number from [2^53] on. *)
Variable toString_large : Z -> string.

Local Abbreviation toString := (Double.toString toString_large).

(** [`${minutes}:${remainingSeconds.toString().padStart(2, '0')}`] with
    [minutes = Math.floor(seconds / 60)] and [remainingSeconds =
    Math.floor(seconds % 60)]. *)
Definition format_timestamp (seconds : Double.t) : string :=
  let minutes := Double.floor (Double.div seconds 60) in
  let remainingSeconds := Double.floor (Double.rem seconds 60) in
  toString minutes +:+ ":" +:+ Js.padStart2 (toString remainingSeconds).

(** The branch taken once the video is found: the URL is replaced by
    the stored one, and a timestamp that holds a marker is reformatted
    and carried over to the URL. *)
Definition enhance_with (videoDetails : YouTubeDatabase.Video) (source : Source.t)
    : Source.t :=
  let source := Source.set_url (YouTubeDatabase.url videoDetails) source in
  match Source.timestamp source with
  | Some ts =>
      if Js.truthy_string ts
      then
        match find_marker ts with
        | Some timestampMatch =>
            let seconds := parseFloat timestampMatch in
            let source := Source.set_timestamp (Some (format_timestamp seconds)) source in
            if negb (Js.includes "&t=" (Source.url source))
            then
              Source.set_url
                (Source.url source +:+ "&t=" +:+ toString (Double.floor seconds)) source
            else source
        | None => source
        end
      else source
  | None => source
  end.

Variable fromExistingIndex :
  VectorDatabase.VectorDBConfig -> result VectorDatabase.SupabaseVectorStore.
Variable fromLLM_fault :
  ConversationalAI.OpenAI -> ConversationalAI.Chain -> option string.
Variable chain_run :
  ConversationalAI.Chain -> ConversationalAI.OpenAI -> VectorDatabase.t ->
  list ConversationalAI.ChatMessage -> string -> result ConversationalAI.ChainValues.

(** The body of the loop over [result.sources]. *)
Definition enhance (source : Source.t) : Eff YouTubeDatabase.t Source.t :=
  if Js.truthy_string (Source.videoId source)
  then
    (videoDetails <- YouTubeDatabase.getVideo d1_fault (Source.videoId source) ;;
     match videoDetails with
     | Some v => ret (enhance_with v source)
     | None => ret source
     end)%eff
  else ret source.

Fixpoint enhance_all (sources : list Source.t) : Eff YouTubeDatabase.t (list Source.t) :=
  match sources with
  | [] => ret []
  | source :: rest =>
      (source' <- enhance source ;;
       rest' <- enhance_all rest ;;
       ret (source' :: rest'))%eff
  end.

(** The [try] block of [POST]. *)
Definition handle (request : Request) : Eff World Http.Response :=
  match message request with
  | None => ret (Http.json_status (Http.Error "Message is required") 400)
  | Some msg =>
      if negb (Js.truthy_string msg)
      then ret (Http.json_status (Http.Error "Message is required") 400)
      else
        (with_db (YouTubeDatabase.logAccess d1_fault "/api/chat"
                    (Js.or_default Js.truthy_string (forwarded_for request) "")) ;;;
         result <- with_ai (ConversationalAI.processMessage fromExistingIndex fromLLM_fault
                             chain_run msg) ;;
         sources <- with_db (enhance_all (ConversationalAI.sources result)) ;;
         ret (Http.json (Http.ChatAnswer
                {| ConversationalAI.response := ConversationalAI.response result;
                   ConversationalAI.sources := sources |})))%eff
  end.

(** [POST(request)] *)
Definition POST (request : Request) (w : World) : Http.Response * World :=
  match handle request w with
  | (Ok response, w') => (response, w')
  | (Throw e, w') =>
      (Http.json_status
         (Http.ChatError "Failed to process message" ConversationalAI.degraded) 500,
       {| db := db w'; ai := ai w';
          console := console w' ++ ["Error processing chat message: " +:+ e] |})
  end.

End Services.

End ChatRoute.

(** ** The channel route (app/api/process-channel/route.ts) *)

Module ProcessChannelRoute.

Record Request : Type := {
  channelUrl : option string
}.

Record World : Type := {
  db : YouTubeDatabase.t;
  vectorDb : VectorDatabase.t;
  console : Console
}.

Definition with_db {A} (m : Eff YouTubeDatabase.t A) : Eff World A :=
  fun w =>
    let '(r, d) := m (db w) in
    (r, {| db := d; vectorDb := vectorDb w; console := console w |}).

Definition with_vectorDb {A} (m : Eff VectorDatabase.t A) : Eff World A :=
  fun w =>
    let '(r, v) := m (vectorDb w) in
    (r, {| db := db w; vectorDb := v; console := console w |}).

Definition with_console {A} (m : Eff Console A) : Eff World A :=
  fun w =>
    let '(r, c) := m (console w) in
    (r, {| db := db w; vectorDb := vectorDb w; console := c |}).

(** [`[${s.start}s] ${s.text}`] *)
Definition segment_line (s : YouTubeScraper.TranscriptSegment) : string :=
  "[" +:+ Js.toString (YouTubeScraper.start s) +:+ "s] " +:+ YouTubeScraper.text s.

Definition newline : string := String "010" EmptyString.

(** [transcript.segments.map(...).join('\n')] *)
Definition transcript_content (tr : YouTubeScraper.TranscriptInfo) : string :=
  String.concat newline (map segment_line (YouTubeScraper.segments tr)).

Definition channel_row (channel : YouTubeScraper.ChannelInfo) : YouTubeDatabase.Channel :=
  {| YouTubeDatabase.channel_id := YouTubeScraper.channelId channel;
     YouTubeDatabase.channel_name := YouTubeScraper.channelName channel;
     YouTubeDatabase.channel_url := YouTubeScraper.channelUrl channel;
     YouTubeDatabase.subscriber_count := YouTubeScraper.subscriberCount channel;
     YouTubeDatabase.video_count := YouTubeScraper.videoCount channel;
     YouTubeDatabase.channel_description := YouTubeScraper.channel_description channel;
     YouTubeDatabase.channel_thumbnail_url := YouTubeScraper.channel_thumbnailUrl channel |}.

Definition video_row (channel : YouTubeScraper.ChannelInfo) (video : YouTubeScraper.VideoInfo)
    : YouTubeDatabase.Video :=
  {| YouTubeDatabase.video_id := YouTubeScraper.videoId video;
     YouTubeDatabase.video_channel_id := YouTubeScraper.channelId channel;
     YouTubeDatabase.title := YouTubeScraper.title video;
     YouTubeDatabase.url := YouTubeScraper.url video;
     YouTubeDatabase.upload_date := YouTubeScraper.uploadDate video;
     YouTubeDatabase.duration := YouTubeScraper.duration video;
     YouTubeDatabase.view_count := YouTubeScraper.viewCount video;
     YouTubeDatabase.like_count := YouTubeScraper.likeCount video;
     YouTubeDatabase.description := YouTubeScraper.description video;
     YouTubeDatabase.thumbnail_url := YouTubeScraper.thumbnailUrl video;
     YouTubeDatabase.tags := option_map (String.concat ", ") (YouTubeScraper.tags video) |}.

Section Services.

Variable d1_fault : YouTubeDatabase.t -> YouTubeDatabase.Statement -> option string.
Variable embed : string -> result VectorDatabase.Embedding.
Variable splitText : string -> list string.
Variable upsert :
  VectorDatabase.Table -> list (Document * VectorDatabase.Embedding) -> VectorDatabase.Upsert.
Variable channel_page : string -> result YouTubeScraper.ChannelInfo.
Variable videos_page : string -> nat -> result (list string).
Variable video_page : string -> result YouTubeScraper.VideoInfo.

(** The body of the loop over the scraped videos: store the video,
    fetch and store its transcript, index its content. *)
Definition ingest_video (channel : YouTubeScraper.ChannelInfo)
    (video : YouTubeScraper.VideoInfo) : Eff World unit :=
  (with_db (YouTubeDatabase.storeVideo d1_fault (video_row channel video)) ;;;
   transcript <- with_console (YouTubeScraper.fetchTranscript (YouTubeScraper.videoId video)) ;;
   match transcript with
   | Some tr =>
       with_db (YouTubeDatabase.storeTranscript d1_fault
                  {| YouTubeDatabase.transcript_video_id := YouTubeScraper.videoId video;
                     YouTubeDatabase.language := YouTubeScraper.language tr;
                     YouTubeDatabase.content := transcript_content tr |}) ;;;
       with_vectorDb
         (VectorDatabase.processVideoContent embed splitText upsert
            (YouTubeScraper.videoId video)
            (YouTubeScraper.channelId channel)
            (YouTubeScraper.title video)
            (transcript_content tr)
            (Js.or_default Js.truthy_string (YouTubeScraper.description video) "")
            {| VectorDatabase.vm_channelName := YouTubeScraper.channelName channel;
               VectorDatabase.vm_url := YouTubeScraper.url video;
               VectorDatabase.vm_viewCount := YouTubeScraper.viewCount video;
               VectorDatabase.vm_uploadDate := YouTubeScraper.uploadDate video |})
   | None => ret tt
   end)%eff.

(** The [try] block of [POST]. *)
Definition handle (request : Request) : Eff World Http.Response :=
  match channelUrl request with
  | None => ret (Http.json_status (Http.Error "Channel URL is required") 400)
  | Some channelUrl =>
      if negb (Js.truthy_string channelUrl)
      then ret (Http.json_status (Http.Error "Channel URL is required") 400)
      else
        match YouTubeScraper.extractChannelId channelUrl with
        | None => ret (Http.json_status (Http.Error "Invalid YouTube channel URL") 400)
        | Some channelId =>
            (existingChannel <- with_db (YouTubeDatabase.getChannel d1_fault channelId) ;;
             match existingChannel with
             | Some existing =>
                 videos <- with_db (YouTubeDatabase.listVideos d1_fault channelId 100 0) ;;
                 ret (Http.json (Http.ChannelSummary channelId
                        (YouTubeDatabase.channel_name existing)
                        (List.length videos) "Channel already processed"))
             | None =>
                 scraped <- with_console
                   (YouTubeScraper.scrapeChannelWithVideos
                      channel_page videos_page video_page channelUrl 20) ;;
                 let '(channel, videos) := scraped in
                 with_db (YouTubeDatabase.storeChannel d1_fault (channel_row channel)) ;;;
                 for_of videos (ingest_video channel) ;;;
                 ret (Http.json (Http.ChannelSummary channelId
                        (YouTubeScraper.channelName channel)
                        (List.length videos) "Channel processed successfully"))
             end)%eff
        end
  end.

(** [POST(request)] *)
Definition POST (request : Request) (w : World) : Http.Response * World :=
  match handle request w with
  | (Ok response, w') => (response, w')
  | (Throw e, w') =>
      (Http.json_status (Http.Error "Failed to process channel") 500,
       {| db := db w'; vectorDb := vectorDb w';
          console := console w' ++ ["Error processing channel: " +:+ e] |})
  end.

End Services.

End ProcessChannelRoute.

(** ** The shape of a dialogue *)

Module Dialogue.

(** A history made of exchanges: a user turn followed by the
    assistant's turn, any number of times. *)
Fixpoint exchanges (history : list ConversationalAI.ChatMessage) : bool :=
  match history with
  | [] => true
  | {| ConversationalAI.role := ConversationalAI.user |}
      :: {| ConversationalAI.role := ConversationalAI.assistant |} :: rest =>
      exchanges rest
  | _ => false
  end.

End Dialogue.

(** ** The duration of a video (youtube-scraper.ts, in [scrapeVideo])

    The part of [scrapeVideo] that turns the content of the [duration]
    meta tag, an ISO 8601 duration such as [PT1H2M3S], into seconds. *)

Module VideoPage.

(** The text after the first [PT] of a string. *)
Fixpoint after_PT (s : string) : option string :=
  if String.prefix "PT" s then Some (YouTubeScraper.skip 2 s)
  else
    match s with
    | EmptyString => None
    | String _ s' => after_PT s'
    end.

(** One optional part [(?:(\d+)U)?] of the pattern at the head of a
    string: the digits of the group when digits and the unit letter are
    there, and what follows the part. *)
Definition unit_part (unit : ascii) (s : string) : option string * string :=
  let '(ds, rest) := ChatRoute.digits_span s in
  if Js.truthy_string ds
  then
    match rest with
    | String c rest' => if Ascii.eqb c unit then (Some ds, rest') else (None, s)
    | EmptyString => (None, s)
    end
  else (None, s).

(** [parseInt(group || '0')] *)
Definition parseInt_or_zero (group : option string) : N :=
  match group with
  | Some ds => ChatRoute.N_of_digits ds
  | None => 0
  end.

(** The duration in seconds: 0 when the tag is missing or empty or holds
    no [PT], else hours, minutes and seconds added up. *)
Definition parseDuration (durationText : option string) : N :=
  match durationText with
  | None => 0
  | Some t =>
      if Js.truthy_string t
      then
        match after_PT t with
        | None => 0
        | Some s1 =>
            let '(hours, s2) := unit_part "H" s1 in
            let '(minutes, s3) := unit_part "M" s2 in
            let '(seconds, _) := unit_part "S" s3 in
            (parseInt_or_zero hours * 3600 + parseInt_or_zero minutes * 60
             + parseInt_or_zero seconds)%N
        end
      else 0
  end.

(** An ISO 8601 duration of hours, minutes and seconds, each part
    written only when it is given. *)
Definition iso_part (n : option N) (unit : string) : string :=
  match n with
  | Some k => Js.toString k +:+ unit
  | None => EmptyString
  end.

Definition iso_duration (h m s : option N) : string :=
  "PT" +:+ iso_part h "H" +:+ iso_part m "M" +:+ iso_part s "S".

End VideoPage.

(** ** The shape of a URL behind a pattern *)

Module UrlShape.

(** What ends a captured group: the end of the string or a character of
    the stop set. *)
Definition ends_group (stop : ascii -> bool) (rest : string) : Prop :=
  match rest with
  | EmptyString => True
  | String c _ => stop c = true
  end.

End UrlShape.

(** ** Concrete services and objects

    Instances of the external services, used to run the model on
    concrete inputs. *)

Module Scenario.

Definition cfg : VectorDatabase.VectorDBConfig :=
  {| VectorDatabase.supabaseUrl := "https://project.supabase.co";
     VectorDatabase.supabaseKey := "anon-key";
     VectorDatabase.openaiApiKey := "sk-key";
     VectorDatabase.tableName := "youtube_embeddings" |}.

Definition empty_table : VectorDatabase.Table :=
  {| VectorDatabase.rows := []; VectorDatabase.next_id := 1 |}.

(** [fromExistingIndex]: the handle on the table of the
    configuration. *)
Definition index_up (c : VectorDatabase.VectorDBConfig)
    : result VectorDatabase.SupabaseVectorStore :=
  Ok {| VectorDatabase.store_tableName := VectorDatabase.tableName c;
        VectorDatabase.queryName := "match_documents" |}.

(** A table that stores every write and carries out every request, and
    a response in which a selected metadata key stands under the name
    it was selected by. *)
Definition upsert_up (tb : VectorDatabase.Table)
    (new_rows : list (Document * VectorDatabase.Embedding)) : VectorDatabase.Upsert :=
  VectorDatabase.Stored.

Definition delete_up (tb : VectorDatabase.Table) (key value : string) : bool := false.

Definition select_up (tb : VectorDatabase.Table) (query : VectorDatabase.StatsQuery)
    : bool := false.

Definition selected_by_name (key : string) (r : VectorDatabase.Row) : option string :=
  if String.eqb key "metadata->>channelId"
  then Some (channelId (VectorDatabase.row_metadata r))
  else if String.eqb key "metadata->>videoId"
  then Some (videoId (VectorDatabase.row_metadata r))
  else None.

(** A table that rejects every write and refuses every delete. *)
Definition upsert_down (tb : VectorDatabase.Table)
    (new_rows : list (Document * VectorDatabase.Embedding)) : VectorDatabase.Upsert :=
  VectorDatabase.Rejected 0 "permission denied for table youtube_embeddings 403 Forbidden".

Definition delete_down (tb : VectorDatabase.Table) (key value : string) : bool := true.

(** The braces of a prompt template as LangChain's parser reads them:
    [{{] and [}}] are literal braces, [{name}] is a variable, an
    opening brace without a closing one and a closing brace on its own
    are errors. *)
Fixpoint after_closing_brace (s : string) : option string :=
  match s with
  | EmptyString => None
  | String "}" s' => Some s'
  | String _ s' => after_closing_brace s'
  end.

Fixpoint template_error (turns : nat) (s : string) : option string :=
  match turns with
  | O => None
  | S turns' =>
      match s with
      | EmptyString => None
      | String "{" (String "{" s') => template_error turns' s'
      | String "}" (String "}" s') => template_error turns' s'
      | String "{" s' =>
          match after_closing_brace s' with
          | Some s'' => template_error turns' s''
          | None => Some "Unclosed '{' in template."
          end
      | String "}" _ => Some "Single '}' in template."
      | String _ s' => template_error turns' s'
      end
  end.

(** [fromLLM] fails when one of the two templates cannot be parsed. *)
Definition fromLLM (m : ConversationalAI.OpenAI) (c : ConversationalAI.Chain)
    : option string :=
  match template_error (String.length (ConversationalAI.qaTemplate c))
          (ConversationalAI.qaTemplate c) with
  | Some e => Some e
  | None =>
      template_error (String.length (ConversationalAI.questionGeneratorTemplate c))
        (ConversationalAI.questionGeneratorTemplate c)
  end.

(** The engine as the routes construct it. *)
Definition engine : ConversationalAI.t :=
  ConversationalAI.new
    {| ConversationalAI.openaiApiKey := "sk-key";
       ConversationalAI.modelName := Some "gpt-4";
       ConversationalAI.temperature := Some (Js.Num (7 # 10));
       ConversationalAI.maxTokens := None |}
    (VectorDatabase.new cfg empty_table).

Definition chunk (video kind text : string) : Document :=
  {| pageContent := text;
     metadata :=
       {| videoId := video;
          channelId := "UC1";
          videoTitle := "Test Video";
          channelName := "Test Channel";
          url := "https://www.youtube.com/watch?v=" +:+ video;
          viewCount := None;
          uploadDate := None;
          likeCount := None;
          author := None;
          source := kind;
          timestamp := None |} |}.

(** A chain whose retrieval returns a transcript chunk and then a
    description chunk of the same video. *)
Definition chain_two_chunks (c : ConversationalAI.Chain) (m : ConversationalAI.OpenAI)
    (db : VectorDatabase.t) (history : list ConversationalAI.ChatMessage)
    (question : string) : result ConversationalAI.ChainValues :=
  Ok {| ConversationalAI.text := "It is a test video.";
        ConversationalAI.sourceDocuments :=
          Some [ chunk "v1" "transcript" "[0s] Hello world.";
                 chunk "v1" "description" "A test video." ] |}.

(** A chain whose generation step fails. *)
Definition chain_failing (c : ConversationalAI.Chain) (m : ConversationalAI.OpenAI)
    (db : VectorDatabase.t) (history : list ConversationalAI.ChatMessage)
    (question : string) : result ConversationalAI.ChainValues :=
  Throw "generation failed".

(** An embedding provider that answers, and one that does not. *)
Definition embed_up (text : string) : result VectorDatabase.Embedding :=
  Ok [1%Q; 0%Q].

Definition embed_down (text : string) : result VectorDatabase.Embedding :=
  Throw "embedding failed".

(** The splitter as the sources configure it. *)
Definition splitter : string -> list string :=
  RecursiveCharacterTextSplitter.splitText 1000 200.

(** A vector database whose index has been initialized. *)
Definition db_ready : VectorDatabase.t :=
  snd (VectorDatabase.initialize index_up (VectorDatabase.new cfg empty_table)).

Definition video_meta : VectorDatabase.VideoMetadata :=
  {| VectorDatabase.vm_channelName := "Test Channel";
     VectorDatabase.vm_url := "https://www.youtube.com/watch?v=v1";
     VectorDatabase.vm_viewCount := Some 10%Z;
     VectorDatabase.vm_uploadDate := None |}.

Definition transcript : string :=
  "[0s] Hello world." +:+ String "010" EmptyString +:+ "[5s] This is a test.".

Definition description : string := "A test video.".

Definition title : string := "Test Video".

(** The index after the video has been ingested once, and twice. *)
Definition db_once : VectorDatabase.t :=
  snd (VectorDatabase.processVideoContent embed_up splitter upsert_up
         "v1" "UC1" title transcript description video_meta db_ready).

Definition db_twice : VectorDatabase.t :=
  snd (VectorDatabase.processVideoContent embed_up splitter upsert_up
         "v1" "UC1" title transcript description video_meta db_once).

Definition comments : list VectorDatabase.Comment :=
  [ {| VectorDatabase.comment_author := "ann";
       VectorDatabase.comment_content := "Great video";
       VectorDatabase.comment_likeCount := Some 3%Z |};
    {| VectorDatabase.comment_author := "bob";
       VectorDatabase.comment_content := "";
       VectorDatabase.comment_likeCount := None |} ].

Definition comment_meta : VectorDatabase.CommentMetadata :=
  {| VectorDatabase.cm_channelName := "Test Channel";
     VectorDatabase.cm_url := "https://www.youtube.com/watch?v=v1" |}.

(** A distance on two-dimensional unit vectors: one minus the inner
    product. *)
Definition distance (a b : VectorDatabase.Embedding) : Q :=
  match a, b with
  | [a1; a2], [b1; b2] => (1 - (a1 * b1 + a2 * b2))%Q
  | _, _ => 1%Q
  end.

Definition row (n : N) (video text : string) (v : VectorDatabase.Embedding)
    : VectorDatabase.Row :=
  {| VectorDatabase.id := n;
     VectorDatabase.content := text;
     VectorDatabase.row_metadata := metadata (chunk video "transcript" text);
     VectorDatabase.embedding := v |}.

(** A database, not yet initialized, over a table of three rows. *)
Definition db_three : VectorDatabase.t :=
  VectorDatabase.new cfg
    {| VectorDatabase.rows :=
         [ row 1 "v1" "far" [0%Q; 1%Q];
           row 2 "v2" "near" [1%Q; 0%Q];
           row 3 "v3" "between" [3 # 5; 4 # 5] ];
       VectorDatabase.next_id := 4 |}.

Fixpoint repeat_string (n : nat) (s : string) : string :=
  match n with
  | O => EmptyString
  | S n' => s +:+ repeat_string n' s
  end.

(** A title of 1250 characters. *)
Definition long_title : string := repeat_string 250 "word ".

(** The two citations of the chunks above. *)
Definition citation_transcript : Source.t :=
  ConversationalAI.source_of_document (chunk "v1" "transcript" "[0s] Hello world.").

Definition citation_description : Source.t :=
  ConversationalAI.source_of_document (chunk "v1" "description" "A test video.").

(** The engine after its first successful initialization. *)
Definition engine_ready : ConversationalAI.t :=
  snd (ConversationalAI.ensure_initialized index_up fromLLM engine).

Definition ready_chain : ConversationalAI.Chain :=
  {| ConversationalAI.retriever :=
       {| VectorDatabase.store_tableName := "youtube_embeddings";
          VectorDatabase.queryName := "match_documents" |};
     ConversationalAI.questionGeneratorTemplate := ConversationalAI.questionGenerator;
     ConversationalAI.qaTemplate :=
       ConversationalAI.qa_of ConversationalAI.default_systemPrompt |}.

(** A metadata store that never fails, holding the video [v1] and its
    channel. *)
Definition d1_up (db : YouTubeDatabase.t) (stmt : YouTubeDatabase.Statement)
    : option string := None.

Definition stored_channel : YouTubeDatabase.Channel :=
  {| YouTubeDatabase.channel_id := "UC1";
     YouTubeDatabase.channel_name := "Test Channel";
     YouTubeDatabase.channel_url := "https://www.youtube.com/channel/UC1";
     YouTubeDatabase.subscriber_count := Some 1200%Z;
     YouTubeDatabase.video_count := Some 2%Z;
     YouTubeDatabase.channel_description := Some "";
     YouTubeDatabase.channel_thumbnail_url := Some "" |}.

(** The numbers of the scenarios are all below [2^53]. *)
Definition toString_large (z : Z) : string := EmptyString.

Definition stored_video : YouTubeDatabase.Video :=
  {| YouTubeDatabase.video_id := "v1";
     YouTubeDatabase.video_channel_id := "UC1";
     YouTubeDatabase.title := "Test Video";
     YouTubeDatabase.url := "https://www.youtube.com/watch?v=v1";
     YouTubeDatabase.upload_date := None;
     YouTubeDatabase.duration := Some 300%Z;
     YouTubeDatabase.view_count := Some 10%Z;
     YouTubeDatabase.like_count := Some 0%Z;
     YouTubeDatabase.description := Some "A test video.";
     YouTubeDatabase.thumbnail_url := Some "";
     YouTubeDatabase.tags := Some "" |}.

Definition store_with_video : YouTubeDatabase.t :=
  {| YouTubeDatabase.channels := {[ "UC1" := stored_channel ]};
     YouTubeDatabase.videos := {[ "v1" := stored_video ]};
     YouTubeDatabase.transcripts := ∅;
     YouTubeDatabase.access_logs := [] |}.

(** A citation of [v1] whose timestamp field holds a marker. *)
Definition citation_marked : Source.t :=
  {| Source.videoId := "v1";
     Source.videoTitle := "Test Video";
     Source.channelName := "Test Channel";
     Source.url := "https://www.youtube.com/watch?v=v1";
     Source.source := "transcript";
     Source.timestamp := Some "[125s] Introduction" |}.

(** The same citation with a marker that has a fractional part, with
    one whose nearest double is the next whole number, and with one
    beyond the whole numbers a double holds. *)
Definition citation_fraction : Source.t :=
  Source.set_timestamp (Some "[125.75s] Introduction") citation_marked.

Definition citation_close : Source.t :=
  Source.set_timestamp (Some "[59.99999999999999999s] Summary") citation_marked.

Definition citation_far : Source.t :=
  Source.set_timestamp (Some "[9007199254740993s] Credits") citation_marked.

(** The citation of a transcript chunk as the normalizer stores it: the
    passage begins with a marker, the metadata has no timestamp. *)
Definition citation_of_stored_chunk : Source.t :=
  ConversationalAI.source_of_document
    {| pageContent := "[125s] Introduction";
       metadata :=
         VectorDatabase.video_chunk_metadata "v1" "UC1" "Test Video" video_meta
           "transcript" |}.

(** A channel with two videos. *)
Definition channel_url : string := "https://www.youtube.com/channel/UC1".

Definition url_v1 : string := "https://www.youtube.com/watch?v=v1".
Definition url_v2 : string := "https://www.youtube.com/watch?v=v2".

Definition channel_info (url : string) : YouTubeScraper.ChannelInfo :=
  {| YouTubeScraper.channelId := "UC1";
     YouTubeScraper.channelName := "Test Channel";
     YouTubeScraper.channelUrl := url;
     YouTubeScraper.subscriberCount := Some 1200%Z;
     YouTubeScraper.videoCount := Some 2%Z;
     YouTubeScraper.channel_description := Some "";
     YouTubeScraper.channel_thumbnailUrl := Some "" |}.

Definition channel_page (url : string) : result YouTubeScraper.ChannelInfo :=
  Ok (channel_info url).

Definition videos_page (url : string) (maxVideos : nat) : result (list string) :=
  Ok (take maxVideos [url_v1; url_v2]).

Definition video_info (url : string) : YouTubeScraper.VideoInfo :=
  {| YouTubeScraper.videoId := default "" (YouTubeScraper.extractVideoId url);
     YouTubeScraper.title := "Test Video";
     YouTubeScraper.url := url;
     YouTubeScraper.video_channelId := "";
     YouTubeScraper.uploadDate := None;
     YouTubeScraper.duration := Some 0%Z;
     YouTubeScraper.viewCount := Some 0%Z;
     YouTubeScraper.likeCount := Some 0%Z;
     YouTubeScraper.description := Some "A test video.";
     YouTubeScraper.thumbnailUrl := Some "";
     YouTubeScraper.tags := Some [] |}.

(** Every video page can be scraped. *)
Definition video_page_up (url : string) : result YouTubeScraper.VideoInfo :=
  Ok (video_info url).

(** The page of the first video cannot be fetched. *)
Definition video_page_v1_down (url : string) : result YouTubeScraper.VideoInfo :=
  if String.eqb url url_v1 then Throw "Failed to fetch video: 404"
  else Ok (video_info url).

(** A metadata store that refuses to write the first video. *)
Definition d1_v1_down (db : YouTubeDatabase.t) (stmt : YouTubeDatabase.Statement)
    : option string :=
  match stmt with
  | YouTubeDatabase.WriteVideo v =>
      if String.eqb (YouTubeDatabase.video_id v) "v1" then Some "D1_ERROR" else None
  | _ => None
  end.

(** The objects of the channel route before the first request. *)
Definition channel_world : ProcessChannelRoute.World :=
  {| ProcessChannelRoute.db := YouTubeDatabase.empty;
     ProcessChannelRoute.vectorDb := VectorDatabase.new cfg empty_table;
     ProcessChannelRoute.console := [] |}.

Definition channel_request : ProcessChannelRoute.Request :=
  {| ProcessChannelRoute.channelUrl := Some channel_url |}.

End Scenario.

(** ** Further concrete services and objects *)

Module Cases.

(** An embedding provider that embeds transcript lines only. *)
Definition embed_transcripts_only (text : string) : result VectorDatabase.Embedding :=
  if String.prefix "[" text then Ok [1%Q; 0%Q] else Throw "embedding failed".

(** A database that has never been initialized. *)
Definition db_new : VectorDatabase.t :=
  VectorDatabase.new Scenario.cfg Scenario.empty_table.

(** The index after a video of a second channel has been ingested, and
    the table of three rows behind an initialized index. *)
Definition db_two_channels : VectorDatabase.t :=
  snd (VectorDatabase.processVideoContent Scenario.embed_up Scenario.splitter
         Scenario.upsert_up
         "v9" "UC2" "Another Video" "[7s] Welcome back" "" Scenario.video_meta
         Scenario.db_once).

Definition db_three_ready : VectorDatabase.t :=
  snd (VectorDatabase.initialize Scenario.index_up Scenario.db_three).

Definition db_four : VectorDatabase.t :=
  snd (VectorDatabase.processVideoContent Scenario.embed_up Scenario.splitter
         Scenario.upsert_up
         "v4" "UC1" Scenario.title Scenario.transcript Scenario.description
         Scenario.video_meta db_three_ready).

(** The engine after it has answered a first question. *)
Definition engine_answered : ConversationalAI.t :=
  snd (ConversationalAI.processMessage Scenario.index_up Scenario.fromLLM
         Scenario.chain_two_chunks
         "What is this video about?" Scenario.engine).

(** The engine after its prompt has been set to one that asks for
    nested JSON. *)
Definition engine_braces : ConversationalAI.t :=
  ConversationalAI.setSystemPrompt "Reply as JSON: {'answer': {'text': '...'}}"
    Scenario.engine.

Definition first_answer : ConversationalAI.Answer :=
  {| ConversationalAI.response := "It is a test video.";
     ConversationalAI.sources := [Scenario.citation_description] |}.

(** A metadata store that holds the channel [UC1] and no video yet. *)
Definition store_with_channel : YouTubeDatabase.t :=
  {| YouTubeDatabase.channels := {[ "UC1" := Scenario.stored_channel ]};
     YouTubeDatabase.videos := ∅;
     YouTubeDatabase.transcripts := ∅;
     YouTubeDatabase.access_logs := [] |}.

(** The objects of the chat route before the first request, over a
    store that holds the video [v1], and a question. *)
Definition chat_world : ChatRoute.World :=
  {| ChatRoute.db := Scenario.store_with_video;
     ChatRoute.ai := Scenario.engine;
     ChatRoute.console := [] |}.

Definition chat_request : ChatRoute.Request :=
  {| ChatRoute.message := Some "What is this video about?";
     ChatRoute.forwarded_for := Some "203.0.113.7" |}.

(** A metadata store whose access log cannot be written. *)
Definition d1_log_down (db : YouTubeDatabase.t) (stmt : YouTubeDatabase.Statement)
    : option string :=
  match stmt with
  | YouTubeDatabase.InsertAccessLog _ => Some "D1_ERROR"
  | _ => None
  end.

End Cases.

(** * Properties *)

(** ** The JavaScript [Map] *)

Module JsMapFacts.
Section WithValue.
Context {V : Type}.
Implicit Types (m : JsMap.t V) (k : string) (v : V).

Lemma keys_set k v m :
  JsMap.keys (JsMap.set k v m)
  = if decide (k ∈ JsMap.keys m) then JsMap.keys m else JsMap.keys m ++ [k].
Proof.
  induction m as [|[k' v'] m IH].
  - cbn. destruct (decide (k ∈ [])) as [H|H]; [by apply elem_of_nil in H | done].
  - cbn. destruct (String.eqb_spec k k') as [->|Hne]; cbn.
    + destruct (decide (k' ∈ k' :: map fst m)) as [H|H]; [done|].
      exfalso. apply H. left.
    + fold (JsMap.keys (JsMap.set k v m)). rewrite IH. fold (JsMap.keys m).
      destruct (decide (k ∈ JsMap.keys m)) as [H1|H1];
        destruct (decide (k ∈ k' :: JsMap.keys m)) as [H2|H2]; try done.
      * exfalso. apply H2. by right.
      * exfalso. apply elem_of_cons in H2 as [?|?]; done.
Qed.

Lemma NoDup_keys_set k v m :
  NoDup (JsMap.keys m) -> NoDup (JsMap.keys (JsMap.set k v m)).
Proof.
  intros Hnd. rewrite (keys_set k v m). case_decide as H; [done|].
  apply NoDup_app. split_and!; [done | | apply NoDup_singleton].
  intros x Hx Hx'. apply list_elem_of_singleton in Hx' as ->. done.
Qed.

Lemma get_set k k' v m :
  JsMap.get k' (JsMap.set k v m) = if String.eqb k' k then Some v else JsMap.get k' m.
Proof.
  induction m as [|[k0 v0] m IH]; simpl.
  - done.
  - destruct (String.eqb_spec k k0) as [->|Hne]; simpl.
    + by destruct (String.eqb k' k0).
    + rewrite IH. destruct (String.eqb_spec k' k0) as [->|Hne'];
        destruct (String.eqb_spec k0 k) as [->|?]; try done.
Qed.

Lemma get_Some_of_elem k v m :
  NoDup (JsMap.keys m) -> (k, v) ∈ m -> JsMap.get k m = Some v.
Proof.
  induction m as [|[k0 v0] m IH]; simpl; intros Hnd Hin.
  - by apply elem_of_nil in Hin.
  - apply NoDup_cons in Hnd as [Hk0 Hnd].
    apply elem_of_cons in Hin as [Heq|Hin].
    + injection Heq as -> ->. by rewrite String.eqb_refl.
    + destruct (String.eqb_spec k k0) as [->|Hne]; [|by apply IH].
      exfalso. apply Hk0. apply list_elem_of_fmap. by exists (k0, v).
Qed.

Lemma NoDup_keys_fold entries m :
  NoDup (JsMap.keys m) -> NoDup (JsMap.keys (fold_left JsMap.step entries m)).
Proof.
  revert m. induction entries as [|e entries IH]; simpl; intros m Hnd; [done|].
  apply IH. by apply NoDup_keys_set.
Qed.

Lemma keys_fold entries m :
  JsMap.keys (fold_left JsMap.step entries m)
  = JsMap.keys m
    ++ filter (fun k => k ∉ JsMap.keys m) (JsMap.first_occurrences (map fst entries)).
Proof.
  revert m. induction entries as [|[k v] entries IH]; intros m.
  - cbn. by rewrite app_nil_r.
  - cbn [fold_left map fst JsMap.first_occurrences]. rewrite IH.
    unfold JsMap.step. cbn [fst snd]. rewrite (keys_set k v m).
    rewrite filter_cons.
    rewrite (list_filter_filter (fun k0 => k0 ∉ JsMap.keys m) (fun k0 => k0 <> k)).
    destruct (decide (k ∈ JsMap.keys m)) as [Hin|Hin].
    + rewrite decide_False by (intros H; by apply H).
      f_equal. apply list_filter_iff. intros x. split; [|tauto].
      intros Hx. split; [done|]. by intros ->.
    + rewrite decide_True by done.
      rewrite <- app_assoc. cbn [app]. do 2 f_equal.
      apply list_filter_iff. intros x.
      rewrite elem_of_app, list_elem_of_singleton. tauto.
Qed.

Lemma get_fold k entries m :
  JsMap.get k (fold_left JsMap.step entries m)
  = match JsMap.last_with k entries with
    | Some v => Some v
    | None => JsMap.get k m
    end.
Proof.
  revert m. induction entries as [|[k0 v0] entries IH]; simpl; intros m; [done|].
  rewrite IH. destruct (JsMap.last_with k entries); [done|].
  unfold JsMap.step. simpl. rewrite get_set. by destruct (String.eqb k k0).
Qed.

(** [new Map(entries)]: keys are distinct, stand in the order of
    their first occurrence, and carry the value of their last
    occurrence. *)
Lemma NoDup_keys_of_entries (entries : list (string * V)) :
  NoDup (JsMap.keys (JsMap.of_entries entries)).
Proof.
  unfold JsMap.of_entries.
  apply NoDup_keys_fold. constructor.
Qed.

Lemma keys_of_entries (entries : list (string * V)) :
  JsMap.keys (JsMap.of_entries entries) = JsMap.first_occurrences (map fst entries).
Proof.
  unfold JsMap.of_entries.
  rewrite (keys_fold entries []). cbn [JsMap.keys map app].
  induction (JsMap.first_occurrences (map fst entries)) as [|x l IH]; [done|].
  rewrite filter_cons_True by apply not_elem_of_nil. by rewrite IH.
Qed.

Lemma get_of_entries k (entries : list (string * V)) :
  JsMap.get k (JsMap.of_entries entries) = JsMap.last_with k entries.
Proof.
  unfold JsMap.of_entries.
  rewrite (get_fold k entries []). cbn [JsMap.get].
  by destruct (JsMap.last_with k entries).
Qed.

End WithValue.
End JsMapFacts.

(** ** The conversation engine *)

Module ConversationalAIFacts.
Import ConversationalAI.

Section Services.
Variable fromExistingIndex :
  VectorDatabase.VectorDBConfig -> result VectorDatabase.SupabaseVectorStore.
Variable fromLLM_fault : OpenAI -> Chain -> option string.
Variable chain_run :
  Chain -> OpenAI -> VectorDatabase.t -> list ChatMessage -> string -> result ChainValues.

Local Abbreviation initialize :=
  (ConversationalAI.initialize fromExistingIndex fromLLM_fault).
Local Abbreviation ensure_initialized :=
  (ConversationalAI.ensure_initialized fromExistingIndex fromLLM_fault).
Local Abbreviation processMessage :=
  (ConversationalAI.processMessage fromExistingIndex fromLLM_fault chain_run).

(** Initialization touches neither the memory nor the model, and
    leaves a chain behind when it succeeds. *)
Lemma initialize_inv ai r ai1 :
  initialize ai = (r, ai1) ->
  memory ai1 = memory ai /\ model ai1 = model ai /\
  match r with
  | Ok _ => exists c, chain ai1 = Some c
  | Throw e =>
      chain ai1 = chain ai /\
      exists cause, e = "Failed to initialize conversational AI: " +:+ cause
  end.
Proof.
  unfold ConversationalAI.initialize, VectorDatabase.initialize, bind.
  destruct (fromExistingIndex (VectorDatabase.config (vectorDb ai))) as [vs|e];
    cbn; [destruct (fromLLM_fault _ _) as [e|]|]; intros [= <- <-]; cbn; eauto.
Qed.

Lemma ensure_initialized_inv ai r ai1 :
  ensure_initialized ai = (r, ai1) ->
  memory ai1 = memory ai /\ model ai1 = model ai /\
  match r with
  | Ok _ => exists c, chain ai1 = Some c
  | Throw e => chain ai = None /\ chain ai1 = None
  end.
Proof.
  unfold ConversationalAI.ensure_initialized.
  destruct (chain ai) as [c|] eqn:Hc.
  - intros [= <- <-]. eauto.
  - intros H. apply initialize_inv in H as (? & ? & H).
    destruct r; [done|]. destruct H as [H _]. rewrite H. done.
Qed.

(** [processMessage] by cases on the initialization and on the chain. *)
Lemma processMessage_cases message ai :
  processMessage message ai
  = match ensure_initialized ai with
    | (Ok _, ai1) =>
        match chain ai1 with
        | None => (Ok degraded, ai1)
        | Some c =>
            match chain_run c (model ai1) (vectorDb ai1) (memory ai1) message with
            | Ok values =>
                (Ok {| response := text values; sources := sources_of values |},
                 set_memory
                   (memory ai1 ++ [ {| role := user; content := message |};
                                    {| role := assistant; content := text values |} ])
                   ai1)
            | Throw _ => (Ok degraded, ai1)
            end
        end
    | (Throw e, ai1) => (Throw e, ai1)
    end.
Proof.
  unfold ConversationalAI.processMessage, bind, try_catch, chain_call, ret.
  destruct (ensure_initialized ai) as [[[]|e] ai1]; [|done].
  destruct (chain ai1) as [c|]; [|done].
  by destruct (chain_run c (model ai1) (vectorDb ai1) (memory ai1) message).
Qed.

(** The sources of an answer: one per video, in the order in which
    the videos first occur, each with the data of the last chunk of
    its video. *)
Lemma uniqueSources_spec (items : list Source.t) :
  let entries := map (fun item => (Source.videoId item, item)) items in
  NoDup (map Source.videoId (uniqueSources items))
  /\ map Source.videoId (uniqueSources items)
     = JsMap.first_occurrences (map Source.videoId items)
  /\ forall s, s ∈ uniqueSources items ->
       JsMap.last_with (Source.videoId s) entries = Some s.
Proof.
  intros entries. unfold uniqueSources. fold entries.
  assert (Hkeys : forall (m : JsMap.t Source.t),
             Forall (fun e => fst e = Source.videoId (snd e)) m ->
             map Source.videoId (JsMap.values m) = JsMap.keys m).
  { intros m Hm. unfold JsMap.values, JsMap.keys.
    induction Hm as [|[k v] m Hk _ IH]; [done|]. cbn in *. by rewrite IH, Hk. }
  assert (Hall : Forall (fun e => fst e = Source.videoId (snd e))
                   (JsMap.of_entries entries)).
  { unfold JsMap.of_entries.
    assert (Hentries : Forall (fun e : string * Source.t => fst e = Source.videoId (snd e)) entries).
    { unfold entries. apply Forall_fmap. by apply Forall_true. }
    assert (Hnil : Forall (fun e : string * Source.t => fst e = Source.videoId (snd e)) [])
      by constructor.
    revert Hentries Hnil. generalize (@nil (string * Source.t)).
    induction entries as [|[k v] es IH]; intros m Hes Hm; [done|].
    apply Forall_cons in Hes as [Hk Hes]. cbn in Hk. subst k.
    cbn [fold_left]. apply IH; [done|]. unfold JsMap.step. cbn [fst snd].
    clear -Hm. induction m as [|[k' v'] m IH]; cbn.
    - by repeat constructor.
    - apply Forall_cons in Hm as [Hk' Hm]. cbn in Hk'.
      destruct (String.eqb_spec (Source.videoId v) k') as [Heq|Hne].
      + constructor; [done|done].
      + constructor; [done|]. by apply IH. }
  rewrite (Hkeys _ Hall). split_and!.
  - apply JsMapFacts.NoDup_keys_of_entries.
  - rewrite JsMapFacts.keys_of_entries. unfold entries.
    by rewrite <- list_fmap_compose.
  - intros s Hs. rewrite <- JsMapFacts.get_of_entries.
    apply JsMapFacts.get_Some_of_elem; [apply JsMapFacts.NoDup_keys_of_entries|].
    unfold JsMap.values in Hs. apply list_elem_of_fmap in Hs as [[k v] [-> Hin]].
    cbn. rewrite Forall_forall in Hall. specialize (Hall _ Hin). cbn in Hall.
    by rewrite <- Hall.
Qed.

(** C1 (amended).  Every answer of [processMessage] cites each video at
    most once.  The cited videos stand in the order in which they first
    occur among the retrieved chunks, and the citation kept for a video
    is the one of the LAST retrieved chunk of that video: the map the
    sources are collected in overwrites the value of a key that is
    already present. *)
Theorem processMessage_sources_one_per_video message ai answer ai' :
  processMessage message ai = (Ok answer, ai') ->
  exists retrieved : list Document,
    (answer = degraded /\ retrieved = []
     \/ exists ai1 c values,
          ensure_initialized ai = (Ok tt, ai1) /\ chain ai1 = Some c /\
          chain_run c (model ai1) (vectorDb ai1) (memory ai1) message = Ok values /\
          answer = {| response := text values; sources := sources_of values |} /\
          retrieved = default [] (sourceDocuments values)) /\
    let cited := map source_of_document retrieved in
    NoDup (map Source.videoId (sources answer)) /\
    map Source.videoId (sources answer)
    = JsMap.first_occurrences (map Source.videoId cited) /\
    forall s, s ∈ sources answer ->
      JsMap.last_with (Source.videoId s)
        (map (fun item => (Source.videoId item, item)) cited) = Some s.
Proof.
  rewrite processMessage_cases.
  assert (Hdegraded : exists retrieved : list Document,
             (degraded = degraded /\ retrieved = []
              \/ exists ai1 c values,
                   ensure_initialized ai = (Ok tt, ai1) /\ chain ai1 = Some c /\
                   chain_run c (model ai1) (vectorDb ai1) (memory ai1) message
                   = Ok values /\
                   degraded
                   = {| response := text values; sources := sources_of values |} /\
                   retrieved = default [] (sourceDocuments values)) /\
             let cited := map source_of_document retrieved in
             NoDup (map Source.videoId (sources degraded)) /\
             map Source.videoId (sources degraded)
             = JsMap.first_occurrences (map Source.videoId cited) /\
             forall s, s ∈ sources degraded ->
               JsMap.last_with (Source.videoId s)
                 (map (fun item => (Source.videoId item, item)) cited) = Some s).
  { exists []. split; [by left|]. cbn. split_and!; [constructor | done |].
    intros s Hs. by apply elem_of_nil in Hs. }
  destruct (ensure_initialized ai) as [[[]|e] ai1] eqn:Hinit; [|done].
  destruct (chain ai1) as [c|] eqn:Hc; [|by intros [= <- <-]].
  destruct (chain_run c (model ai1) (vectorDb ai1) (memory ai1) message)
    as [values|e] eqn:Hrun; intros [= <- <-]; [|exact Hdegraded].
  - exists (default [] (sourceDocuments values)). split.
    + right. by exists ai1, c, values.
    + cbn [sources]. unfold sources_of.
      replace (match sourceDocuments values with
               | Some docs => map source_of_document docs
               | None => []
               end)
        with (map source_of_document (default [] (sourceDocuments values)))
        by (by destruct (sourceDocuments values)).
      apply uniqueSources_spec.
Qed.

(** A question that is answered is appended to the memory with its
    answer, as two turns. *)
Lemma processMessage_success_appends message ai ai1 c values :
  ensure_initialized ai = (Ok tt, ai1) ->
  chain ai1 = Some c ->
  chain_run c (model ai1) (vectorDb ai1) (memory ai1) message = Ok values ->
  exists ai',
    processMessage message ai
    = (Ok {| response := text values; sources := sources_of values |}, ai')
    /\ memory ai'
       = memory ai ++ [ {| role := user; content := message |};
                        {| role := assistant; content := text values |} ].
Proof.
  intros Hinit Hc Hrun. rewrite processMessage_cases, Hinit, Hc, Hrun.
  eexists. split; [reflexivity|]. cbn.
  by apply ensure_initialized_inv in Hinit as [-> _].
Qed.

(** C4 (amended).  Once the engine has its chain (it was ready, or the
    lazy initialization has succeeded), a failure of the chain call
    (question rewriting, embedding, retrieval or generation) makes
    [processMessage] return the fixed apology with no sources; nothing
    is thrown and the memory is the one before the call. *)
Theorem processMessage_chain_failure_degrades message ai ai1 c e :
  ensure_initialized ai = (Ok tt, ai1) ->
  chain ai1 = Some c ->
  chain_run c (model ai1) (vectorDb ai1) (memory ai1) message = Throw e ->
  processMessage message ai = (Ok {| response := apology; sources := [] |}, ai1)
  /\ memory ai1 = memory ai.
Proof.
  intros Hinit Hc Hrun. rewrite processMessage_cases, Hinit, Hc, Hrun.
  split; [done|]. by apply ensure_initialized_inv in Hinit as [? _].
Qed.

End Services.

(** C1, as stated, fails: of a transcript chunk followed by a description
    chunk of the same video, the citation kept is the description's, the
    later one. *)
Lemma processMessage_keeps_last_chunk :
  fst (processMessage Scenario.index_up Scenario.fromLLM Scenario.chain_two_chunks
         "What is this video about?" Scenario.engine)
  = Ok {| response := "It is a test video.";
          sources := [Scenario.citation_description] |}
  /\ Scenario.citation_description <> Scenario.citation_transcript.
Proof. split; [vm_compute; reflexivity | discriminate]. Qed.

Lemma processMessage_sources_one_per_video_witness :
  exists answer ai',
    processMessage Scenario.index_up Scenario.fromLLM Scenario.chain_two_chunks
      "What is this video about?" Scenario.engine = (Ok answer, ai')
    /\ NoDup (map Source.videoId (sources answer)).
Proof.
  eexists _, _. split; [vm_compute; reflexivity|].
  destruct (processMessage_sources_one_per_video
              Scenario.index_up Scenario.fromLLM Scenario.chain_two_chunks
              "What is this video about?" Scenario.engine _ _ eq_refl)
    as (retrieved & _ & Hnd & _).
  exact Hnd.
Defined.

(** C4, as stated, fails: the lazy initialization stands in front of
    the [try] block.  When the system prompt holds a closing brace on
    its own, here after a request for nested JSON, LangChain rejects
    the answer template while the chain is built, and the first message
    leaves [processMessage] as an exception. *)
Lemma processMessage_initialization_failure_throws :
  systemPrompt Cases.engine_braces = "Reply as JSON: {'answer': {'text': '...'}}"
  /\ chain Cases.engine_braces = None
  /\ fst (processMessage Scenario.index_up Scenario.fromLLM Scenario.chain_two_chunks
            "What is this video about?" Cases.engine_braces)
     = Throw "Failed to initialize conversational AI: Single '}' in template.".
Proof. split_and!; vm_compute; reflexivity. Qed.

Lemma processMessage_chain_failure_degrades_witness :
  ensure_initialized Scenario.index_up Scenario.fromLLM Scenario.engine
  = (Ok tt, Scenario.engine_ready)
  /\ chain Scenario.engine_ready = Some Scenario.ready_chain
  /\ processMessage Scenario.index_up Scenario.fromLLM Scenario.chain_failing "Hello"
       Scenario.engine
     = (Ok {| response := apology; sources := [] |}, Scenario.engine_ready)
  /\ memory Scenario.engine_ready = memory Scenario.engine.
Proof.
  assert (Hinit : ensure_initialized Scenario.index_up Scenario.fromLLM Scenario.engine
                  = (Ok tt, Scenario.engine_ready)) by (vm_compute; reflexivity).
  assert (Hchain : chain Scenario.engine_ready = Some Scenario.ready_chain)
    by (vm_compute; reflexivity).
  split_and!; [exact Hinit | exact Hchain | |];
    eapply (processMessage_chain_failure_degrades
              Scenario.index_up Scenario.fromLLM Scenario.chain_failing "Hello"
              Scenario.engine Scenario.engine_ready Scenario.ready_chain
              "generation failed" Hinit Hchain eq_refl).
Defined.

(** C10.  A temperature of 0 or a [maxTokens] of 0 given to the
    constructor is replaced by the default (0.7, 1000), because the
    options are merged with [||]; the temperature of the model is
    therefore never 0, whatever the configuration. *)
Theorem constructor_zero_options_replaced key name db :
  (forall maxTokens,
     model_temperature
       (model (new {| openaiApiKey := key; modelName := name;
                      temperature := Some (Js.Num 0); maxTokens := maxTokens |} db))
     = Js.Num (7 # 10))
  /\ (forall temperature,
        model_maxTokens
          (model (new {| openaiApiKey := key; modelName := name;
                         temperature := temperature; maxTokens := Some (Js.Num 0) |} db))
        = Js.Num (1000 # 1))
  /\ (forall cfg, Js.truthy_number (model_temperature (model (new cfg db))) = true).
Proof.
  split_and!; [done | done |].
  intros cfg. cbn. unfold Js.or_default.
  destruct (temperature cfg) as [n|]; [|done].
  by destruct (Js.truthy_number n) eqn:Hn.
Qed.

End ConversationalAIFacts.

(** ** The vector index *)

Module VectorDatabaseFacts.
Import VectorDatabase.

Section Services.
Variable embed : string -> result Embedding.
Variable fromExistingIndex : VectorDBConfig -> result SupabaseVectorStore.
Variable cosine_distance : Embedding -> Embedding -> Q.
Variable match_threshold : Q.
Variable splitText : string -> list string.
Variable upsert : Table -> list (Document * Embedding) -> Upsert.

Local Abbreviation embedDocuments := (VectorDatabase.embedDocuments embed).
Local Abbreviation addDocuments := (VectorDatabase.addDocuments embed upsert).
Local Abbreviation addDocuments_if_initialized :=
  (VectorDatabase.addDocuments_if_initialized embed upsert).
Local Abbreviation external_failure := (VectorDatabase.external_failure embed upsert).
Local Abbreviation submits := (VectorDatabase.submits embed upsert).
Local Abbreviation processVideoContent :=
  (VectorDatabase.processVideoContent embed splitText upsert).
Local Abbreviation processComments :=
  (VectorDatabase.processComments embed splitText upsert).

Lemma embedDocuments_is_ok {A} (text_of : A -> string) (xs : list A) :
  is_ok (embedDocuments (map text_of xs))
  = forallb (fun x => is_ok (embed (text_of x))) xs.
Proof.
  induction xs as [|x xs IH]; [done|]. cbn.
  destruct (embed (text_of x)) as [v|e]; [|done]. cbn. rewrite <- IH.
  by destruct (embedDocuments (map text_of xs)).
Qed.

Lemma embedDocuments_length texts vectors :
  embedDocuments texts = Ok vectors -> length vectors = length texts.
Proof.
  revert vectors. induction texts as [|text texts IH]; cbn; intros vectors.
  - by intros [= <-].
  - destruct (embed text) as [v|e]; [|done]. cbn.
    destruct (embedDocuments texts) as [vs|e]; [|done]. cbn.
    intros [= <-]. cbn. f_equal. by apply IH.
Qed.

Lemma documents_insert_rows docs vectors tb :
  length vectors = length docs ->
  map document_of_row (rows (insert_rows (zip docs vectors) tb))
  = map document_of_row (rows tb) ++ docs.
Proof.
  revert vectors tb. induction docs as [|[text meta] docs IH]; intros [|v vectors] tb Hlen;
    try done; cbn.
  - by rewrite app_nil_r.
  - rewrite IH by (cbn in Hlen; lia). cbn. rewrite map_app. cbn.
    by rewrite <- app_assoc.
Qed.

Lemma embedDocuments_Throw {A} (text_of : A -> string) (xs : list A) e :
  embedDocuments (map text_of xs) = Throw e ->
  exists x, x ∈ xs /\ embed (text_of x) = Throw e.
Proof.
  induction xs as [|x xs IH]; [done|]. cbn.
  destruct (embed (text_of x)) as [v|e'] eqn:Hx; cbn.
  - destruct (embedDocuments (map text_of xs)) as [vs|e'']; [done|]. cbn.
    intros [= ->]. destruct (IH eq_refl) as (y & Hy & He).
    exists y. split; [by apply elem_of_cons; right|done].
  - intros [= ->]. exists x. split; [by apply elem_of_cons; left|done].
Qed.

Lemma external_failure_app docs1 docs2 e :
  external_failure docs1 e \/ external_failure docs2 e ->
  external_failure (docs1 ++ docs2) e.
Proof.
  unfold VectorDatabase.external_failure.
  intros [[(d & Hd & He)|Hw]|[(d & Hd & He)|Hw]]; try (by right).
  - left. exists d. split; [|done]. apply elem_of_app. by left.
  - left. exists d. split; [|done]. apply elem_of_app. by right.
Qed.

Lemma submits_ret : submits (ret tt) [].
Proof.
  intros db. cbn. split_and!; try done.
  intros _. destruct (vectorStore db); by rewrite app_nil_r.
Qed.

Lemma submits_addDocuments_if_initialized docs :
  submits (addDocuments_if_initialized docs) docs.
Proof.
  intros db. unfold VectorDatabase.addDocuments_if_initialized.
  destruct (vectorStore db) as [vs|] eqn:Hvs; cbn.
  2:{ split_and!; try done. intros _. by rewrite app_nil_r. }
  unfold VectorDatabase.addDocuments, bind, lift_result.
  pose proof (embedDocuments_is_ok pageContent docs) as Hok.
  destruct (embedDocuments (map pageContent docs)) as [vectors|e] eqn:Hemb; cbn in Hok.
  - destruct (upsert (table db) (zip docs vectors)) as [|written error] eqn:Hup; cbn.
    + split_and!; try done.
      * intros _. unfold documents. cbn.
        apply documents_insert_rows. apply embedDocuments_length in Hemb.
        by rewrite Hemb, length_map.
      * intros _ Hfalse. by rewrite Hfalse in Hok.
    + split_and!; try done.
      * intros e [= <-]. split; [done|]. right. by eexists _, _, _, _.
      * intros Hstored. by rewrite Hstored in Hup.
  - cbn. split_and!; try done.
    + intros e' [= <-]. split; [done|]. left.
      by apply embedDocuments_Throw in Hemb.
    + intros _ Htrue. by rewrite Htrue in Hok.
Qed.

Lemma submits_bind m1 m2 docs1 docs2 :
  submits m1 docs1 -> submits m2 docs2 ->
  submits (m1 ;;; m2)%eff (docs1 ++ docs2).
Proof.
  intros H1 H2 db. unfold bind.
  destruct (H1 db) as (Hvs1 & Hnone1 & Hdocs1 & Hthrow1 & Hfail1 & Hok1).
  destruct (m1 db) as [[[]|e] db1] eqn:Hm1; cbn in *.
  - destruct (H2 db1) as (Hvs2 & Hnone2 & Hdocs2 & Hthrow2 & Hfail2 & Hok2).
    rewrite Hvs1 in *. split_and!.
    + done.
    + intros Hnone. specialize (Hnone1 Hnone). injection Hnone1 as ->.
      by apply Hnone2.
    + intros Hok. rewrite (Hdocs2 Hok), (Hdocs1 eq_refl), <- app_assoc.
      by destruct (vectorStore db).
    + intros e He. destruct (Hthrow2 e He) as [Hinit Hfailure].
      split; [done|]. apply external_failure_app. by right.
    + intros Hinit Hfalse. apply Hfail2; [done|].
      rewrite forallb_app in Hfalse. apply andb_false_iff in Hfalse as [Hfalse|Hfalse];
        [|done].
      specialize (Hfail1 Hinit Hfalse). discriminate.
    + intros Hstored Htrue. rewrite forallb_app in Htrue.
      apply andb_true_iff in Htrue as [_ Htrue]. by apply Hok2.
  - split_and!; try done.
    + intros e' [= <-]. destruct (Hthrow1 e eq_refl) as [Hinit Hfailure].
      split; [done|]. apply external_failure_app. by left.
    + intros Hstored Htrue. rewrite forallb_app in Htrue.
      apply andb_true_iff in Htrue as [Htrue _]. specialize (Hok1 Hstored Htrue).
      discriminate.
Qed.

Lemma submits_for_of {A} (xs : list A) (body : A -> Eff t unit)
    (docs_of : A -> list Document) :
  (forall x, submits (body x) (docs_of x)) ->
  submits (for_of xs body) (flat_map docs_of xs).
Proof.
  intros Hbody. induction xs as [|x xs IH]; cbn [for_of flat_map].
  - apply submits_ret.
  - by apply submits_bind.
Qed.

(** The documents of one text of a video: none for an empty text, else
    one per chunk of the splitter. *)
Local Abbreviation text_documents text meta :=
  (if Js.truthy_string text then createDocuments splitText text meta else []).

Lemma processVideoContent_submits videoId channelId title transcript description meta :
  submits (processVideoContent videoId channelId title transcript description meta)
    (text_documents transcript
       (video_chunk_metadata videoId channelId title meta "transcript")
     ++ text_documents description
          (video_chunk_metadata videoId channelId title meta "description")
     ++ createDocuments splitText title
          (video_chunk_metadata videoId channelId title meta "title")).
Proof.
  unfold VectorDatabase.processVideoContent.
  apply submits_bind; [|apply submits_bind].
  - destruct (Js.truthy_string transcript);
      [apply submits_addDocuments_if_initialized | apply submits_ret].
  - destruct (Js.truthy_string description);
      [apply submits_addDocuments_if_initialized | apply submits_ret].
  - set (titleDoc := createDocuments splitText title _).
    intros db. pose proof (submits_addDocuments_if_initialized titleDoc db) as Hadd.
    unfold VectorDatabase.addDocuments_if_initialized in Hadd.
    destruct (vectorStore db) as [vs|] eqn:Hvs; [|done].
    destruct titleDoc as [|d titleDoc]; [|exact Hadd].
    cbn. rewrite Hvs. split_and!; try done. intros _. by rewrite app_nil_r.
Qed.

Lemma processComments_submits videoId channelId title comments meta :
  submits (processComments videoId channelId title comments meta)
    (flat_map
       (fun comment =>
          if Js.truthy_string (comment_content comment)
          then createDocuments splitText
                 (comment_author comment +:+ ": " +:+ comment_content comment)
                 (comment_chunk_metadata videoId channelId title meta comment)
          else [])
       comments).
Proof.
  unfold VectorDatabase.processComments.
  destruct comments as [|comment comments]; [apply submits_ret|].
  apply submits_for_of. intros c.
  destruct (Js.truthy_string (comment_content c)); cbn;
    [apply submits_addDocuments_if_initialized | apply submits_ret].
Qed.

#[local] Instance nearer_total q : Total (nearer cosine_distance q).
Proof.
  intros r1 r2. unfold nearer.
  destruct (Qlt_le_dec (cosine_distance (embedding r2) q)
                       (cosine_distance (embedding r1) q)) as [Hlt|Hle];
    [right; by apply Qlt_le_weak | by left].
Qed.

#[local] Instance nearer_transitive q : Transitive (nearer cosine_distance q).
Proof. intros r1 r2 r3. unfold nearer. apply Qle_trans. Qed.

Lemma StronglySorted_take {A} (R : relation A) (n : nat) (l : list A) :
  StronglySorted R l -> StronglySorted R (take n l).
Proof.
  intros Hl. revert n. induction Hl as [|x l Hl IH Hx]; intros [|n]; cbn;
    try constructor; [apply IH | by apply Forall_take].
Qed.

(** The rows [match_documents] returns: at most [match_count], each
    with its similarity to the query, the most similar first. *)
Lemma match_documents_spec q match_count tb :
  let found := VectorDatabase.match_documents cosine_distance match_threshold
                 q match_count tb in
  length found <= match_count
  /\ Forall (fun rs => snd rs = VectorDatabase.similarity cosine_distance q (fst rs)
                       /\ fst rs ∈ rows tb
                       /\ (match_threshold < snd rs)%Q) found
  /\ StronglySorted (fun a b => (snd b <= snd a)%Q) found.
Proof.
  intros found. unfold found, VectorDatabase.match_documents.
  set (candidates := filter _ (rows tb)).
  set (ordered := merge_sort _ candidates).
  assert (Hsorted : StronglySorted (nearer cosine_distance q) ordered).
  { apply Sorted_StronglySorted; [apply _|]. apply Sorted_merge_sort. apply _. }
  assert (Hperm : ordered ≡ₚ candidates) by apply merge_sort_Permutation.
  split_and!.
  - rewrite length_map, length_take. lia.
  - apply Forall_fmap, Forall_forall. intros r Hr. cbn.
    apply elem_of_take in Hr as (i & Hr & _).
    apply list_elem_of_lookup_2 in Hr. rewrite Hperm in Hr.
    apply list_elem_of_filter in Hr as [Habove Hr].
    split_and!; [done|done|].
    apply Qnot_le_lt. intros Hle. apply Qle_bool_iff in Hle. congruence.
  - apply StronglySorted_fmap with (R1 := nearer cosine_distance q).
    + intros r1 r2 Hr. cbn. unfold VectorDatabase.similarity, nearer in *.
      apply Qplus_le_r, Qopp_le_compat. exact Hr.
    + apply StronglySorted_take, Hsorted.
Qed.

Local Abbreviation similaritySearch :=
  (VectorDatabase.similaritySearch embed fromExistingIndex cosine_distance match_threshold).

(** [similaritySearch] by cases on the state of the index, on the
    initialization and on the embedding of the query. *)
Lemma similaritySearch_cases query k db :
  similaritySearch query k db
  = match vectorStore db with
    | Some _ =>
        match embed query with
        | Ok q =>
            (Ok (map (fun rs => document_of_row (fst rs))
                     (VectorDatabase.match_documents cosine_distance match_threshold
                        q k (table db))), db)
        | Throw e => (Throw e, db)
        end
    | None =>
        match fromExistingIndex (config db) with
        | Ok vs =>
            match embed query with
            | Ok q =>
                (Ok (map (fun rs => document_of_row (fst rs))
                         (VectorDatabase.match_documents cosine_distance match_threshold
                            q k (table db))),
                 set_vectorStore (Some vs) db)
            | Throw e => (Throw e, set_vectorStore (Some vs) db)
            end
        | Throw e => (Throw e, db)
        end
    end.
Proof.
  unfold VectorDatabase.similaritySearch, VectorDatabase.similaritySearchWithScore,
    VectorDatabase.initialize, bind, lift_result, ret.
  destruct (vectorStore db) as [vs|] eqn:Hvs.
  - rewrite Hvs. destruct (embed query); [|done]. by rewrite map_map.
  - destruct (fromExistingIndex (config db)) as [vs|e]; [|done]. cbn.
    destruct (embed query); [|done]. by rewrite map_map.
Qed.

(** The search returns whenever the index can be initialized (or is
    already) and the query can be embedded. *)
Lemma similaritySearch_returns query k db q :
  embed query = Ok q ->
  vectorStore db <> None \/ is_ok (fromExistingIndex (config db)) = true ->
  is_ok (fst (similaritySearch query k db)) = true.
Proof.
  intros Hq Hinit. rewrite similaritySearch_cases, Hq.
  destruct (vectorStore db) as [vs|]; [done|].
  destruct Hinit as [Hvs|Hinit]; [done|].
  by destruct (fromExistingIndex (config db)).
Qed.

(** C9.  When [similaritySearch] returns, it returns at most [k]
    documents, those of the rows of [match_documents] in their order,
    whose similarities to the query descend; and an index that was not
    initialized has been initialized by the call, before the query. *)
Theorem similaritySearch_top_k_descending query k db docs db' :
  similaritySearch query k db = (Ok docs, db') ->
  length docs <= k
  /\ (exists q,
        embed query = Ok q
        /\ let found := VectorDatabase.match_documents cosine_distance match_threshold
                          q k (table db) in
           docs = map (fun rs => document_of_row (fst rs)) found
           /\ Forall (fun rs =>
                        snd rs = VectorDatabase.similarity cosine_distance q (fst rs)) found
           /\ StronglySorted (fun a b => (snd b <= snd a)%Q) found)
  /\ (exists vs,
        vectorStore db' = Some vs
        /\ (vectorStore db = None -> fromExistingIndex (config db) = Ok vs))
  /\ table db' = table db.
Proof.
  rewrite similaritySearch_cases. intros Hrun.
  assert (Hcore : exists q,
             embed query = Ok q
             /\ docs = map (fun rs => document_of_row (fst rs))
                         (VectorDatabase.match_documents cosine_distance match_threshold
                            q k (table db))
             /\ (exists vs, vectorStore db' = Some vs
                   /\ (vectorStore db = None -> fromExistingIndex (config db) = Ok vs))
             /\ table db' = table db).
  { destruct (vectorStore db) as [vs|] eqn:Hvs.
    - destruct (embed query) as [q|e]; [|done]. injection Hrun as <- <-.
      exists q. split_and!; [done|done| |done]. exists vs. done.
    - destruct (fromExistingIndex (config db)) as [vs|e]; [|done].
      destruct (embed query) as [q|e]; [|done]. injection Hrun as <- <-.
      exists q. split_and!; [done|done| |done]. exists vs. done. }
  destruct Hcore as (q & Hq & -> & Hvs & Htable).
  destruct (match_documents_spec q k (table db)) as (Hlen & Hsim & Hsorted).
  split_and!; [by rewrite length_map | | done | done].
  exists q. split; [done|]. cbn. split_and!; [done| |done].
  eapply Forall_impl; [exact Hsim|]. by intros rs (? & _).
Qed.

(** What [submits] says of the outcome of a call, in terms of the
    chunks of text that are embedded. *)
Lemma submits_outcome m docs db :
  submits m docs ->
  let chunks := map pageContent docs in
  (vectorStore db = None -> m db = (Ok tt, db))
  /\ (forall e,
        fst (m db) = Throw e ->
        vectorStore db <> None
        /\ ((exists chunk, chunk ∈ chunks /\ embed chunk = Throw e)
            \/ (exists tb new_rows written error,
                  upsert tb new_rows = Rejected written error
                  /\ e = "Error inserting: " +:+ error)))
  /\ (vectorStore db <> None ->
      forallb (fun chunk => is_ok (embed chunk)) chunks = false ->
      is_ok (fst (m db)) = false)
  /\ ((forall tb new_rows, upsert tb new_rows = Stored) ->
      forallb (fun chunk => is_ok (embed chunk)) chunks = true ->
      is_ok (fst (m db)) = true)
  /\ (vectorStore db <> None ->
      is_ok (fst (m db)) = true ->
      map pageContent (documents (snd (m db)))
      = map pageContent (documents db) ++ chunks).
Proof.
  intros Hm chunks.
  destruct (Hm db) as (_ & Hnone & Hdocs & Hthrow & Hfail & Hok).
  assert (Hall : forallb (fun chunk => is_ok (embed chunk)) chunks
                 = forallb (fun d => is_ok (embed (pageContent d))) docs).
  { unfold chunks. clear. induction docs as [|d docs IH]; [done|]. cbn. by rewrite IH. }
  rewrite Hall. split_and!; [done| |done|done|].
  - intros e He. destruct (Hthrow e He) as [Hinit [(d & Hd & Hembed)|Hwrite]].
    + split; [done|]. left. exists (pageContent d). split; [|done].
      unfold chunks. by apply (list_elem_of_fmap_2 pageContent).
    + split; [done|]. by right.
  - intros Hinit Hreturned. rewrite (Hdocs Hreturned), map_app.
    by destruct (vectorStore db).
Qed.

(** C2 (amended).  The normalizer does no validation and knows no
    [ValidationError]: [videoId] and [channelId] are copied into the
    metadata and never looked at.  On an index that is not initialized
    [processVideoContent] and [processComments] return at once.  On an
    initialized index they fail only when an external call fails, and
    with the error of that call: the error of the embedding provider
    for one of their chunks, or LangChain's [Error inserting: ...] for a
    write the table has rejected.  They fail whenever one of their
    chunks cannot be embedded, and return when every chunk can be
    embedded and the table rejects no write.  They are not pure: a call
    that returns on an initialized index has added its chunks to the
    index, behind the documents that were there. *)
Theorem normalizer_fails_only_on_external_failure
    videoId channelId title transcript description meta comments cmeta db :
  let chunks :=
    (if Js.truthy_string transcript then splitText transcript else [])
    ++ (if Js.truthy_string description then splitText description else [])
    ++ splitText title in
  let comment_chunks :=
    flat_map
      (fun comment =>
         if Js.truthy_string (comment_content comment)
         then splitText (comment_author comment +:+ ": " +:+ comment_content comment)
         else [])
      comments in
  let failure (among : list string) (e : string) :=
    (exists chunk, chunk ∈ among /\ embed chunk = Throw e)
    \/ (exists tb new_rows written error,
          upsert tb new_rows = Rejected written error
          /\ e = "Error inserting: " +:+ error) in
  let embeddable (among : list string) :=
    forallb (fun chunk => is_ok (embed chunk)) among in
  let video :=
    processVideoContent videoId channelId title transcript description meta db in
  let commented := processComments videoId channelId title comments cmeta db in
  (vectorStore db = None -> video = (Ok tt, db) /\ commented = (Ok tt, db))
  /\ (forall e, fst video = Throw e -> vectorStore db <> None /\ failure chunks e)
  /\ (forall e,
        fst commented = Throw e -> vectorStore db <> None /\ failure comment_chunks e)
  /\ (vectorStore db <> None ->
      (embeddable chunks = false -> is_ok (fst video) = false)
      /\ (embeddable comment_chunks = false -> is_ok (fst commented) = false))
  /\ ((forall tb new_rows, upsert tb new_rows = Stored) ->
      (embeddable chunks = true -> is_ok (fst video) = true)
      /\ (embeddable comment_chunks = true -> is_ok (fst commented) = true))
  /\ (vectorStore db <> None ->
      (is_ok (fst video) = true ->
       map pageContent (documents (snd video))
       = map pageContent (documents db) ++ chunks)
      /\ (is_ok (fst commented) = true ->
          map pageContent (documents (snd commented))
          = map pageContent (documents db) ++ comment_chunks)).
Proof.
  intros chunks comment_chunks failure embeddable video commented.
  assert (Hcreated : forall text meta,
             map pageContent (createDocuments splitText text meta) = splitText text).
  { intros text m. unfold createDocuments. rewrite <- list_fmap_compose.
    apply list_fmap_id. }
  pose proof (submits_outcome _ _ db
                (processVideoContent_submits videoId channelId title transcript
                   description meta)) as Hvideo.
  pose proof (submits_outcome _ _ db
                (processComments_submits videoId channelId title comments cmeta))
    as Hcomments.
  cbn zeta in Hvideo, Hcomments.
  replace (map pageContent _) with chunks in Hvideo.
  2:{ unfold chunks. rewrite !map_app, Hcreated.
      destruct (Js.truthy_string transcript), (Js.truthy_string description);
        by rewrite ?Hcreated. }
  replace (map pageContent _) with comment_chunks in Hcomments.
  2:{ unfold comment_chunks. clear -Hcreated.
      induction comments as [|c comments IH]; [done|]. cbn [flat_map].
      rewrite map_app, <- IH.
      destruct (Js.truthy_string (comment_content c)); by rewrite ?Hcreated. }
  destruct Hvideo as (Hv1 & Hv2 & Hv3 & Hv4 & Hv5).
  destruct Hcomments as (Hc1 & Hc2 & Hc3 & Hc4 & Hc5).
  split_and!; eauto.
Qed.

(** C3 (amended).  The index does not overwrite: ingesting the same
    content a second time appends the same documents once more, as new
    rows.  After the second call the index holds the documents of the
    first call followed by the documents of the video again. *)
Theorem processVideoContent_twice_appends_twice
    videoId channelId title transcript description meta db db1 db2 vs :
  vectorStore db = Some vs ->
  processVideoContent videoId channelId title transcript description meta db
  = (Ok tt, db1) ->
  processVideoContent videoId channelId title transcript description meta db1
  = (Ok tt, db2) ->
  let added :=
    text_documents transcript
      (video_chunk_metadata videoId channelId title meta "transcript")
    ++ text_documents description
         (video_chunk_metadata videoId channelId title meta "description")
    ++ createDocuments splitText title
         (video_chunk_metadata videoId channelId title meta "title") in
  documents db1 = documents db ++ added
  /\ documents db2 = documents db1 ++ added
  /\ length (rows (table db2)) = length (rows (table db)) + 2 * length added.
Proof.
  intros Hvs H1 H2 added.
  destruct (processVideoContent_submits videoId channelId title transcript
              description meta db) as (Hvs1 & _ & Hdocs1 & _).
  destruct (processVideoContent_submits videoId channelId title transcript
              description meta db1) as (_ & _ & Hdocs2 & _).
  rewrite H1 in Hvs1, Hdocs1. rewrite H2 in Hdocs2. cbn in *.
  rewrite Hvs1, Hvs in Hdocs2. rewrite Hvs in Hdocs1.
  specialize (Hdocs1 eq_refl). specialize (Hdocs2 eq_refl).
  fold added in Hdocs1, Hdocs2. split_and!; [done|done|].
  apply (f_equal length) in Hdocs1, Hdocs2. unfold documents in *.
  rewrite length_app, !length_map in *. lia.
Qed.

(** C7 (amended).  The title is handed to the splitter like every other
    text, and every chunk the splitter returns for it is stored: the
    title contributes as many documents as the splitter returns chunks,
    one only when the splitter returns one. *)
Theorem title_documents_follow_splitter
    videoId channelId title transcript description meta db db' vs :
  vectorStore db = Some vs ->
  processVideoContent videoId channelId title transcript description meta db
  = (Ok tt, db') ->
  exists others,
    documents db'
    = documents db ++ others
      ++ map (fun chunk =>
                {| pageContent := chunk;
                   metadata := video_chunk_metadata videoId channelId title meta "title" |})
             (splitText title)
    /\ Forall (fun d => source (metadata d) <> "title") others.
Proof.
  intros Hvs Hrun.
  destruct (processVideoContent_submits videoId channelId title transcript
              description meta db) as (_ & _ & Hdocs & _).
  rewrite Hrun, Hvs in Hdocs. cbn in Hdocs. specialize (Hdocs eq_refl).
  exists (text_documents transcript
            (video_chunk_metadata videoId channelId title meta "transcript")
          ++ text_documents description
               (video_chunk_metadata videoId channelId title meta "description")).
  split; [by rewrite Hdocs, <- (app_assoc (text_documents transcript _))|].
  apply Forall_app. split.
  - destruct (Js.truthy_string transcript); [|constructor].
    apply Forall_fmap, Forall_true. done.
  - destruct (Js.truthy_string description); [|constructor].
    apply Forall_fmap, Forall_true. done.
Qed.

(** C8.  Every comment with a non-empty content is indexed under the
    text [author ++ ": " ++ content], split into chunks; a comment with
    an empty content contributes nothing. *)
Theorem processComments_renders_and_skips
    videoId channelId title comments meta db db' vs :
  vectorStore db = Some vs ->
  processComments videoId channelId title comments meta db = (Ok tt, db') ->
  documents db'
  = documents db
    ++ flat_map
         (fun comment =>
            if Js.truthy_string (comment_content comment)
            then map (fun chunk =>
                        {| pageContent := chunk;
                           metadata :=
                             comment_chunk_metadata videoId channelId title meta comment |})
                     (splitText (comment_author comment +:+ ": "
                                 +:+ comment_content comment))
            else [])
         comments.
Proof.
  intros Hvs Hrun.
  destruct (processComments_submits videoId channelId title comments meta db)
    as (_ & _ & Hdocs & _).
  rewrite Hrun, Hvs in Hdocs. exact (Hdocs eq_refl).
Qed.

End Services.

(** C2, as stated, fails: with an empty [videoId] and an empty
    [channelId] the normalizer succeeds; with both present it fails when
    the embedding provider fails or the table rejects the write; and a
    successful call leaves three new documents in the index. *)
Lemma processVideoContent_does_not_validate :
  fst (processVideoContent Scenario.embed_up Scenario.splitter Scenario.upsert_up
         "" "" Scenario.title Scenario.transcript Scenario.description
         Scenario.video_meta Scenario.db_ready) = Ok tt
  /\ fst (processVideoContent Scenario.embed_down Scenario.splitter Scenario.upsert_up
            "v1" "UC1" Scenario.title Scenario.transcript Scenario.description
            Scenario.video_meta Scenario.db_ready) = Throw "embedding failed"
  /\ fst (processVideoContent Scenario.embed_up Scenario.splitter Scenario.upsert_down
            "v1" "UC1" Scenario.title Scenario.transcript Scenario.description
            Scenario.video_meta Scenario.db_ready)
     = Throw "Error inserting: permission denied for table youtube_embeddings 403 Forbidden"
  /\ length (documents Scenario.db_ready) = 0
  /\ length (documents Scenario.db_once) = 3.
Proof. split_and!; vm_compute; reflexivity. Qed.

Lemma normalizer_fails_only_on_external_failure_witness :
  vectorStore Scenario.db_ready <> None
  /\ is_ok (fst (processVideoContent Scenario.embed_up Scenario.splitter Scenario.upsert_up
                   "" "" Scenario.title Scenario.transcript Scenario.description
                   Scenario.video_meta Scenario.db_ready)) = true
  /\ is_ok (fst (processVideoContent Scenario.embed_down Scenario.splitter
                   Scenario.upsert_up
                   "v1" "UC1" Scenario.title Scenario.transcript Scenario.description
                   Scenario.video_meta Scenario.db_ready)) = false.
Proof.
  pose proof (normalizer_fails_only_on_external_failure Scenario.embed_up
                Scenario.splitter Scenario.upsert_up "" "" Scenario.title
                Scenario.transcript Scenario.description Scenario.video_meta
                Scenario.comments Scenario.comment_meta Scenario.db_ready) as Hup.
  pose proof (normalizer_fails_only_on_external_failure Scenario.embed_down
                Scenario.splitter Scenario.upsert_up "v1" "UC1" Scenario.title
                Scenario.transcript Scenario.description Scenario.video_meta
                Scenario.comments Scenario.comment_meta Scenario.db_ready) as Hdown.
  cbn zeta in Hup, Hdown.
  destruct Hup as (_ & _ & _ & _ & Hreturns & _).
  destruct Hdown as (_ & _ & _ & Hfails & _).
  assert (Hready : vectorStore Scenario.db_ready <> None) by discriminate.
  split_and!; [exact Hready | |].
  - exact (proj1 (Hreturns (fun _ _ => eq_refl)) eq_refl).
  - exact (proj1 (Hfails Hready) eq_refl).
Defined.

(** C3, as stated, fails: after the same video has been ingested twice
    every document of it is in the index twice. *)
Lemma processVideoContent_twice_duplicates :
  map content (rows (table Scenario.db_once))
  = [Scenario.transcript; Scenario.description; Scenario.title]
  /\ map content (rows (table Scenario.db_twice))
     = [Scenario.transcript; Scenario.description; Scenario.title;
        Scenario.transcript; Scenario.description; Scenario.title]
  /\ documents Scenario.db_twice <> documents Scenario.db_once.
Proof. split_and!; [vm_compute; reflexivity | vm_compute; reflexivity | discriminate]. Qed.

Lemma processVideoContent_twice_appends_twice_witness :
  vectorStore Scenario.db_ready
  = Some {| store_tableName := "youtube_embeddings"; queryName := "match_documents" |}
  /\ processVideoContent Scenario.embed_up Scenario.splitter Scenario.upsert_up
       "v1" "UC1" Scenario.title Scenario.transcript Scenario.description
       Scenario.video_meta Scenario.db_ready = (Ok tt, Scenario.db_once)
  /\ processVideoContent Scenario.embed_up Scenario.splitter Scenario.upsert_up
       "v1" "UC1" Scenario.title Scenario.transcript Scenario.description
       Scenario.video_meta Scenario.db_once = (Ok tt, Scenario.db_twice)
  /\ length (rows (table Scenario.db_twice)) = 6.
Proof.
  assert (H0 : vectorStore Scenario.db_ready
               = Some {| store_tableName := "youtube_embeddings";
                         queryName := "match_documents" |})
    by (vm_compute; reflexivity).
  assert (H1 : processVideoContent Scenario.embed_up Scenario.splitter Scenario.upsert_up
                 "v1" "UC1" Scenario.title Scenario.transcript Scenario.description
                 Scenario.video_meta Scenario.db_ready = (Ok tt, Scenario.db_once))
    by (vm_compute; reflexivity).
  assert (H2 : processVideoContent Scenario.embed_up Scenario.splitter Scenario.upsert_up
                 "v1" "UC1" Scenario.title Scenario.transcript Scenario.description
                 Scenario.video_meta Scenario.db_once = (Ok tt, Scenario.db_twice))
    by (vm_compute; reflexivity).
  split_and!; [exact H0 | exact H1 | exact H2 |].
  destruct (processVideoContent_twice_appends_twice _ _ _ _ _ _ _ _ _ _ _ _ _ H0 H1 H2)
    as (_ & _ & ->).
  vm_compute; reflexivity.
Defined.

(** C7, as stated, fails: a title of 1250 characters is stored as two
    chunks, and an empty title as none. *)
Lemma long_title_is_split :
  map (fun d => String.length (pageContent d))
      (documents
         (snd (processVideoContent Scenario.embed_up Scenario.splitter Scenario.upsert_up
                 "v1" "UC1" Scenario.long_title "" "" Scenario.video_meta
                 Scenario.db_ready)))
  = [999; 449]
  /\ documents
       (snd (processVideoContent Scenario.embed_up Scenario.splitter Scenario.upsert_up
               "v1" "UC1" "" "" "" Scenario.video_meta Scenario.db_ready))
     = [].
Proof. split; vm_compute; reflexivity. Qed.

Lemma title_documents_follow_splitter_witness :
  vectorStore Scenario.db_ready
  = Some {| store_tableName := "youtube_embeddings"; queryName := "match_documents" |}
  /\ processVideoContent Scenario.embed_up Scenario.splitter Scenario.upsert_up
       "v1" "UC1" Scenario.title Scenario.transcript Scenario.description
       Scenario.video_meta Scenario.db_ready = (Ok tt, Scenario.db_once)
  /\ exists others,
       documents Scenario.db_once
       = documents Scenario.db_ready ++ others
         ++ map (fun chunk =>
                   {| pageContent := chunk;
                      metadata :=
                        video_chunk_metadata "v1" "UC1" Scenario.title
                          Scenario.video_meta "title" |})
                (Scenario.splitter Scenario.title)
       /\ Forall (fun d => source (metadata d) <> "title") others.
Proof.
  assert (H0 : vectorStore Scenario.db_ready
               = Some {| store_tableName := "youtube_embeddings";
                         queryName := "match_documents" |})
    by (vm_compute; reflexivity).
  assert (H1 : processVideoContent Scenario.embed_up Scenario.splitter Scenario.upsert_up
                 "v1" "UC1" Scenario.title Scenario.transcript Scenario.description
                 Scenario.video_meta Scenario.db_ready = (Ok tt, Scenario.db_once))
    by (vm_compute; reflexivity).
  split_and!; [exact H0 | exact H1 |].
  exact (title_documents_follow_splitter _ _ _ _ _ _ _ _ _ _ _ _ H0 H1).
Defined.

Lemma processComments_renders_and_skips_witness :
  vectorStore Scenario.db_ready
  = Some {| store_tableName := "youtube_embeddings"; queryName := "match_documents" |}
  /\ fst (processComments Scenario.embed_up Scenario.splitter Scenario.upsert_up
            "v1" "UC1" Scenario.title Scenario.comments Scenario.comment_meta
            Scenario.db_ready) = Ok tt
  /\ map pageContent
       (documents
          (snd (processComments Scenario.embed_up Scenario.splitter Scenario.upsert_up
                  "v1" "UC1" Scenario.title Scenario.comments Scenario.comment_meta
                  Scenario.db_ready)))
     = ["ann: Great video"].
Proof.
  assert (H0 : vectorStore Scenario.db_ready
               = Some {| store_tableName := "youtube_embeddings";
                         queryName := "match_documents" |})
    by (vm_compute; reflexivity).
  set (run := processComments Scenario.embed_up Scenario.splitter Scenario.upsert_up
                "v1" "UC1" Scenario.title Scenario.comments Scenario.comment_meta
                Scenario.db_ready).
  assert (H1 : run = (Ok tt, snd run)) by (vm_compute; reflexivity).
  split_and!; [exact H0 | by rewrite H1 |].
  rewrite (processComments_renders_and_skips _ _ _ _ _ _ _ _ _ _ _ H0 H1).
  vm_compute; reflexivity.
Defined.

Lemma similaritySearch_top_k_descending_witness :
  similaritySearch Scenario.embed_up Scenario.index_up Scenario.distance (-1)
    "What is this video about?" 2 Scenario.db_three
  = (Ok [ document_of_row (Scenario.row 2 "v2" "near" [1%Q; 0%Q]);
          document_of_row (Scenario.row 3 "v3" "between" [3 # 5; 4 # 5]) ],
     set_vectorStore
       (Some {| store_tableName := "youtube_embeddings"; queryName := "match_documents" |})
       Scenario.db_three)
  /\ vectorStore Scenario.db_three = None
  /\ length [ document_of_row (Scenario.row 2 "v2" "near" [1%Q; 0%Q]);
              document_of_row (Scenario.row 3 "v3" "between" [3 # 5; 4 # 5]) ] <= 2.
Proof.
  assert (Hrun : similaritySearch Scenario.embed_up Scenario.index_up Scenario.distance (-1)
                   "What is this video about?" 2 Scenario.db_three
                 = (Ok [ document_of_row (Scenario.row 2 "v2" "near" [1%Q; 0%Q]);
                         document_of_row (Scenario.row 3 "v3" "between" [3 # 5; 4 # 5]) ],
                    set_vectorStore
                      (Some {| store_tableName := "youtube_embeddings";
                               queryName := "match_documents" |})
                      Scenario.db_three))
    by (vm_compute; reflexivity).
  split_and!; [exact Hrun | reflexivity |].
  exact (proj1 (similaritySearch_top_k_descending _ _ _ _ _ _ _ _ _ Hrun)).
Defined.

End VectorDatabaseFacts.


(** ** Doubles *)

Module DoubleFacts.
Import Double.

Local Open Scope Z_scope.

Lemma shift_up z e : 0 <= e -> shift z e = z * 2 ^ e.
Proof. intros He. unfold shift. by rewrite Z.max_r. Qed.

Lemma shift_down z e : e <= 0 -> shift z e = z.
Proof. intros He. unfold shift. rewrite Z.max_l by done. lia. Qed.

(** The binade of [a / b] from below and from above. *)
Lemma binade_lower a b p q :
  0 < a -> 0 < b -> 0 <= p -> 0 <= q ->
  p - q <= binade a b -> b * 2 ^ p <= a * 2 ^ q.
Proof.
  intros Ha Hb Hp Hq. unfold binade.
  pose proof (Z.log2_spec a Ha) as [Ha1 Ha2].
  pose proof (Z.log2_spec b Hb) as [Hb1 Hb2].
  pose proof (Z.log2_nonneg a) as Hla. pose proof (Z.log2_nonneg b) as Hlb.
  set (la := Z.log2 a) in *. set (lb := Z.log2 b) in *.
  assert (Hpp : 0 < 2 ^ p) by (by apply Z.pow_pos_nonneg).
  assert (Hqq : 0 < 2 ^ q) by (by apply Z.pow_pos_nonneg).
  destruct (Z.ltb_spec (shift a (- (la - lb))) (shift b (la - lb))) as [Hlt|Hge];
    intros Hle.
  - assert (H3 : 2 ^ (Z.succ lb + p) <= 2 ^ (la + q))
      by (apply Z.pow_le_mono_r; lia).
    rewrite !Z.pow_add_r in H3 by lia. nia.
  - destruct (Z.le_gt_cases 0 (la - lb)) as [Hl|Hl].
    + rewrite (shift_up b), (shift_down a) in Hge by lia.
      assert (H3 : 2 ^ p <= 2 ^ ((la - lb) + q)) by (apply Z.pow_le_mono_r; lia).
      rewrite Z.pow_add_r in H3 by lia.
      assert (0 < 2 ^ (la - lb)) by (by apply Z.pow_pos_nonneg). nia.
    + rewrite (shift_down b), (shift_up a) in Hge by lia.
      assert (H3 : 2 ^ (p + - (la - lb)) <= 2 ^ q) by (apply Z.pow_le_mono_r; lia).
      rewrite Z.pow_add_r in H3 by lia.
      assert (0 < 2 ^ (- (la - lb))) by (apply Z.pow_pos_nonneg; lia). nia.
Qed.

Lemma binade_upper a b p q :
  0 < a -> 0 < b -> 0 <= p -> 0 <= q ->
  binade a b + 1 <= p - q -> a * 2 ^ q < b * 2 ^ p.
Proof.
  intros Ha Hb Hp Hq. unfold binade.
  pose proof (Z.log2_spec a Ha) as [Ha1 Ha2].
  pose proof (Z.log2_spec b Hb) as [Hb1 Hb2].
  pose proof (Z.log2_nonneg a) as Hla. pose proof (Z.log2_nonneg b) as Hlb.
  set (la := Z.log2 a) in *. set (lb := Z.log2 b) in *.
  assert (Hpp : 0 < 2 ^ p) by (by apply Z.pow_pos_nonneg).
  assert (Hqq : 0 < 2 ^ q) by (by apply Z.pow_pos_nonneg).
  destruct (Z.ltb_spec (shift a (- (la - lb))) (shift b (la - lb))) as [Hlt|Hge];
    intros Hle.
  - destruct (Z.le_gt_cases 0 (la - lb)) as [Hl|Hl].
    + rewrite (shift_up b), (shift_down a) in Hlt by lia.
      assert (H3 : 2 ^ ((la - lb) + q) <= 2 ^ p) by (apply Z.pow_le_mono_r; lia).
      rewrite Z.pow_add_r in H3 by lia.
      assert (0 < 2 ^ (la - lb)) by (by apply Z.pow_pos_nonneg). nia.
    + rewrite (shift_down b), (shift_up a) in Hlt by lia.
      assert (H3 : 2 ^ q <= 2 ^ (p + - (la - lb))) by (apply Z.pow_le_mono_r; lia).
      rewrite Z.pow_add_r in H3 by lia.
      assert (0 < 2 ^ (- (la - lb))) by (apply Z.pow_pos_nonneg; lia). nia.
  - assert (H3 : 2 ^ (Z.succ la + q) <= 2 ^ (lb + p))
      by (apply Z.pow_le_mono_r; lia).
    rewrite !Z.pow_add_r in H3 by lia. nia.
Qed.

(** Rounding a positive rational below [2^53]: the result is finite, on
    a grid of spacing [2^(-j)] that holds the whole numbers, and it is
    the grid point below the rational or, when the rational lies in the
    upper half of the gap, the one above. *)
Lemma nearest_below a b :
  0 < a -> 0 < b -> a < b * 2 ^ 53 ->
  exists m j,
    nearest a b = Finite m (- j)
    /\ 0 <= j
    /\ j = 52 - Z.max (binade a b) (-1022)
    /\ 0 <= m <= 2 ^ 53
    /\ (m = a * 2 ^ j / b
        \/ (m = a * 2 ^ j / b + 1 /\ b <= 2 * ((a * 2 ^ j) mod b))).
Proof.
  intros Ha Hb Hbelow.
  assert (Hbinade : binade a b <= 52).
  { destruct (Z.le_gt_cases 53 (binade a b)) as [Hge|]; [|lia].
    pose proof (binade_lower a b 53 0 Ha Hb ltac:(lia) ltac:(lia) ltac:(lia)). lia. }
  set (j := 52 - Z.max (binade a b) (-1022)).
  assert (Hj : 0 <= j) by lia.
  assert (Hscaled : a * 2 ^ j < b * 2 ^ 53).
  { apply binade_upper; lia. }
  assert (Hpow : 0 < 2 ^ j) by (by apply Z.pow_pos_nonneg).
  assert (Hq : 0 <= a * 2 ^ j / b < 2 ^ 53).
  { split; [apply Z.div_pos; nia|]. apply Z.div_lt_upper_bound; lia. }
  assert (Hr : 0 <= (a * 2 ^ j) mod b < b) by (apply Z.mod_pos_bound; lia).
  assert (Hbig : (2 : Z) ^ 53 + 1 < 2 ^ 1024).
  { assert ((2 : Z) ^ 54 <= 2 ^ 1024) by (apply Z.pow_le_mono_r; lia).
    assert ((2 : Z) ^ 54 = 2 * 2 ^ 53) by (by rewrite <- Z.pow_succ_r).
    assert (0 < (2 : Z) ^ 53) by (by apply Z.pow_pos_nonneg). lia. }
  unfold nearest. destruct (Z.eqb_spec a 0) as [|_]; [lia|].
  replace (Z.max (binade a b) (-1022) - 52) with (- j) by lia.
  rewrite (shift_up a (- - j)), (shift_down b (- j)) by lia.
  rewrite Z.opp_involutive.
  set (q := a * 2 ^ j / b) in *. set (r := (a * 2 ^ j) mod b) in *.
  set (m := if 2 * r <? b then q
            else if b <? 2 * r then q + 1 else if Z.even q then q else q + 1).
  assert (Hm : m = q \/ (m = q + 1 /\ b <= 2 * r)).
  { unfold m. destruct (Z.ltb_spec (2 * r) b); [by left|].
    destruct (Z.ltb_spec b (2 * r)); [right; lia|].
    destruct (Z.even q); [by left|right; lia]. }
  exists m, j. rewrite (shift_down m (- j)) by lia.
  destruct (Z.leb_spec (2 ^ 1024) m) as [Hover|_]; [lia|].
  split_and!; try done; lia.
Qed.

(** The floor of a double on such a grid. *)
Lemma floor_Finite m j : 0 <= j -> floor (Finite m (- j)) = Whole (m / 2 ^ j).
Proof.
  intros Hj. unfold floor. destruct (Z.leb_spec 0 (- j)) as [H0|H0].
  - assert (j = 0) as -> by lia. cbn. by rewrite Z.mul_1_r, Z.div_1_r.
  - by rewrite Z.opp_involutive.
Qed.

(** A rational between two whole numbers is rounded to a double between
    them; and strictly below the upper one when it is further away from
    it than half the spacing of the grid. *)
Lemma nearest_between a b lower upper :
  0 < a -> 0 < b -> lower * b <= a < upper * b -> upper <= 2 ^ 53 ->
  exists m j,
    nearest a b = Finite m (- j)
    /\ 0 <= j
    /\ j = 52 - Z.max (binade a b) (-1022)
    /\ 0 <= m <= 2 ^ 53
    /\ lower * 2 ^ j <= m <= upper * 2 ^ j
    /\ (b < 2 * (upper * b - a) * 2 ^ j -> m < upper * 2 ^ j).
Proof.
  intros Ha Hb [Hlower Hupper] Hbound.
  destruct (nearest_below a b Ha Hb ltac:(nia)) as (m & j & Hnearest & Hj & Hjdef & Hm & Hround).
  exists m, j. split_and!; try done; try lia.
  - assert (Hpow : 0 < 2 ^ j) by (by apply Z.pow_pos_nonneg).
    assert (lower * 2 ^ j <= a * 2 ^ j / b).
    { apply Z.div_le_lower_bound; [done|]. nia. }
    lia.
  - assert (Hpow : 0 < 2 ^ j) by (by apply Z.pow_pos_nonneg).
    assert (a * 2 ^ j / b < upper * 2 ^ j).
    { apply Z.div_lt_upper_bound; [done|]. nia. }
    lia.
  - intros Hfar.
    assert (Hpow : 0 < 2 ^ j) by (by apply Z.pow_pos_nonneg).
    assert (Hdiv : a * 2 ^ j / b < upper * 2 ^ j).
    { apply Z.div_lt_upper_bound; [done|]. nia. }
    destruct Hround as [->|[-> Hhalf]]; [done|].
    pose proof (Z.div_mod (a * 2 ^ j) b ltac:(lia)) as Hdm.
    nia.
Qed.

(** A whole number below [2^53] is a double. *)
Lemma floor_nearest_whole n :
  0 <= n < 2 ^ 53 -> floor (nearest n 1) = Whole n.
Proof.
  intros [Hn Hbound]. destruct (Z.eq_dec n 0) as [->|Hpos]; [done|].
  destruct (nearest_between n 1 n (n + 1)) as (m & j & -> & Hj & _ & _ & Hm & Hfar);
    [lia..|].
  rewrite floor_Finite by done. f_equal.
  assert (Hpow : 0 < 2 ^ j) by (by apply Z.pow_pos_nonneg).
  specialize (Hfar ltac:(nia)).
  symmetry. apply (Z.div_unique _ _ _ (m - n * 2 ^ j)); lia.
Qed.

(** The floor of the double of a number between [n] and [n + 1] is [n]
    or [n + 1]. *)
Lemma floor_nearest_fraction a b n :
  0 <= a -> 0 < b -> n * b <= a < (n + 1) * b -> 0 <= n < 2 ^ 53 ->
  exists s, floor (nearest a b) = Whole s /\ n <= s <= n + 1.
Proof.
  intros Ha0 Hb Hab Hn. destruct (Z.eq_dec a 0) as [->|Hpos].
  - exists 0. split; [done|]. nia.
  - destruct (nearest_between a b n (n + 1)) as (m & j & -> & Hj & _ & _ & Hm & _);
      [lia..|].
    exists (m / 2 ^ j). split; [by apply floor_Finite|].
    assert (Hpow : 0 < 2 ^ j) by (by apply Z.pow_pos_nonneg).
    split.
    + apply Z.div_le_lower_bound; lia.
    + apply Z.div_le_upper_bound; lia.
Qed.

(** What [nearest] returns below [2^53], for the division that
    follows. *)
Lemma nearest_grid a b :
  0 <= a -> 0 < b -> a < b * 2 ^ 53 ->
  exists m j, nearest a b = Finite m (- j) /\ 0 <= j /\ 0 <= m <= 2 ^ 53.
Proof.
  intros Ha Hb Hbelow. destruct (Z.eq_dec a 0) as [->|Hpos].
  - exists 0, 0. by split_and!.
  - destruct (nearest_below a b) as (m & j & ? & ? & _ & ? & _); [lia..|].
    by exists m, j.
Qed.

(** [Math.floor(x / 60)] is the whole division of the floor: the
    quotient of a double by 60 is never rounded up to the next whole
    number. *)
Lemma floor_div_60 m j :
  0 <= j -> 0 <= m <= 2 ^ 53 ->
  floor (div (Finite m (- j)) 60) = Whole (m / 2 ^ j / 60).
Proof.
  intros Hj [Hm Hbound]. unfold div.
  rewrite (shift_down m (- j)), (shift_up 60 (- - j)), Z.opp_involutive by lia.
  assert (Hpow : 0 < 2 ^ j) by (by apply Z.pow_pos_nonneg).
  assert (H53 : (2 : Z) ^ 53 = 9007199254740992) by reflexivity.
  rewrite Z.div_div by lia. rewrite (Z.mul_comm (2 ^ j) 60).
  destruct (Z.eq_dec m 0) as [->|Hpos]; [done|].
  set (b := 60 * 2 ^ j). set (mu := m / b).
  assert (Hb : 0 < b) by (unfold b; lia).
  assert (Hmu : mu * b <= m < (mu + 1) * b).
  { pose proof (Z.div_mod m b ltac:(lia)) as Hdm.
    pose proof (Z.mod_pos_bound m b Hb). unfold mu. nia. }
  assert (Hmu0 : 0 <= mu) by (apply Z.div_pos; lia).
  assert (Hmu53 : mu + 1 <= 2 ^ 53).
  { assert (mu <= m / 60); [|assert (m / 60 <= 2 ^ 53 / 60) by (apply Z.div_le_mono; lia)].
    - unfold mu, b. rewrite <- Z.div_div by lia.
      apply Z.div_le_upper_bound; [done|].
      pose proof (Z.div_mod m 60 ltac:(lia)). pose proof (Z.mod_pos_bound m 60 ltac:(lia)).
      assert (0 <= m / 60) by (apply Z.div_pos; lia). nia.
    - rewrite H53 in *. change (9007199254740992 / 60) with 150119987579016 in *. lia. }
  destruct (nearest_between m b mu (mu + 1)) as (m' & j' & -> & Hj' & Hjdef & _ & Hm' & Hfar);
    [lia..|].
  rewrite floor_Finite by done. f_equal.
  assert (Hpow' : 0 < 2 ^ j') by (by apply Z.pow_pos_nonneg).
  assert (Hlt : m' < (mu + 1) * 2 ^ j').
  { apply Hfar. destruct (Z.le_gt_cases j 1069) as [Hsmall|Htiny].
    - assert (Hbinade : binade m b <= 47 - j).
      { destruct (Z.le_gt_cases (48 - j) (binade m b)) as [Hge|]; [|lia].
        destruct (Z.le_gt_cases 0 (48 - j)) as [Hs|Hs].
        + pose proof (binade_lower m b (48 - j) 0 ltac:(lia) Hb Hs ltac:(lia) ltac:(lia))
            as Hl.
          unfold b in Hl. rewrite <- Z.mul_assoc, <- Z.pow_add_r in Hl by lia.
          replace (j + (48 - j)) with 48 in Hl by lia.
          change ((2 : Z) ^ 48) with 281474976710656 in Hl. lia.
        + pose proof (binade_lower m b 0 (j - 48) ltac:(lia) Hb ltac:(lia) ltac:(lia)
                        ltac:(lia)) as Hl.
          unfold b in Hl.
          assert (Hsplit : 2 ^ j = 2 ^ 48 * 2 ^ (j - 48)).
          { rewrite <- Z.pow_add_r by lia. f_equal. lia. }
          assert (0 < 2 ^ (j - 48)) by (apply Z.pow_pos_nonneg; lia).
          change ((2 : Z) ^ 48) with 281474976710656 in Hsplit. nia. }
      assert (Hj5 : j + 5 <= j') by lia.
      assert (Hp5 : 2 ^ (j + 5) <= 2 ^ j') by (apply Z.pow_le_mono_r; lia).
      rewrite Z.pow_add_r in Hp5 by lia. change ((2 : Z) ^ 5) with 32 in Hp5.
      unfold b in *. nia.
    - assert (Hsmall : m < 2 ^ j).
      { assert ((2 : Z) ^ 54 <= 2 ^ j) by (apply Z.pow_le_mono_r; lia).
        change ((2 : Z) ^ 54) with 18014398509481984 in *. lia. }
      assert (mu = 0) as Hzero.
      { unfold mu. apply Z.div_small. unfold b. lia. }
      rewrite Hzero. unfold b. nia. }
  symmetry. apply (Z.div_unique _ _ _ (m' - mu * 2 ^ j')); lia.
Qed.

(** [Math.floor(x % 60)] is the remainder of the floor. *)
Lemma floor_rem_60 m j :
  0 <= j -> 0 <= m ->
  floor (rem (Finite m (- j)) 60) = Whole ((m / 2 ^ j) mod 60).
Proof.
  intros Hj Hm. unfold rem.
  rewrite (shift_down m (- j)), (shift_up 60 (- - j)), Z.opp_involutive by lia.
  rewrite Z.min_l by lia. rewrite floor_Finite by done. f_equal.
  assert (Hpow : 0 < 2 ^ j) by (by apply Z.pow_pos_nonneg).
  rewrite (Z.mul_comm 60), Z.rem_mul_r by lia.
  rewrite (Z.mul_comm (2 ^ j)), Z.div_add by lia.
  rewrite (Z.div_small (m mod 2 ^ j)) by (apply Z.mod_pos_bound; lia). lia.
Qed.

End DoubleFacts.

(** ** The chat route *)

Module ChatRouteFacts.
Import ChatRoute.

Lemma append_assoc (s1 s2 s3 : string) : (s1 +:+ s2) +:+ s3 = s1 +:+ s2 +:+ s3.
Proof.
  induction s1 as [|c s1 IH]; [done|].
  change (String c ((s1 +:+ s2) +:+ s3) = String c (s1 +:+ s2 +:+ s3)). by rewrite IH.
Qed.

Lemma digits_span_app digits rest :
  all_digits digits = true ->
  match rest with
  | EmptyString => True
  | String c _ => is_digit c = false
  end ->
  digits_span (digits +:+ rest) = (digits, rest).
Proof.
  intros Hdigits Hrest.
  induction digits as [|c digits IH].
  - change (digits_span rest = (EmptyString, rest)).
    destruct rest as [|c rest]; [done|]. cbn -[is_digit] in *. by rewrite Hrest.
  - change (digits_span (String c (digits +:+ rest)) = (String c digits, rest)).
    cbn -[is_digit] in *.
    apply andb_true_iff in Hdigits as [Hc Hdigits]. by rewrite Hc, IH.
Qed.

Lemma marker_text_leading m rest :
  marker_text m +:+ rest
  = String "["
      (whole m +:+
         match fraction m with
         | Some f => String "." (f +:+ String "s" (String "]" rest))
         | None => String "s" (String "]" rest)
         end).
Proof.
  unfold marker_text. destruct (fraction m) as [f|]; by rewrite !append_assoc.
Qed.

Lemma closes_leading rest : closes (String "s" (String "]" rest)) = true.
Proof. destruct rest; vm_compute; reflexivity. Qed.

Lemma marker_here_leading m rest :
  captured m = true -> marker_here (marker_text m +:+ rest) = Some m.
Proof.
  unfold captured. intros Hm. rewrite marker_text_leading.
  destruct m as [ds [fs|]]; cbn [whole fraction] in *.
  - apply andb_true_iff in Hm as [Hds Hfs].
    apply andb_true_iff in Hds as [Hne Hds], Hfs as [Hfne Hfs].
    cbn -[digits_span Js.truthy_string closes].
    rewrite (digits_span_app ds (String "." _) Hds eq_refl), Hne.
    rewrite (digits_span_app fs (String "s" _) Hfs eq_refl), Hfne.
    by rewrite closes_leading.
  - apply andb_true_iff in Hm as [Hds _].
    apply andb_true_iff in Hds as [Hne Hds].
    cbn -[digits_span Js.truthy_string closes].
    rewrite (digits_span_app ds (String "s" _) Hds eq_refl), Hne.
    by rewrite closes_leading.
Qed.

Lemma find_marker_leading m rest :
  captured m = true -> find_marker (marker_text m +:+ rest) = Some m.
Proof.
  intros Hm. pose proof (marker_here_leading m rest Hm) as Hhere.
  destruct (marker_text m +:+ rest); cbn -[marker_here] in *; by rewrite Hhere.
Qed.

(** The number of a run of digits, read from the left. *)
Lemma N_of_digits_from_app acc s1 s2 :
  N_of_digits_from acc (s1 +:+ s2) = N_of_digits_from (N_of_digits_from acc s1) s2.
Proof.
  revert acc. induction s1 as [|c s1 IH]; intros acc; [done|].
  change (String c s1 +:+ s2) with (String c (s1 +:+ s2)).
  cbn [N_of_digits_from]. apply IH.
Qed.

Lemma N_of_digits_from_shift acc s :
  N_of_digits_from acc s
  = (acc * 10 ^ N.of_nat (String.length s) + N_of_digits s)%N.
Proof.
  unfold N_of_digits. revert acc.
  induction s as [|c s IH]; intros acc.
  - cbn [N_of_digits_from String.length]. change (10 ^ N.of_nat 0)%N with 1%N. lia.
  - cbn [N_of_digits_from String.length].
    rewrite IH, (IH (10 * 0 + digit_value c)%N).
    rewrite Nat2N.inj_succ, N.pow_succ_r'. lia.
Qed.

Lemma digit_value_bound c : is_digit c = true -> (digit_value c <= 9)%N.
Proof.
  unfold is_digit, digit_value. intros H.
  apply andb_true_iff in H as [_ H]. apply Nat.leb_le in H. lia.
Qed.

Lemma N_of_digits_bound s :
  all_digits s = true -> (N_of_digits s < 10 ^ N.of_nat (String.length s))%N.
Proof.
  unfold N_of_digits. induction s as [|c s IH]; intros Hs.
  - cbn. lia.
  - cbn [all_digits] in Hs. apply andb_true_iff in Hs as [Hc Hs].
    cbn [N_of_digits_from String.length].
    rewrite N_of_digits_from_shift. fold (N_of_digits s).
    specialize (IH Hs). unfold N_of_digits in IH.
    pose proof (digit_value_bound c Hc).
    rewrite Nat2N.inj_succ, N.pow_succ_r'. unfold N_of_digits. nia.
Qed.

(** The double [parseFloat] returns for a marker below [2^53]: its
    floor is the whole part of the marker, or one more when the marker
    is that close below the next whole number. *)
Lemma parseFloat_marker m :
  captured m = true ->
  (N_of_digits (whole m) < 2 ^ 53)%N ->
  exists k j,
    parseFloat m = Double.Finite k (- j)
    /\ (0 <= j)%Z /\ (0 <= k <= 2 ^ 53)%Z
    /\ (Z.of_N (N_of_digits (whole m)) <= k / 2 ^ j <= Z.of_N (N_of_digits (whole m)) + 1)%Z
    /\ (fraction m = None -> (k / 2 ^ j)%Z = Z.of_N (N_of_digits (whole m))).
Proof.
  unfold captured, parseFloat. intros Hm Hbound.
  set (n := Z.of_N (N_of_digits (whole m))).
  assert (Hn : (0 <= n < 2 ^ 53)%Z).
  { unfold n. split; [lia|]. change (2 ^ 53)%Z with (Z.of_N (2 ^ 53)). lia. }
  assert (Hgrid : forall a b,
             (0 < b)%Z -> (n * b <= a < (n + 1) * b)%Z ->
             exists k j,
               Double.nearest a b = Double.Finite k (- j)
               /\ (0 <= j)%Z /\ (0 <= k <= 2 ^ 53)%Z /\ (n <= k / 2 ^ j <= n + 1)%Z).
  { intros a b Hb Hab.
    destruct (DoubleFacts.nearest_grid a b) as (k & j & Hk & Hj & Hk53); [nia..|].
    destruct (DoubleFacts.floor_nearest_fraction a b n) as (s & Hfloor & Hs); [nia|done..|].
    rewrite Hk, DoubleFacts.floor_Finite in Hfloor by done.
    exists k, j. split_and!; try done; injection Hfloor as <-; lia. }
  destruct (fraction m) as [f|] eqn:Hf.
  - apply andb_true_iff in Hm as [_ Hfs]. apply andb_true_iff in Hfs as [_ Hfs].
    pose proof (N_of_digits_bound f Hfs) as Hfb.
    destruct (Hgrid (Z.of_N (N_of_digits (whole m +:+ f))) (10 ^ Z.of_nat (String.length f))%Z)
      as (k & j & ? & ? & ? & ?).
    + apply Z.pow_pos_nonneg; lia.
    + unfold N_of_digits. rewrite N_of_digits_from_app.
      rewrite N_of_digits_from_shift. fold (N_of_digits (whole m)).
      rewrite N2Z.inj_add, N2Z.inj_mul, N2Z.inj_pow, nat_N_Z. fold n.
      change (Z.of_N 10) with 10%Z.
      assert (Z.of_N (N_of_digits f) < 10 ^ Z.of_nat (String.length f))%Z.
      { rewrite <- nat_N_Z. change 10%Z with (Z.of_N 10). rewrite <- N2Z.inj_pow. lia. }
      lia.
    + exists k, j. split_and!; (done || lia).
  - fold n. pose proof (DoubleFacts.floor_nearest_whole n Hn) as Hfloor.
    destruct (Hgrid n 1%Z) as (k & j & Hk & Hj & Hk53 & Hkn); [lia..|].
    rewrite Hk, DoubleFacts.floor_Finite in Hfloor by done.
    exists k, j. split_and!; try (done || lia). intros _. by injection Hfloor.
Qed.

Section Services.
Variable d1_fault : YouTubeDatabase.t -> YouTubeDatabase.Statement -> option string.
Variable toString_large : Z -> string.

Local Abbreviation format_timestamp := (format_timestamp toString_large).
Local Abbreviation enhance := (enhance d1_fault toString_large).

(** The text of a whole number of seconds up to [2^53]. *)
Lemma toString_floor k j :
  (0 <= j)%Z -> (0 <= k <= 2 ^ 53)%Z ->
  Double.toString toString_large (Double.floor (Double.Finite k (- j)))
  = Js.toString (Z.to_N (k / 2 ^ j)).
Proof.
  intros Hj Hk. rewrite DoubleFacts.floor_Finite by done. unfold Double.toString.
  assert (Hpow : (0 < 2 ^ j)%Z) by (by apply Z.pow_pos_nonneg).
  assert (k / 2 ^ j <= 2 ^ 53)%Z as Hle.
  { apply Z.div_le_upper_bound; [done|]. nia. }
  apply Z.leb_le in Hle. by rewrite Hle.
Qed.

(** The code's rendering of a timestamp is the format [M:SS] of its
    whole seconds. *)
Lemma format_timestamp_M_SS k j :
  (0 <= j)%Z -> (0 <= k <= 2 ^ 53)%Z ->
  format_timestamp (Double.Finite k (- j)) = M_SS (Z.to_N (k / 2 ^ j)).
Proof.
  intros Hj Hk. unfold ChatRoute.format_timestamp, M_SS.
  rewrite DoubleFacts.floor_div_60, DoubleFacts.floor_rem_60 by lia.
  assert (Hpow : (0 < 2 ^ j)%Z) by (by apply Z.pow_pos_nonneg).
  assert (Hs : (0 <= k / 2 ^ j <= 2 ^ 53)%Z).
  { split; [apply Z.div_pos; lia|]. apply Z.div_le_upper_bound; [done|]. nia. }
  set (s := (k / 2 ^ j)%Z) in *. unfold Double.toString.
  assert (Hminutes : (s / 60 <=? 2 ^ 53)%Z = true).
  { apply Z.leb_le. transitivity s; [|lia]. apply Z.div_le_upper_bound; lia. }
  assert (Hseconds : (s mod 60 <=? 2 ^ 53)%Z = true).
  { apply Z.leb_le. pose proof (Z.mod_pos_bound s 60 ltac:(lia)).
    change (2 ^ 53)%Z with 9007199254740992%Z. lia. }
  rewrite Hminutes, Hseconds.
  rewrite Z2N.inj_div, Z2N.inj_mod by lia. change (Z.to_N 60) with 60%N.
  do 2 f_equal.
  assert (Hbound : (Z.to_N s mod 60 < 60)%N) by (apply N.mod_lt; done).
  generalize dependent (Z.to_N s mod 60)%N. intros r Hr.
  assert (Hall : forallb
                   (fun n => String.eqb
                               (Js.padStart2 (Js.toString (N.of_nat n)))
                               (String (digit_char (N.of_nat n / 10))
                                  (String (digit_char (N.of_nat n mod 10)) EmptyString)))
                   (seq 0 60) = true) by (vm_compute; reflexivity).
  rewrite forallb_forall in Hall.
  specialize (Hall (N.to_nat r)). rewrite N2Nat.id in Hall.
  apply String.eqb_eq, Hall, in_seq. lia.
Qed.

(** C5 (amended).  A citation with an empty [videoId], or of a video
    the metadata store does not have, is returned unchanged.  A
    citation with a non-empty [videoId] whose video is found in the
    metadata store, and whose [timestamp] field begins with a marker
    [[<seconds>s]] of less than 2^53 seconds, with or without a
    fractional part, gets the stored URL of the video, the timestamp in
    the format [M:SS] of its whole seconds, and [&t=<whole seconds>] at
    the end of the URL unless the stored URL contains [&t=] already.
    The whole seconds are [Math.floor(parseFloat(<seconds>))]: the
    whole part of the marker, or one more when the fractional part is
    so close to one that the nearest double is the next whole number;
    for a marker without fractional part they are the marker's
    number. *)
Theorem enhance_formats_leading_marker source db :
  (Js.truthy_string (Source.videoId source) = false ->
   enhance source db = (Ok source, db))
  /\ (d1_fault db (YouTubeDatabase.SelectVideo (Source.videoId source)) = None ->
      YouTubeDatabase.videos db !! Source.videoId source = None ->
      enhance source db = (Ok source, db))
  /\ (forall v marker rest,
        d1_fault db (YouTubeDatabase.SelectVideo (Source.videoId source)) = None ->
        Js.truthy_string (Source.videoId source) = true ->
        YouTubeDatabase.videos db !! Source.videoId source = Some v ->
        captured marker = true ->
        (N_of_digits (whole marker) < 2 ^ 53)%N ->
        Source.timestamp source = Some (marker_text marker +:+ rest) ->
        exists seconds : N,
          whole_seconds marker = Double.Whole (Z.of_N seconds)
          /\ (N_of_digits (whole marker) <= seconds <= N_of_digits (whole marker) + 1)%N
          /\ (fraction marker = None -> seconds = N_of_digits (whole marker))
          /\ enhance source db
             = (Ok {| Source.videoId := Source.videoId source;
                      Source.videoTitle := Source.videoTitle source;
                      Source.channelName := Source.channelName source;
                      Source.url :=
                        if Js.includes "&t=" (YouTubeDatabase.url v)
                        then YouTubeDatabase.url v
                        else YouTubeDatabase.url v +:+ "&t=" +:+ Js.toString seconds;
                      Source.source := Source.source source;
                      Source.timestamp := Some (M_SS seconds) |},
                db)).
Proof.
  split_and!.
  - intros Hid. unfold ChatRoute.enhance. by rewrite Hid.
  - intros Hrun Hvideo. unfold ChatRoute.enhance.
    destruct (Js.truthy_string (Source.videoId source)); [|done].
    unfold YouTubeDatabase.getVideo, YouTubeDatabase.run, bind, ret.
    cbn [YouTubeDatabase.violation]. by rewrite Hrun, Hvideo.
  - intros v marker rest Hrun Hid Hvideo Hmarker Hbound Hts.
    destruct (parseFloat_marker marker Hmarker Hbound)
      as (k & j & Hparse & Hj & Hk & Hfloor & Hwhole).
    assert (Hpow : (0 < 2 ^ j)%Z) by (by apply Z.pow_pos_nonneg).
    assert (Hs : (0 <= k / 2 ^ j)%Z) by (apply Z.div_pos; lia).
    exists (Z.to_N (k / 2 ^ j)). split; [|split; [|split]].
    + unfold whole_seconds. rewrite Hparse, DoubleFacts.floor_Finite by done.
      by rewrite Z2N.id.
    + lia.
    + intros Hnone. rewrite (Hwhole Hnone). by rewrite N2Z.id.
    + unfold ChatRoute.enhance. rewrite Hid.
      unfold YouTubeDatabase.getVideo, YouTubeDatabase.run, bind, ret.
      cbn [YouTubeDatabase.violation]. rewrite Hrun, Hvideo. unfold enhance_with.
      destruct source as [vid vtitle cname u src ts]. cbn in Hts. subst ts.
      cbn [Source.set_url Source.timestamp Source.url Source.videoId Source.videoTitle
           Source.channelName Source.source].
      rewrite (find_marker_leading marker rest Hmarker).
      assert (Htruthy : Js.truthy_string (marker_text marker +:+ rest) = true).
      { rewrite marker_text_leading. done. }
      rewrite Htruthy, Hparse.
      cbn [Source.set_timestamp Source.set_url Source.url Source.timestamp
           Source.videoId Source.videoTitle Source.channelName Source.source].
      rewrite format_timestamp_M_SS, toString_floor by done.
      by destruct (Js.includes "&t=" (YouTubeDatabase.url v)).
Qed.

End Services.

(** C5, as stated, fails.  The marker is looked for in the [timestamp]
    field of the citation, which no chunk of the normalizer has: the
    citation of a stored transcript chunk whose passage begins with
    [[125s]] keeps an empty timestamp and a URL without [&t=].  A
    citation whose field does hold the marker is returned as it is when
    its video is not in the metadata store.  And the seconds of the
    marker reach the URL as a double: the marker [[9007199254740993s]]
    of a found video puts [&t=9007199254740992] on the URL. *)
Lemma enhance_leaves_marker_unformatted :
  fst (enhance Scenario.d1_up Scenario.toString_large Scenario.citation_of_stored_chunk
         Scenario.store_with_video)
  = Ok Scenario.citation_of_stored_chunk
  /\ Source.timestamp Scenario.citation_of_stored_chunk = None
  /\ Js.includes "&t=" (Source.url Scenario.citation_of_stored_chunk) = false
  /\ fst (enhance Scenario.d1_up Scenario.toString_large Scenario.citation_marked
            YouTubeDatabase.empty)
     = Ok Scenario.citation_marked
  /\ Source.timestamp Scenario.citation_marked = Some "[125s] Introduction"
  /\ Source.timestamp Scenario.citation_far = Some "[9007199254740993s] Credits"
  /\ fst (enhance Scenario.d1_up Scenario.toString_large Scenario.citation_far
            Scenario.store_with_video)
     = Ok {| Source.videoId := "v1";
             Source.videoTitle := "Test Video";
             Source.channelName := "Test Channel";
             Source.url := "https://www.youtube.com/watch?v=v1&t=9007199254740992";
             Source.source := "transcript";
             Source.timestamp := Some "150119987579016:32" |}.
Proof. split_and!; vm_compute; reflexivity. Qed.

Lemma enhance_formats_leading_marker_witness :
  exists seconds : N,
    whole_seconds {| whole := "125"; fraction := Some "75" |}
    = Double.Whole (Z.of_N seconds)
    /\ (125 <= seconds <= 125 + 1)%N
    /\ (Some "75" = None -> seconds = 125%N)
    /\ enhance Scenario.d1_up Scenario.toString_large Scenario.citation_fraction
         Scenario.store_with_video
       = (Ok {| Source.videoId := "v1";
                Source.videoTitle := "Test Video";
                Source.channelName := "Test Channel";
                Source.url :=
                  "https://www.youtube.com/watch?v=v1" +:+ "&t=" +:+ Js.toString seconds;
                Source.source := "transcript";
                Source.timestamp := Some (M_SS seconds) |},
          Scenario.store_with_video).
Proof.
  refine (proj2 (proj2 (enhance_formats_leading_marker Scenario.d1_up
                          Scenario.toString_large Scenario.citation_fraction
                          Scenario.store_with_video))
            Scenario.stored_video {| whole := "125"; fraction := Some "75" |}
            " Introduction" eq_refl eq_refl _ eq_refl _ eq_refl).
  - vm_compute; reflexivity.
  - vm_compute; reflexivity.
Defined.

(** C5 on two markers with a fractional part: [[125.75s]] gives [2:05]
    and [&t=125]; [[59.99999999999999999s]], whose nearest double is
    60, gives [1:00] and [&t=60]. *)
Lemma enhance_fractional_markers :
  fst (enhance Scenario.d1_up Scenario.toString_large Scenario.citation_fraction
         Scenario.store_with_video)
  = Ok {| Source.videoId := "v1";
          Source.videoTitle := "Test Video";
          Source.channelName := "Test Channel";
          Source.url := "https://www.youtube.com/watch?v=v1&t=125";
          Source.source := "transcript";
          Source.timestamp := Some "2:05" |}
  /\ fst (enhance Scenario.d1_up Scenario.toString_large Scenario.citation_close
            Scenario.store_with_video)
     = Ok {| Source.videoId := "v1";
             Source.videoTitle := "Test Video";
             Source.channelName := "Test Channel";
             Source.url := "https://www.youtube.com/watch?v=v1&t=60";
             Source.source := "transcript";
             Source.timestamp := Some "1:00" |}.
Proof. split; vm_compute; reflexivity. Qed.

End ChatRouteFacts.

(** ** The scraper and the channel route *)

Module YouTubeScraperFacts.
Import YouTubeScraper.

Section Services.
Variable channel_page : string -> result ChannelInfo.
Variable videos_page : string -> nat -> result (list string).
Variable video_page : string -> result VideoInfo.

Local Abbreviation scraped := (YouTubeScraper.scraped video_page).
Local Abbreviation reported := (YouTubeScraper.reported video_page).
Local Abbreviation processVideoBatch := (YouTubeScraper.processVideoBatch video_page).
Local Abbreviation processVideoBatch_loop :=
  (YouTubeScraper.processVideoBatch_loop video_page).
Local Abbreviation batches_loop := (YouTubeScraper.batches_loop video_page).
Local Abbreviation scrapeChannelWithVideos :=
  (YouTubeScraper.scrapeChannelWithVideos channel_page videos_page video_page).

(** One turn of the loop of [processVideoBatch] never throws: the video
    is added to the results, or its failure is written to the console. *)
Lemma processVideoBatch_loop_spec videoUrls results console :
  processVideoBatch_loop videoUrls results console
  = (Ok (results ++ omap scraped videoUrls), console ++ flat_map reported videoUrls).
Proof.
  revert results console.
  induction videoUrls as [|videoUrl rest IH]; intros results console.
  - cbn. by rewrite !app_nil_r.
  - cbn [YouTubeScraper.processVideoBatch_loop omap list_omap flat_map].
    unfold bind at 1, try_catch, bind, scrapeVideo, try_catch, lift_result, ret,
      console_error, throw, YouTubeScraper.scraped, YouTubeScraper.reported.
    destruct (video_page videoUrl) as [videoInfo|e]; cbn; rewrite IH.
    + by rewrite <- app_assoc.
    + by rewrite <- !app_assoc.
Qed.

Lemma processVideoBatch_spec videoUrls console :
  processVideoBatch videoUrls console
  = (Ok (omap scraped videoUrls), console ++ flat_map reported videoUrls).
Proof. apply processVideoBatch_loop_spec. Qed.

Lemma slice_length {A} (i : nat) (l : list A) :
  length (slice i (i + batchSize) l) <= batchSize.
Proof. unfold slice. rewrite length_take. lia. Qed.

(** A batch and what follows it make up the rest of the list. *)
Lemma slice_next {A} (i : nat) (l : list A) :
  slice i (i + batchSize) l ++ drop (i + batchSize) l = drop i l.
Proof.
  unfold slice. replace (i + batchSize - i) with batchSize by lia.
  rewrite <- drop_drop. apply take_drop.
Qed.

(** With enough turns the loop over the batches goes through every
    link from [i] on. *)
Lemma batches_loop_spec turns i videoLinks videos console :
  length videoLinks - i <= turns ->
  batches_loop turns i videoLinks videos console
  = (Ok (videos ++ omap scraped (drop i videoLinks)),
     console ++ flat_map reported (drop i videoLinks)).
Proof.
  unfold YouTubeScraper.batches_loop. revert i videos console.
  induction turns as [|turns IH]; intros i videos console Hturns;
    cbn [batches_loop_with].
  - rewrite drop_ge by lia. cbn. by rewrite !app_nil_r.
  - destruct (Nat.ltb_spec i (length videoLinks)) as [Hlt|Hge].
    + unfold bind at 1. rewrite processVideoBatch_spec.
      rewrite IH by (unfold batchSize; lia).
      rewrite <- (slice_next i videoLinks).
      rewrite omap_app, flat_map_app, <- !app_assoc. done.
    + rewrite drop_ge by lia. cbn. by rewrite !app_nil_r.
Qed.

(** The loop over the batches calls its method on the batches of five
    links, one after the other, whatever the method is. *)
Lemma batches_loop_with_batches processBatch turns i videoLinks videos console :
  batches_loop_with processBatch turns i videoLinks videos console
  = process_batches processBatch (batches_of turns 5 (drop i videoLinks)) videos console.
Proof.
  revert i videos console.
  induction turns as [|turns IH]; intros i videos console;
    cbn [batches_loop_with batches_of process_batches]; [done|].
  destruct (Nat.ltb_spec i (length videoLinks)) as [Hlt|Hge].
  - destruct (drop i videoLinks) as [|link rest] eqn:Hdrop.
    { apply (f_equal length) in Hdrop. rewrite length_drop in Hdrop. cbn in Hdrop. lia. }
    rewrite <- Hdrop. cbn [process_batches].
    unfold slice. replace (i + batchSize - i) with 5 by (unfold batchSize; lia).
    rewrite drop_drop. change batchSize with 5. unfold bind.
    destruct (processBatch (take 5 (drop i videoLinks)) console) as [[batchResults|e] c];
      [apply IH|done].
  - by rewrite drop_ge by lia.
Qed.

Lemma batches_of_bounded turns links :
  Forall (fun batch => 0 < length batch <= 5) (batches_of turns 5 links).
Proof.
  revert links. induction turns as [|turns IH]; intros links; cbn [batches_of]; [done|].
  destruct links as [|link rest]; [done|].
  constructor; [|apply IH]. rewrite length_take. cbn [length]. lia.
Qed.

Lemma batches_of_concat turns links :
  length links <= turns -> concat (batches_of turns 5 links) = links.
Proof.
  revert links. induction turns as [|turns IH]; intros links Hturns; cbn [batches_of].
  - destruct links; [done|cbn in Hturns; lia].
  - destruct links as [|link rest]; [done|].
    cbn [concat]. rewrite IH by (rewrite length_drop; cbn [length] in *; lia).
    apply take_drop.
Qed.

(** C6 (amended).  The videos of a channel are scraped in batches of
    five links, the last one of the links that are left: the loop calls
    the method that processes a batch on consecutive runs of at most
    five links which together are the links of the channel.  A video
    that cannot be scraped is written to the console and left out;
    every other link is still scraped, and the channel is returned with
    all the videos that could be. *)
Theorem scraping_failures_are_isolated channelUrl maxVideos channel videoLinks console :
  channel_page channelUrl = Ok channel ->
  videos_page (channelUrl +:+ "/videos") maxVideos = Ok videoLinks ->
  scrapeChannelWithVideos channelUrl maxVideos console
  = (Ok (channel, omap scraped videoLinks), console ++ flat_map reported videoLinks)
  /\ (forall processBatch videos c,
        batches_loop_with processBatch (length videoLinks) 0 videoLinks videos c
        = process_batches processBatch (batches_of (length videoLinks) 5 videoLinks)
            videos c)
  /\ Forall (fun batch => 0 < length batch <= 5) (batches_of (length videoLinks) 5 videoLinks)
  /\ concat (batches_of (length videoLinks) 5 videoLinks) = videoLinks
  /\ (forall videoUrl videoInfo,
        videoUrl ∈ videoLinks -> video_page videoUrl = Ok videoInfo ->
        videoInfo ∈ omap scraped videoLinks).
Proof.
  intros Hchannel Hlinks. split_and!.
  - unfold YouTubeScraper.scrapeChannelWithVideos, bind, scrapeChannel, scrapeVideoLinks,
      try_catch, lift_result, ret.
    rewrite Hchannel, Hlinks.
    rewrite (batches_loop_spec (length videoLinks) 0 videoLinks []) by lia.
    by rewrite drop_0.
  - intros processBatch videos c. by rewrite batches_loop_with_batches, drop_0.
  - apply batches_of_bounded.
  - by apply batches_of_concat.
  - intros videoUrl videoInfo Hin Hpage. apply list_elem_of_omap.
    exists videoUrl. split; [done|]. unfold YouTubeScraper.scraped. by rewrite Hpage.
Qed.

End Services.

Lemma scraping_failures_are_isolated_witness :
  Scenario.channel_page Scenario.channel_url
  = Ok (Scenario.channel_info Scenario.channel_url)
  /\ Scenario.videos_page (Scenario.channel_url +:+ "/videos") 20
     = Ok [Scenario.url_v1; Scenario.url_v2]
  /\ scrapeChannelWithVideos Scenario.channel_page Scenario.videos_page
       Scenario.video_page_v1_down Scenario.channel_url 20 []
     = (Ok (Scenario.channel_info Scenario.channel_url,
            [Scenario.video_info Scenario.url_v2]),
        [ "Error scraping video: Failed to fetch video: 404";
          "Error processing video https://www.youtube.com/watch?v=v1: Failed to scrape video: Failed to fetch video: 404" ]).
Proof.
  split_and!; [reflexivity | reflexivity |].
  destruct (scraping_failures_are_isolated
              Scenario.channel_page Scenario.videos_page Scenario.video_page_v1_down
              Scenario.channel_url 20 _ _ [] eq_refl eq_refl) as (-> & _).
  vm_compute; reflexivity.
Defined.

End YouTubeScraperFacts.

Module ProcessChannelRouteFacts.
Import ProcessChannelRoute.

(** A channel the metadata store already has is not ingested again: the
    route answers from the store and leaves the index, the store and the
    console as they are. *)
Lemma POST_skips_processed_channel
    d1_fault embed splitText upsert channel_page videos_page video_page
    request w url channelId existing :
  channelUrl request = Some url ->
  Js.truthy_string url = true ->
  YouTubeScraper.extractChannelId url = Some channelId ->
  d1_fault (db w) (YouTubeDatabase.SelectChannel channelId) = None ->
  d1_fault (db w) (YouTubeDatabase.SelectVideos channelId) = None ->
  YouTubeDatabase.channels (db w) !! channelId = Some existing ->
  exists videoCount,
    POST d1_fault embed splitText upsert channel_page videos_page video_page request w
    = (Http.json (Http.ChannelSummary channelId
                    (YouTubeDatabase.channel_name existing) videoCount
                    "Channel already processed"),
       w).
Proof.
  intros Hurl Htruthy Hid Hselect Hlist Hchannel. destruct w as [d v c].
  unfold POST, handle. rewrite Hurl, Htruthy, Hid. cbn [negb].
  unfold bind, with_db, YouTubeDatabase.getChannel, YouTubeDatabase.listVideos,
    YouTubeDatabase.run, bind, ret.
  cbn [db vectorDb console YouTubeDatabase.violation] in *.
  rewrite Hselect, Hchannel. cbn [db]. rewrite Hlist.
  eexists. reflexivity.
Qed.

(** C6, as stated, fails for the ingestion of the scraped videos: when
    the metadata store refuses the first video, the request ends with
    status 500 and the second video, which has no fault of its own, is
    never stored. *)
Lemma ingestion_failure_aborts_channel :
  fst (POST Scenario.d1_v1_down Scenario.embed_up Scenario.splitter Scenario.upsert_up
         Scenario.channel_page Scenario.videos_page Scenario.video_page_up
         Scenario.channel_request Scenario.channel_world)
  = {| Http.status := 500; Http.body := Http.Error "Failed to process channel" |}
  /\ YouTubeDatabase.videos
       (db (snd (POST Scenario.d1_v1_down Scenario.embed_up Scenario.splitter
                   Scenario.upsert_up
                   Scenario.channel_page Scenario.videos_page Scenario.video_page_up
                   Scenario.channel_request Scenario.channel_world)))
     !! "v2" = None
  /\ (forall db,
        Scenario.d1_v1_down db
          (YouTubeDatabase.WriteVideo
             (video_row (Scenario.channel_info Scenario.channel_url)
                        (Scenario.video_info Scenario.url_v2)))
        = None).
Proof. split_and!; vm_compute; reflexivity. Qed.

End ProcessChannelRouteFacts.

(** * Further properties of the code *)

(** ** Maintenance of the vector index *)

Module IndexMaintenance.
Import VectorDatabase.

(** Deleting by a metadata key commutes with reading the documents. *)
Lemma documents_filter_rows (P : Row -> Prop) (Q : Document -> Prop)
    `{!forall r, Decision (P r)} `{!forall d, Decision (Q d)} (rs : list Row) :
  (forall r, P r <-> Q (document_of_row r)) ->
  map document_of_row (filter P rs) = filter Q (map document_of_row rs).
Proof.
  intros HPQ. induction rs as [|r rs IH]; [done|]. cbn [map].
  rewrite !filter_cons.
  destruct (decide (P r)) as [HP|HP], (decide (Q (document_of_row r))) as [HQ|HQ];
    cbn [map]; rewrite ?IH; try done; exfalso; apply HPQ in HP || apply HPQ in HQ; done.
Qed.



Section Services.
Variable embed : string -> result Embedding.
Variable fromExistingIndex : VectorDBConfig -> result SupabaseVectorStore.
Variable cosine_distance : Embedding -> Embedding -> Q.
Variable match_threshold : Q.
Variable splitText : string -> list string.
Variable upsert : Table -> list (Document * Embedding) -> Upsert.
Variable delete_fails : Table -> string -> string -> bool.

Local Abbreviation similaritySearch :=
  (VectorDatabase.similaritySearch embed fromExistingIndex cosine_distance match_threshold).
Local Abbreviation processVideoContent :=
  (VectorDatabase.processVideoContent embed splitText upsert).
Local Abbreviation processComments :=
  (VectorDatabase.processComments embed splitText upsert).
Local Abbreviation deleteVideoVectors := (VectorDatabase.deleteVideoVectors delete_fails).
Local Abbreviation deleteChannelVectors :=
  (VectorDatabase.deleteChannelVectors delete_fails).

(** Every document a search returns is the document of a row of the
    table. *)
Lemma similaritySearch_from_rows query k db docs db' :
  similaritySearch query k db = (Ok docs, db') ->
  Forall (fun d => exists r, r ∈ rows (table db) /\ d = document_of_row r) docs.
Proof.
  rewrite VectorDatabaseFacts.similaritySearch_cases. intros Hrun.
  assert (Hdocs : exists q,
             docs = map (fun rs => document_of_row (fst rs))
                        (match_documents cosine_distance match_threshold q k (table db))).
  { destruct (vectorStore db).
    - destruct (embed query) as [q|]; [|done]. injection Hrun as <- _. by exists q.
    - destruct (fromExistingIndex (config db)); [|done].
      destruct (embed query) as [q|]; [|done]. injection Hrun as <- _. by exists q. }
  destruct Hdocs as [q ->].
  destruct (VectorDatabaseFacts.match_documents_spec cosine_distance match_threshold
              q k (table db)) as (_ & Hfound & _).
  apply Forall_fmap. eapply Forall_impl; [exact Hfound|].
  intros [r sim] (_ & Hr & _). cbn in *. by exists r.
Qed.

(** X1.  [deleteVideoVectors(v)] never throws, whether the request is
    carried out or not.  When it is carried out, no search returns a
    chunk of the video [v] afterwards, whatever the query and [k]; when
    it fails, the index is left as it was. *)
Theorem search_after_deleteVideoVectors video db :
  fst (deleteVideoVectors video db) = Ok tt
  /\ (delete_fails (table db) "metadata->>videoId" video = false ->
      forall query k docs db',
        similaritySearch query k (snd (deleteVideoVectors video db)) = (Ok docs, db') ->
        Forall (fun d => videoId (metadata d) <> video) docs)
  /\ (delete_fails (table db) "metadata->>videoId" video = true ->
      snd (deleteVideoVectors video db) = db).
Proof.
  unfold VectorDatabase.deleteVideoVectors.
  destruct (delete_fails (table db) "metadata->>videoId" video); split_and!; try done.
  intros _ query k docs db' Hrun. apply similaritySearch_from_rows in Hrun.
  eapply Forall_impl; [exact Hrun|]. cbn. intros d (r & Hr & ->).
  by apply list_elem_of_filter in Hr as [Hne _].
Qed.

(** X2.  [deleteChannelVectors(c)] never throws.  When the request is
    carried out, no search returns a chunk of the channel [c]
    afterwards; when it fails, the index is left as it was. *)
Theorem search_after_deleteChannelVectors channel db :
  fst (deleteChannelVectors channel db) = Ok tt
  /\ (delete_fails (table db) "metadata->>channelId" channel = false ->
      forall query k docs db',
        similaritySearch query k (snd (deleteChannelVectors channel db)) = (Ok docs, db') ->
        Forall (fun d => channelId (metadata d) <> channel) docs)
  /\ (delete_fails (table db) "metadata->>channelId" channel = true ->
      snd (deleteChannelVectors channel db) = db).
Proof.
  unfold VectorDatabase.deleteChannelVectors.
  destruct (delete_fails (table db) "metadata->>channelId" channel); split_and!; try done.
  intros _ query k docs db' Hrun. apply similaritySearch_from_rows in Hrun.
  eapply Forall_impl; [exact Hrun|]. cbn. intros d (r & Hr & ->).
  by apply list_elem_of_filter in Hr as [Hne _].
Qed.

(** X4.  Ingesting a video and then deleting its vectors gives back the
    documents the index had before, provided it had none of that video
    and the delete request is carried out. *)
Theorem ingest_then_delete_restores
    video channel title transcript description meta db db1 :
  Forall (fun r => videoId (row_metadata r) <> video) (rows (table db)) ->
  processVideoContent video channel title transcript description meta db = (Ok tt, db1) ->
  delete_fails (table db1) "metadata->>videoId" video = false ->
  documents (snd (deleteVideoVectors video db1)) = documents db.
Proof.
  intros Hfresh Hrun Hdelete.
  destruct (VectorDatabaseFacts.processVideoContent_submits embed splitText upsert
              video channel title transcript description meta db)
    as (_ & _ & Hdocs & _).
  rewrite Hrun in Hdocs. cbn [fst snd is_ok] in Hdocs. specialize (Hdocs eq_refl).
  unfold VectorDatabase.deleteVideoVectors. rewrite Hdelete.
  unfold documents in *. cbn [snd table set_table rows].
  pose proof (fun rs =>
                documents_filter_rows (fun r => videoId (row_metadata r) <> video)
                  (fun d => videoId (metadata d) <> video) rs
                  (fun r => iff_refl _)) as Hfilter.
  rewrite Hfilter, Hdocs, filter_app.
  rewrite <- (app_nil_r (map document_of_row (rows (table db)))) at 2. f_equal.
  - rewrite <- Hfilter. f_equal. clear -Hfresh. induction Hfresh as [|r rs Hr _ IH]; [done|].
    by rewrite filter_cons_True, IH.
  - destruct (vectorStore db); [|done].
    assert (Hnone : forall text kind,
               filter (fun d => videoId (metadata d) <> video)
                 (createDocuments splitText text
                    (video_chunk_metadata video channel title meta kind)) = []).
    { intros text kind. unfold createDocuments.
      induction (splitText text) as [|chunk chunks IH]; [done|]. cbn [map].
      by rewrite filter_cons_False by (cbn; tauto). }
    rewrite !filter_app, Hnone.
    destruct (Js.truthy_string transcript), (Js.truthy_string description);
      by rewrite ?Hnone.
Qed.

(** X6.  Every document [processVideoContent] adds carries the identity
    of the video it was called for: its [videoId], [channelId], title,
    channel name and URL, and one of the three source tags, and none
    carries a timestamp; the documents the index had before are kept in
    front. *)
Theorem processVideoContent_provenance
    video channel title transcript description meta db db' :
  processVideoContent video channel title transcript description meta db = (Ok tt, db') ->
  exists added,
    documents db' = documents db ++ added
    /\ Forall (fun d =>
                 videoId (metadata d) = video
                 /\ channelId (metadata d) = channel
                 /\ videoTitle (metadata d) = title
                 /\ channelName (metadata d) = vm_channelName meta
                 /\ url (metadata d) = vm_url meta
                 /\ viewCount (metadata d) = vm_viewCount meta
                 /\ uploadDate (metadata d) = vm_uploadDate meta
                 /\ source (metadata d) ∈ ["transcript"; "description"; "title"]
                 /\ timestamp (metadata d) = None)
              added.
Proof.
  intros Hrun.
  destruct (VectorDatabaseFacts.processVideoContent_submits embed splitText upsert
              video channel title transcript description meta db) as (_ & _ & Hdocs & _).
  rewrite Hrun in Hdocs. specialize (Hdocs eq_refl). cbn [snd] in Hdocs.
  eexists. split; [exact Hdocs|].
  assert (Hcreated : forall text kind,
             kind ∈ ["transcript"; "description"; "title"] ->
             Forall (fun d =>
                       videoId (metadata d) = video
                       /\ channelId (metadata d) = channel
                       /\ videoTitle (metadata d) = title
                       /\ channelName (metadata d) = vm_channelName meta
                       /\ url (metadata d) = vm_url meta
                       /\ viewCount (metadata d) = vm_viewCount meta
                       /\ uploadDate (metadata d) = vm_uploadDate meta
                       /\ source (metadata d) ∈ ["transcript"; "description"; "title"]
                       /\ timestamp (metadata d) = None)
                    (createDocuments splitText text
                       (video_chunk_metadata video channel title meta kind))).
  { intros text kind Hkind. apply Forall_fmap, Forall_true. intros chunk. cbn.
    by split_and!. }
  destruct (vectorStore db); [|constructor].
  rewrite !Forall_app. split_and!.
  - destruct (Js.truthy_string transcript); [|constructor].
    apply Hcreated. set_solver.
  - destruct (Js.truthy_string description); [|constructor].
    apply Hcreated. set_solver.
  - apply Hcreated. set_solver.
Qed.

Lemma processVideoContent_uninitialized
    video channel title transcript description meta db :
  vectorStore db = None ->
  processVideoContent video channel title transcript description meta db = (Ok tt, db).
Proof.
  intros Hvs.
  assert (Hadd : forall docs, addDocuments_if_initialized embed upsert docs db = (Ok tt, db)).
  { intros docs. unfold addDocuments_if_initialized. by rewrite Hvs. }
  unfold VectorDatabase.processVideoContent, bind.
  destruct (Js.truthy_string transcript); rewrite ?Hadd; unfold ret;
    (destruct (Js.truthy_string description); rewrite ?Hadd; by rewrite Hvs).
Qed.

(** X7.  On a database whose index has not been initialized, both
    ingestion methods return normally and store nothing: the database is
    left exactly as it was. *)
Theorem ingestion_without_index_is_silent
    video channel title transcript description meta comments cmeta db :
  vectorStore db = None ->
  processVideoContent video channel title transcript description meta db = (Ok tt, db)
  /\ processComments video channel title comments cmeta db = (Ok tt, db).
Proof.
  intros Hvs. split; [by apply processVideoContent_uninitialized|].
  assert (Hadd : forall docs, addDocuments_if_initialized embed upsert docs db = (Ok tt, db)).
  { intros docs. unfold addDocuments_if_initialized. by rewrite Hvs. }
  unfold VectorDatabase.processComments.
  destruct comments as [|c0 cs0]; [done|].
  generalize (c0 :: cs0). intros cs.
  induction cs as [|c cs IH]; [done|]. cbn [for_of]. unfold bind.
  destruct (negb (Js.truthy_string (comment_content c))); unfold ret;
    rewrite ?Hadd; exact IH.
Qed.

(** X8.  Ingestion is not atomic: when the transcript has been embedded
    and stored and the description cannot be embedded, the call throws
    and the chunks of the transcript stay in the index, without the
    title. *)
Theorem processVideoContent_partial_on_failure
    video channel title transcript description meta db vs :
  vectorStore db = Some vs ->
  (forall new_rows, upsert (table db) new_rows = Stored) ->
  Js.truthy_string transcript = true ->
  Js.truthy_string description = true ->
  forallb (fun chunk => is_ok (embed chunk)) (splitText transcript) = true ->
  forallb (fun chunk => is_ok (embed chunk)) (splitText description) = false ->
  exists e db',
    processVideoContent video channel title transcript description meta db
    = (Throw e, db')
    /\ documents db'
       = documents db
         ++ createDocuments splitText transcript
              (video_chunk_metadata video channel title meta "transcript").
Proof.
  intros Hvs Hstored Htr Hdesc Hok Hfail.
  assert (Hchunks : forall text m,
             forallb (fun d => is_ok (embed (pageContent d)))
                     (createDocuments splitText text m)
             = forallb (fun chunk => is_ok (embed chunk)) (splitText text)).
  { intros text m. unfold createDocuments.
    induction (splitText text) as [|chunk chunks IH]; [done|]. cbn. by rewrite IH. }
  unfold VectorDatabase.processVideoContent. rewrite Htr, Hdesc. unfold bind at 1.
  set (md := video_chunk_metadata video channel title meta).
  destruct (VectorDatabaseFacts.submits_addDocuments_if_initialized embed upsert
              (createDocuments splitText transcript (md "transcript")) db)
    as (Hvs1 & _ & Hdocs1 & _).
  assert (Hfirst : is_ok (fst (addDocuments_if_initialized embed upsert
                                 (createDocuments splitText transcript (md "transcript"))
                                 db)) = true).
  { unfold addDocuments_if_initialized, addDocuments, bind, lift_result. rewrite Hvs.
    pose proof (VectorDatabaseFacts.embedDocuments_is_ok embed pageContent
                  (createDocuments splitText transcript (md "transcript"))) as Hemb.
    rewrite Hchunks, Hok in Hemb.
    destruct (VectorDatabase.embedDocuments embed _) as [vectors|]; [|done].
    by rewrite Hstored. }
  destruct (addDocuments_if_initialized embed upsert
              (createDocuments splitText transcript (md "transcript")) db)
    as [[[]|e1] db1]; [|done].
  cbn [fst snd] in *. specialize (Hdocs1 eq_refl). rewrite Hvs in Hdocs1, Hvs1.
  unfold bind at 1.
  assert (Hsecond : exists e2,
             addDocuments_if_initialized embed upsert
               (createDocuments splitText description (md "description")) db1
             = (Throw e2, db1)).
  { unfold addDocuments_if_initialized, addDocuments, bind, lift_result. rewrite Hvs1.
    pose proof (VectorDatabaseFacts.embedDocuments_is_ok embed pageContent
                  (createDocuments splitText description (md "description"))) as Hemb.
    rewrite Hchunks, Hfail in Hemb.
    destruct (VectorDatabase.embedDocuments embed _) as [|e2]; [done|].
    by exists e2. }
  destruct Hsecond as [e2 ->]. by exists e2, db1.
Qed.

(** X9.  A search only reads the index: whatever its outcome the table
    and the configuration are as before, and on an initialized database
    nothing changes at all.  A search that returns leaves the database
    initialized, so that ingestion, silent until then, stores from then
    on. *)
Theorem similaritySearch_reads_and_initializes query k db r db' :
  similaritySearch query k db = (r, db') ->
  table db' = table db
  /\ config db' = config db
  /\ (is_Some (vectorStore db) -> db' = db)
  /\ (is_ok r = true -> is_Some (vectorStore db')).
Proof.
  rewrite VectorDatabaseFacts.similaritySearch_cases.
  destruct (vectorStore db) as [vs|] eqn:Hvs.
  - destruct (embed query) as [q|e]; intros [= <- <-];
      (split_and!; [done|done|done|]); [|done].
    intros _. rewrite Hvs. by eexists.
  - destruct (fromExistingIndex (config db)) as [vs|e].
    + destruct (embed query) as [q|e]; intros [= <- <-];
        (split_and!; [done|done|done|]); [|done].
      intros _. by eexists.
    + intros [= <- <-]. split_and!; [done|done|done|done].
Qed.

End Services.

Section Statistics.
Variable select_fails : Table -> StatsQuery -> bool.
Variable selected : string -> Row -> option string.

Local Abbreviation getStats := (VectorDatabase.getStats select_fails selected).


End Statistics.

Lemma search_after_deleteVideoVectors_witness :
  Scenario.delete_up (table Scenario.db_three) "metadata->>videoId" "v2" = false
  /\ similaritySearch Scenario.embed_up Scenario.index_up Scenario.distance (-1)
       "What is this video about?" 2
       (snd (deleteVideoVectors Scenario.delete_up "v2" Scenario.db_three))
     = (Ok [ document_of_row (Scenario.row 3 "v3" "between" [3 # 5; 4 # 5]);
             document_of_row (Scenario.row 1 "v1" "far" [0%Q; 1%Q]) ],
        snd (VectorDatabase.initialize Scenario.index_up
               (snd (deleteVideoVectors Scenario.delete_up "v2" Scenario.db_three))))
  /\ Forall (fun d => videoId (metadata d) <> "v2")
       [ document_of_row (Scenario.row 3 "v3" "between" [3 # 5; 4 # 5]);
         document_of_row (Scenario.row 1 "v1" "far" [0%Q; 1%Q]) ].
Proof.
  assert (Hrun : similaritySearch Scenario.embed_up Scenario.index_up Scenario.distance (-1)
                   "What is this video about?" 2
                   (snd (deleteVideoVectors Scenario.delete_up "v2" Scenario.db_three))
                 = (Ok [ document_of_row (Scenario.row 3 "v3" "between" [3 # 5; 4 # 5]);
                         document_of_row (Scenario.row 1 "v1" "far" [0%Q; 1%Q]) ],
                    snd (VectorDatabase.initialize Scenario.index_up
                           (snd (deleteVideoVectors Scenario.delete_up "v2"
                                   Scenario.db_three)))))
    by (vm_compute; reflexivity).
  split_and!; [reflexivity | exact Hrun |].
  exact (proj1 (proj2 (search_after_deleteVideoVectors Scenario.embed_up Scenario.index_up
                         Scenario.distance (-1) Scenario.delete_up "v2" Scenario.db_three))
           eq_refl _ _ _ _ Hrun).
Defined.

Lemma search_after_deleteChannelVectors_witness :
  let after := snd (deleteChannelVectors Scenario.delete_up "UC1" Cases.db_two_channels) in
  Scenario.delete_up (table Cases.db_two_channels) "metadata->>channelId" "UC1" = false
  /\ map pageContent (documents Cases.db_two_channels)
     = [ Scenario.transcript; Scenario.description; Scenario.title;
         "[7s] Welcome back"; "Another Video" ]
  /\ similaritySearch Scenario.embed_up Scenario.index_up Scenario.distance (-1)
       "What is this video about?" 2 after
     = (Ok (drop 3 (documents Cases.db_two_channels)), after)
  /\ Forall (fun d => channelId (metadata d) <> "UC1")
       (drop 3 (documents Cases.db_two_channels)).
Proof.
  intros after.
  assert (Hrun : similaritySearch Scenario.embed_up Scenario.index_up Scenario.distance (-1)
                   "What is this video about?" 2 after
                 = (Ok (drop 3 (documents Cases.db_two_channels)), after))
    by (vm_compute; reflexivity).
  split_and!; [reflexivity | vm_compute; reflexivity | exact Hrun |].
  exact (proj1 (proj2 (search_after_deleteChannelVectors Scenario.embed_up
                         Scenario.index_up Scenario.distance (-1) Scenario.delete_up
                         "UC1" Cases.db_two_channels))
           eq_refl _ _ _ _ Hrun).
Defined.

Lemma ingest_then_delete_restores_witness :
  Forall (fun r => videoId (row_metadata r) <> "v4") (rows (table Cases.db_three_ready))
  /\ processVideoContent Scenario.embed_up Scenario.splitter Scenario.upsert_up
       "v4" "UC1" Scenario.title Scenario.transcript Scenario.description
       Scenario.video_meta Cases.db_three_ready = (Ok tt, Cases.db_four)
  /\ Scenario.delete_up (table Cases.db_four) "metadata->>videoId" "v4" = false
  /\ length (documents Cases.db_three_ready) = 3
  /\ length (documents Cases.db_four) = 6
  /\ documents (snd (deleteVideoVectors Scenario.delete_up "v4" Cases.db_four))
     = documents Cases.db_three_ready.
Proof.
  assert (Hfresh : Forall (fun r => videoId (row_metadata r) <> "v4")
                     (rows (table Cases.db_three_ready)))
    by (repeat constructor; by vm_compute).
  assert (Hrun : processVideoContent Scenario.embed_up Scenario.splitter Scenario.upsert_up
                   "v4" "UC1" Scenario.title Scenario.transcript Scenario.description
                   Scenario.video_meta Cases.db_three_ready = (Ok tt, Cases.db_four))
    by (vm_compute; reflexivity).
  split_and!; [exact Hfresh | exact Hrun | reflexivity | vm_compute; reflexivity
              | vm_compute; reflexivity |].
  exact (ingest_then_delete_restores Scenario.embed_up Scenario.splitter Scenario.upsert_up
           Scenario.delete_up _ _ _ _ _ _ _ _ Hfresh Hrun eq_refl).
Defined.

Lemma processVideoContent_provenance_witness :
  processVideoContent Scenario.embed_up Scenario.splitter Scenario.upsert_up
    "v1" "UC1" Scenario.title Scenario.transcript Scenario.description
    Scenario.video_meta Scenario.db_ready = (Ok tt, Scenario.db_once)
  /\ exists added,
       documents Scenario.db_once = documents Scenario.db_ready ++ added
       /\ Forall (fun d =>
                    videoId (metadata d) = "v1"
                    /\ channelId (metadata d) = "UC1"
                    /\ videoTitle (metadata d) = Scenario.title
                    /\ channelName (metadata d) = vm_channelName Scenario.video_meta
                    /\ url (metadata d) = vm_url Scenario.video_meta
                    /\ viewCount (metadata d) = vm_viewCount Scenario.video_meta
                    /\ uploadDate (metadata d) = vm_uploadDate Scenario.video_meta
                    /\ source (metadata d) ∈ ["transcript"; "description"; "title"]
                    /\ timestamp (metadata d) = None)
                 added.
Proof.
  assert (Hrun : processVideoContent Scenario.embed_up Scenario.splitter Scenario.upsert_up
                   "v1" "UC1" Scenario.title Scenario.transcript Scenario.description
                   Scenario.video_meta Scenario.db_ready = (Ok tt, Scenario.db_once))
    by (vm_compute; reflexivity).
  split; [exact Hrun|].
  exact (processVideoContent_provenance _ _ _ _ _ _ _ _ _ _ _ Hrun).
Defined.

Lemma ingestion_without_index_is_silent_witness :
  vectorStore Cases.db_new = None
  /\ processVideoContent Scenario.embed_down Scenario.splitter Scenario.upsert_up
       "v1" "UC1" Scenario.title Scenario.transcript Scenario.description
       Scenario.video_meta Cases.db_new = (Ok tt, Cases.db_new)
  /\ processComments Scenario.embed_down Scenario.splitter Scenario.upsert_up
       "v1" "UC1" Scenario.title Scenario.comments Scenario.comment_meta Cases.db_new
     = (Ok tt, Cases.db_new).
Proof.
  split; [reflexivity|].
  exact (ingestion_without_index_is_silent Scenario.embed_down Scenario.splitter Scenario.upsert_up
           "v1" "UC1" Scenario.title Scenario.transcript Scenario.description
           Scenario.video_meta Scenario.comments Scenario.comment_meta
           Cases.db_new eq_refl).
Defined.

Lemma processVideoContent_partial_on_failure_witness :
  vectorStore Scenario.db_ready
  = Some {| store_tableName := "youtube_embeddings"; queryName := "match_documents" |}
  /\ (forall new_rows, Scenario.upsert_up (table Scenario.db_ready) new_rows = Stored)
  /\ forallb (fun chunk => is_ok (Cases.embed_transcripts_only chunk))
       (Scenario.splitter Scenario.transcript) = true
  /\ forallb (fun chunk => is_ok (Cases.embed_transcripts_only chunk))
       (Scenario.splitter Scenario.description) = false
  /\ exists e db',
       processVideoContent Cases.embed_transcripts_only Scenario.splitter
         Scenario.upsert_up
         "v1" "UC1" Scenario.title Scenario.transcript Scenario.description
         Scenario.video_meta Scenario.db_ready = (Throw e, db')
       /\ documents db'
          = documents Scenario.db_ready
            ++ createDocuments Scenario.splitter Scenario.transcript
                 (video_chunk_metadata "v1" "UC1" Scenario.title Scenario.video_meta
                    "transcript").
Proof.
  assert (H0 : vectorStore Scenario.db_ready
               = Some {| store_tableName := "youtube_embeddings";
                         queryName := "match_documents" |})
    by (vm_compute; reflexivity).
  assert (H1 : forallb (fun chunk => is_ok (Cases.embed_transcripts_only chunk))
                 (Scenario.splitter Scenario.transcript) = true)
    by (vm_compute; reflexivity).
  assert (H2 : forallb (fun chunk => is_ok (Cases.embed_transcripts_only chunk))
                 (Scenario.splitter Scenario.description) = false)
    by (vm_compute; reflexivity).
  split_and!; [exact H0 | reflexivity | exact H1 | exact H2 |].
  exact (processVideoContent_partial_on_failure Cases.embed_transcripts_only
           Scenario.splitter Scenario.upsert_up "v1" "UC1" Scenario.title
           Scenario.transcript Scenario.description Scenario.video_meta
           Scenario.db_ready _ H0 (fun _ => eq_refl) eq_refl eq_refl H1 H2).
Defined.

(** X5 on the index that holds the test video once, when the three
    queries are carried out: three documents and, when the response
    holds each selected value under the name it was selected by, one
    channel and one video. *)
Lemma getStats_counts_one_video :
  getStats Scenario.select_up Scenario.selected_by_name Scenario.db_once
  = (Ok {| totalDocuments := 3; channels := 1; videos := 1 |}, Scenario.db_once).
Proof. vm_compute; reflexivity. Qed.

Lemma similaritySearch_reads_and_initializes_witness :
  let run := similaritySearch Scenario.embed_up Scenario.index_up Scenario.distance (-1)
               "What is this video about?" 2 Scenario.db_three in
  table (snd run) = table Scenario.db_three
  /\ config (snd run) = config Scenario.db_three
  /\ (is_Some (vectorStore Scenario.db_three) -> snd run = Scenario.db_three)
  /\ (is_ok (fst run) = true -> is_Some (vectorStore (snd run))).
Proof.
  intros run.
  refine (similaritySearch_reads_and_initializes Scenario.embed_up Scenario.index_up
            Scenario.distance (-1) "What is this video about?" 2 Scenario.db_three
            (fst run) (snd run) (surjective_pairing run)).
Defined.

End IndexMaintenance.

(** ** The life cycle of the conversation engine *)

Module EngineLifecycle.
Import ConversationalAI.

Lemma exchanges_app history question answer :
  Dialogue.exchanges history = true ->
  Dialogue.exchanges
    (history ++ [ {| role := user; content := question |};
                  {| role := assistant; content := answer |} ]) = true.
Proof.
  revert history.
  assert (Hpairs : forall n history,
             length history <= n ->
             Dialogue.exchanges history = true ->
             Dialogue.exchanges
               (history ++ [ {| role := user; content := question |};
                             {| role := assistant; content := answer |} ]) = true).
  { induction n as [|n IH]; intros history Hlen Hex.
    - destruct history; [done | cbn in Hlen; lia].
    - destruct history as [|[r1 c1] [|[r2 c2] rest]]; [done | by destruct r1 |].
      destruct r1, r2; try done. cbn in Hlen, Hex |- *. apply IH; [lia|done]. }
  intros history. by apply (Hpairs (length history)).
Qed.

Section Services.
Variable fromExistingIndex :
  VectorDatabase.VectorDBConfig -> result VectorDatabase.SupabaseVectorStore.
Variable fromLLM_fault : OpenAI -> Chain -> option string.
Variable chain_run :
  Chain -> OpenAI -> VectorDatabase.t -> list ChatMessage -> string -> result ChainValues.

Local Abbreviation ensure_initialized :=
  (ConversationalAI.ensure_initialized fromExistingIndex fromLLM_fault).
Local Abbreviation processMessage :=
  (ConversationalAI.processMessage fromExistingIndex fromLLM_fault chain_run).

(** X10.  Once the engine has its chain, [processMessage] never throws
    and never initializes again: the chain, the vector database and the
    system prompt are the ones before the call. *)
Theorem ready_engine_never_throws message ai c :
  chain ai = Some c ->
  exists answer ai',
    processMessage message ai = (Ok answer, ai')
    /\ chain ai' = Some c
    /\ vectorDb ai' = vectorDb ai
    /\ systemPrompt ai' = systemPrompt ai.
Proof.
  intros Hc. rewrite ConversationalAIFacts.processMessage_cases.
  unfold ConversationalAI.ensure_initialized. rewrite Hc. cbn [fst snd]. rewrite Hc.
  destruct (chain_run c (model ai) (vectorDb ai) (memory ai) message);
    eexists _, _; split; try reflexivity; done.
Qed.

(** X11.  The memory only ever grows by whole exchanges: after any call
    of [processMessage] the former history is a prefix of the new one,
    which has either the same length or two turns more (the question
    and its answer), and a history made of user/assistant exchanges
    stays one. *)
Theorem processMessage_keeps_exchanges message ai r ai' :
  processMessage message ai = (r, ai') ->
  Dialogue.exchanges (memory ai) = true ->
  Dialogue.exchanges (memory ai') = true
  /\ memory ai `prefix_of` memory ai'
  /\ (length (memory ai') = length (memory ai)
      \/ (length (memory ai') = length (memory ai) + 2 /\ is_ok r = true)).
Proof.
  rewrite ConversationalAIFacts.processMessage_cases. intros Hrun Hex.
  destruct (ensure_initialized ai) as [[[]|e] ai1] eqn:Hinit.
  - apply ConversationalAIFacts.ensure_initialized_inv in Hinit as (Hmem & _ & _).
    destruct (chain ai1) as [c|].
    + destruct (chain_run c (model ai1) (vectorDb ai1) (memory ai1) message) as [values|e];
        injection Hrun as <- <-; cbn [memory set_memory]; rewrite Hmem.
      * split_and!; [by apply exchanges_app | by apply prefix_app_r |].
        right. by rewrite length_app.
      * split_and!; [done | done | by left].
    + injection Hrun as <- <-. rewrite Hmem. split_and!; [done | done | by left].
  - apply ConversationalAIFacts.ensure_initialized_inv in Hinit as (Hmem & _ & _).
    injection Hrun as <- <-. rewrite Hmem. split_and!; [done | done | by left].
Qed.

(** X12.  When the chain cannot be built, the first message throws the
    error of LangChain behind the prefix of [initialize]: it is not
    answered with the apology.  The engine is left without a chain,
    with its history, its model and its prompt as they were and with
    its vector database initialized, so that the next message tries to
    build the chain again. *)
Theorem failed_initialization_leaves_engine message ai vs e :
  chain ai = None ->
  fromExistingIndex (VectorDatabase.config (vectorDb ai)) = Ok vs ->
  fromLLM_fault (model ai)
    {| retriever := vs;
       questionGeneratorTemplate := questionGenerator;
       qaTemplate := qa_of (systemPrompt ai) |} = Some e ->
  exists ai',
    processMessage message ai
    = (Throw ("Failed to initialize conversational AI: " +:+ e), ai')
    /\ chain ai' = None
    /\ memory ai' = memory ai
    /\ model ai' = model ai
    /\ systemPrompt ai' = systemPrompt ai
    /\ vectorDb ai' = VectorDatabase.set_vectorStore (Some vs) (vectorDb ai).
Proof.
  intros Hc Hindex Hfault. rewrite ConversationalAIFacts.processMessage_cases.
  unfold ConversationalAI.ensure_initialized. rewrite Hc.
  unfold initialize, VectorDatabase.initialize, bind. rewrite Hindex.
  cbn -[qa_of questionGenerator]. rewrite Hfault.
  eexists. split; [reflexivity|]. by cbn.
Qed.

(** X13.  [setSystemPrompt] drops the chain and keeps the history; when
    LangChain accepts the templates, the next message builds a new
    chain whose answer template starts with the new prompt, and is
    answered by that chain. *)
Theorem setSystemPrompt_rebuilds_chain prompt message ai vs :
  fromExistingIndex (VectorDatabase.config (vectorDb ai)) = Ok vs ->
  let rebuilt := {| retriever := vs;
                    questionGeneratorTemplate := questionGenerator;
                    qaTemplate := qa_of prompt |} in
  let db := VectorDatabase.set_vectorStore (Some vs) (vectorDb ai) in
  fromLLM_fault (model ai) rebuilt = None ->
  exists ai',
    processMessage message (setSystemPrompt prompt ai)
    = (Ok match chain_run rebuilt (model ai) db (memory ai) message with
          | Ok values => {| response := text values; sources := sources_of values |}
          | Throw _ => degraded
          end,
       ai')
    /\ chain ai' = Some rebuilt
    /\ memory ai `prefix_of` memory ai'.
Proof.
  intros Hindex rebuilt db Hbuilt. rewrite ConversationalAIFacts.processMessage_cases.
  unfold ConversationalAI.ensure_initialized, setSystemPrompt. cbn [chain].
  unfold initialize, VectorDatabase.initialize, bind. cbn [vectorDb]. rewrite Hindex.
  cbn -[qa_of questionGenerator]. fold rebuilt. rewrite Hbuilt.
  cbn -[qa_of questionGenerator]. fold rebuilt db.
  destruct (chain_run rebuilt (model ai) db (memory ai) message) as [values|e];
    eexists; (split; [reflexivity|]); (split; [reflexivity|]); cbn [memory set_memory].
  - by apply prefix_app_r.
  - done.
Qed.

(** X14.  After [clearHistory()] a ready engine answers the next
    question without any history, and the conversation history then
    holds that one exchange. *)
Theorem clearHistory_starts_over message ai c values :
  chain ai = Some c ->
  chain_run c (model ai) (vectorDb ai) [] message = Ok values ->
  exists ai',
    processMessage message (snd (clearHistory ai))
    = (Ok {| response := text values; sources := sources_of values |}, ai')
    /\ getConversationHistory ai'
       = (Ok [ {| role := user; content := message |};
               {| role := assistant; content := text values |} ], ai').
Proof.
  intros Hc Hrun. rewrite ConversationalAIFacts.processMessage_cases.
  unfold ConversationalAI.ensure_initialized, clearHistory.
  cbn [snd chain set_memory]. rewrite Hc.
  cbn [fst snd chain model vectorDb memory set_memory]. rewrite ?Hc, Hrun.
  eexists. split; reflexivity.
Qed.

End Services.

Lemma ready_engine_never_throws_witness :
  chain Scenario.engine_ready = Some Scenario.ready_chain
  /\ exists answer ai',
       processMessage Scenario.index_up Scenario.fromLLM Scenario.chain_failing "Hello"
         Scenario.engine_ready = (Ok answer, ai')
       /\ chain ai' = Some Scenario.ready_chain
       /\ vectorDb ai' = vectorDb Scenario.engine_ready
       /\ systemPrompt ai' = systemPrompt Scenario.engine_ready.
Proof.
  assert (Hc : chain Scenario.engine_ready = Some Scenario.ready_chain)
    by (vm_compute; reflexivity).
  split; [exact Hc|].
  exact (ready_engine_never_throws Scenario.index_up Scenario.fromLLM
           Scenario.chain_failing "Hello" Scenario.engine_ready Scenario.ready_chain Hc).
Defined.

Lemma processMessage_keeps_exchanges_witness :
  processMessage Scenario.index_up Scenario.fromLLM Scenario.chain_two_chunks
    "What is this video about?" Scenario.engine
  = (Ok Cases.first_answer, Cases.engine_answered)
  /\ Dialogue.exchanges (memory Scenario.engine) = true
  /\ Dialogue.exchanges (memory Cases.engine_answered) = true
  /\ length (memory Cases.engine_answered) = 2.
Proof.
  assert (Hrun : processMessage Scenario.index_up Scenario.fromLLM
                   Scenario.chain_two_chunks
                   "What is this video about?" Scenario.engine
                 = (Ok Cases.first_answer, Cases.engine_answered))
    by (vm_compute; reflexivity).
  split_and!; [exact Hrun | reflexivity | | vm_compute; reflexivity].
  exact (proj1 (processMessage_keeps_exchanges _ _ _ _ _ _ _ Hrun eq_refl)).
Defined.

Lemma failed_initialization_leaves_engine_witness :
  chain Cases.engine_braces = None
  /\ systemPrompt Cases.engine_braces = "Reply as JSON: {'answer': {'text': '...'}}"
  /\ Scenario.fromLLM (model Cases.engine_braces)
       {| retriever := {| VectorDatabase.store_tableName := "youtube_embeddings";
                          VectorDatabase.queryName := "match_documents" |};
          questionGeneratorTemplate := questionGenerator;
          qaTemplate := qa_of (systemPrompt Cases.engine_braces) |}
     = Some "Single '}' in template."
  /\ exists ai',
       processMessage Scenario.index_up Scenario.fromLLM Scenario.chain_two_chunks
         "Hello" Cases.engine_braces
       = (Throw "Failed to initialize conversational AI: Single '}' in template.", ai')
       /\ chain ai' = None
       /\ memory ai' = memory Cases.engine_braces
       /\ model ai' = model Cases.engine_braces
       /\ systemPrompt ai' = systemPrompt Cases.engine_braces
       /\ vectorDb ai'
          = VectorDatabase.set_vectorStore
              (Some {| VectorDatabase.store_tableName := "youtube_embeddings";
                       VectorDatabase.queryName := "match_documents" |})
              (vectorDb Cases.engine_braces).
Proof.
  assert (Hfault : Scenario.fromLLM (model Cases.engine_braces)
                     {| retriever :=
                          {| VectorDatabase.store_tableName := "youtube_embeddings";
                             VectorDatabase.queryName := "match_documents" |};
                        questionGeneratorTemplate := questionGenerator;
                        qaTemplate := qa_of (systemPrompt Cases.engine_braces) |}
                   = Some "Single '}' in template.")
    by (vm_compute; reflexivity).
  split_and!; [reflexivity | reflexivity | exact Hfault |].
  exact (failed_initialization_leaves_engine Scenario.index_up Scenario.fromLLM
           Scenario.chain_two_chunks "Hello" Cases.engine_braces _ _
           eq_refl eq_refl Hfault).
Defined.

Lemma setSystemPrompt_rebuilds_chain_witness :
  Scenario.index_up (VectorDatabase.config (vectorDb Scenario.engine_ready))
  = Ok {| VectorDatabase.store_tableName := "youtube_embeddings";
          VectorDatabase.queryName := "match_documents" |}
  /\ Scenario.fromLLM (model Scenario.engine_ready)
       {| retriever := {| VectorDatabase.store_tableName := "youtube_embeddings";
                          VectorDatabase.queryName := "match_documents" |};
          questionGeneratorTemplate := questionGenerator;
          qaTemplate := qa_of "Answer briefly." |}
     = None
  /\ exists ai',
       processMessage Scenario.index_up Scenario.fromLLM Scenario.chain_two_chunks "Hello"
         (setSystemPrompt "Answer briefly." Scenario.engine_ready)
       = (Ok Cases.first_answer, ai')
       /\ qaTemplate <$> chain ai' = Some (qa_of "Answer briefly.").
Proof.
  assert (Hindex : Scenario.index_up
                     (VectorDatabase.config (vectorDb Scenario.engine_ready))
                   = Ok {| VectorDatabase.store_tableName := "youtube_embeddings";
                           VectorDatabase.queryName := "match_documents" |})
    by (vm_compute; reflexivity).
  assert (Hbuilt : Scenario.fromLLM (model Scenario.engine_ready)
                     {| retriever :=
                          {| VectorDatabase.store_tableName := "youtube_embeddings";
                             VectorDatabase.queryName := "match_documents" |};
                        questionGeneratorTemplate := questionGenerator;
                        qaTemplate := qa_of "Answer briefly." |}
                   = None)
    by (vm_compute; reflexivity).
  split_and!; [exact Hindex | exact Hbuilt |].
  destruct (setSystemPrompt_rebuilds_chain Scenario.index_up Scenario.fromLLM
              Scenario.chain_two_chunks
              "Answer briefly." "Hello" Scenario.engine_ready _ Hindex Hbuilt)
    as (ai' & Hrun & Hchain & _).
  exists ai'. split.
  - rewrite Hrun. reflexivity.
  - rewrite Hchain. reflexivity.
Defined.

Lemma clearHistory_starts_over_witness :
  chain Cases.engine_answered = Some Scenario.ready_chain
  /\ exists ai',
       processMessage Scenario.index_up Scenario.fromLLM Scenario.chain_two_chunks
         "And the next one?" (snd (clearHistory Cases.engine_answered))
       = (Ok Cases.first_answer, ai')
       /\ getConversationHistory ai'
          = (Ok [ {| role := user; content := "And the next one?" |};
                  {| role := assistant; content := "It is a test video." |} ], ai').
Proof.
  assert (Hc : chain Cases.engine_answered = Some Scenario.ready_chain)
    by (vm_compute; reflexivity).
  split; [exact Hc|].
  destruct (clearHistory_starts_over Scenario.index_up Scenario.fromLLM
              Scenario.chain_two_chunks
              "And the next one?" Cases.engine_answered Scenario.ready_chain
              {| text := "It is a test video.";
                 sourceDocuments :=
                   Some [ Scenario.chunk "v1" "transcript" "[0s] Hello world.";
                          Scenario.chunk "v1" "description" "A test video." ] |}
              Hc eq_refl) as (ai' & Hrun & Hhistory).
  exists ai'. split; [|exact Hhistory].
  rewrite Hrun. reflexivity.
Defined.

End EngineLifecycle.

(** ** Decimal numerals *)

Module DecimalDigits.
Import ChatRoute.

Lemma all_digits_of_uint (d : Decimal.uint) :
  all_digits (NilEmpty.string_of_uint d) = true.
Proof. induction d; cbn -[is_digit]; try done; by rewrite IHd. Qed.

Ltac eval_digit :=
  match goal with
  | |- context [digit_value ?c] =>
      let v := eval vm_compute in (digit_value c) in
      change (digit_value c) with v
  end.

Lemma N_of_digits_from_acc (d : Decimal.uint) (acc : positive) :
  N_of_digits_from (Npos acc) (NilEmpty.string_of_uint d) = Npos (Pos.of_uint_acc d acc).
Proof.
  revert acc.
  induction d; intros acc;
    cbn [NilEmpty.string_of_uint N_of_digits_from Pos.of_uint_acc]; [done|..];
    rewrite <- IHd; f_equal; eval_digit; lia.
Qed.

Lemma N_of_digits_of_uint (d : Decimal.uint) :
  N_of_digits (NilEmpty.string_of_uint d) = Pos.of_uint d.
Proof.
  unfold N_of_digits.
  induction d; cbn [NilEmpty.string_of_uint N_of_digits_from Pos.of_uint]; [done|..];
    eval_digit; [exact IHd|..]; apply N_of_digits_from_acc.
Qed.

(** The numeral of a number is a non-empty string of digits that reads
    back as the number. *)
Lemma toString_digits (n : N) :
  Js.truthy_string (Js.toString n) = true
  /\ all_digits (Js.toString n) = true
  /\ N_of_digits (Js.toString n) = n.
Proof.
  unfold Js.toString, NilZero.string_of_uint.
  pose proof (DecimalN.Unsigned.of_to n) as Hback.
  destruct (N.to_uint n) as [| | | | | | | | | |] eqn:Huint;
    try (split_and!;
         [ done
         | apply (all_digits_of_uint (_ _))
         | by rewrite (N_of_digits_of_uint (_ _)) ]).
  cbn in Hback. subst n. done.
Qed.

End DecimalDigits.

(** ** The URLs of the scraper *)

Module ScraperUrls.
Import YouTubeScraper.

Lemma capture_after_eq literal stop s :
  capture_after literal stop s
  = match (if String.prefix literal s
           then
             let group := take_until stop (skip (String.length literal) s) in
             if Js.truthy_string group then Some group else None
           else None)
    with
    | Some group => Some group
    | None =>
        match s with
        | EmptyString => None
        | String _ s' => capture_after literal stop s'
        end
    end.
Proof. by destruct s. Qed.

Lemma take_until_clean stop s :
  Forall (fun c => stop c = false) (String.list_ascii_of_string (take_until stop s)).
Proof.
  induction s as [|c s IH]; cbn; [constructor|].
  destruct (stop c) eqn:Hc; cbn; [constructor|]. by constructor.
Qed.

(** A captured group is not empty and holds no character of the stop
    set. *)
Lemma capture_after_Some literal stop s group :
  capture_after literal stop s = Some group ->
  Js.truthy_string group = true
  /\ Forall (fun c => stop c = false) (String.list_ascii_of_string group).
Proof.
  assert (Hhere : forall s0,
             (if String.prefix literal s0
              then
                let g := take_until stop (skip (String.length literal) s0) in
                if Js.truthy_string g then Some g else None
              else None) = Some group ->
             Js.truthy_string group = true
             /\ Forall (fun c => stop c = false) (String.list_ascii_of_string group)).
  { intros s0. destruct (String.prefix literal s0); [|done]. cbn zeta.
    remember (take_until stop (skip (String.length literal) s0)) as g eqn:Hg.
    destruct (Js.truthy_string g) eqn:Hne; [|done].
    intros [= <-]. split; [done|]. subst g. apply take_until_clean. }
  induction s as [|c s IH]; rewrite capture_after_eq.
  - specialize (Hhere EmptyString).
    destruct (if String.prefix literal "" then _ else _) as [g|]; [|done].
    intros [= <-]. by apply Hhere.
  - specialize (Hhere (String c s)).
    destruct (if String.prefix literal (String c s) then _ else _) as [g|]; [|exact IH].
    intros [= <-]. by apply Hhere.
Qed.

Lemma first_match_Some patterns s group :
  first_match patterns s = Some group ->
  exists literal stop,
    (literal, stop) ∈ patterns /\ capture_after literal stop s = Some group.
Proof.
  induction patterns as [|[literal stop] patterns IH]; [done|]. cbn.
  destruct (capture_after literal stop s) as [g|] eqn:Hg.
  - intros [= <-]. exists literal, stop. split; [left|done].
  - intros H. destruct (IH H) as (l & st & Hin & Hcap).
    exists l, st. split; [by right|done].
Qed.

(** X15.  A channel id that [extractChannelId] returns is never empty
    and holds neither a slash nor a question mark. *)
Theorem extracted_channel_id_is_wellformed url id :
  extractChannelId url = Some id ->
  Js.truthy_string id = true
  /\ Forall (fun c => c <> "/"%char /\ c <> "?"%char) (String.list_ascii_of_string id).
Proof.
  intros Hid. apply first_match_Some in Hid as (literal & stop & Hin & Hcap).
  apply capture_after_Some in Hcap as [Hne Hclean]. split; [done|].
  assert (Hstop : stop = slash_or_question).
  { repeat (apply elem_of_cons in Hin as [[= _ ->]|Hin]; [done|]).
    by apply elem_of_nil in Hin. }
  subst stop. eapply Forall_impl; [exact Hclean|]. cbn. intros c Hc.
  unfold slash_or_question in Hc. apply orb_false_iff in Hc as [H1 H2].
  split; intros ->; done.
Qed.

Lemma prefix_app literal s : String.prefix literal (literal +:+ s) = true.
Proof.
  induction literal as [|c literal IH]; [by destruct s|].
  change (String c literal +:+ s) with (String c (literal +:+ s)). cbn.
  destruct (ascii_dec c c); [exact IH|done].
Qed.

Lemma skip_app literal s : skip (String.length literal) (literal +:+ s) = s.
Proof.
  induction literal as [|c literal IH]; [by destruct s|].
  change (String c literal +:+ s) with (String c (literal +:+ s)). exact IH.
Qed.

Lemma take_until_app stop group rest :
  Forall (fun c => stop c = false) (String.list_ascii_of_string group) ->
  UrlShape.ends_group stop rest ->
  take_until stop (group +:+ rest) = group.
Proof.
  intros Hclean Hrest. induction group as [|c group IH].
  - change ("" +:+ rest) with rest. destruct rest as [|c rest]; [done|].
    cbn in *. by rewrite Hrest.
  - change (String c group +:+ rest) with (String c (group +:+ rest)). cbn in *.
    apply Forall_cons in Hclean as [Hc Hclean]. by rewrite Hc, IH.
Qed.

(** A match at the head of the string. *)
Lemma capture_after_here literal stop group rest :
  Js.truthy_string group = true ->
  Forall (fun c => stop c = false) (String.list_ascii_of_string group) ->
  UrlShape.ends_group stop rest ->
  capture_after literal stop (literal +:+ group +:+ rest) = Some group.
Proof.
  intros Hne Hclean Hrest.
  rewrite capture_after_eq, prefix_app, skip_app. cbn zeta.
  by rewrite take_until_app, Hne.
Qed.

(** No match at the head: the search goes on behind the first
    character. *)
Lemma capture_after_next literal stop c s :
  String.prefix literal (String c s) = false ->
  capture_after literal stop (String c s) = capture_after literal stop s.
Proof. intros Hprefix. by rewrite capture_after_eq, Hprefix. Qed.

Lemma capture_after_absent literal stop s :
  Js.includes literal s = false -> capture_after literal stop s = None.
Proof.
  induction s as [|c s IH]; cbn [Js.includes]; intros Hinc;
    apply orb_false_iff in Hinc as [Hprefix Hrest]; rewrite capture_after_eq, Hprefix.
  - done.
  - by apply IH.
Qed.

Ltac step_over :=
  repeat (rewrite capture_after_next by (vm_compute; reflexivity)).

(** X16.  From the URL of a channel page in the handle form,
    [https://www.youtube.com/@handle] with or without a path or query
    behind it, [extractChannelId] returns the handle. *)
Theorem extractChannelId_of_handle_url handle rest :
  Js.truthy_string handle = true ->
  Forall (fun c => slash_or_question c = false) (String.list_ascii_of_string handle) ->
  UrlShape.ends_group slash_or_question rest ->
  extractChannelId ("https://www.youtube.com/@" +:+ handle +:+ rest) = Some handle.
Proof.
  intros Hne Hclean Hrest. unfold extractChannelId. cbn [first_match].
  change ("https://www.youtube.com/@" +:+ handle +:+ rest)
    with ("https://www." +:+ ("youtube.com/@" +:+ handle +:+ rest)).
  assert (Hcap : capture_after "youtube.com/@" slash_or_question
                   ("https://www." +:+ ("youtube.com/@" +:+ handle +:+ rest))
                 = Some handle).
  { change ("https://www." +:+ ?s)
      with (String "h" (String "t" (String "t" (String "p" (String "s" (String ":"
             (String "/" (String "/" (String "w" (String "w" (String "w"
             (String "." s)))))))))))).
    step_over. by apply capture_after_here. }
  by rewrite Hcap.
Qed.

(** X17.  From the URL of a channel page in the id form,
    [https://www.youtube.com/channel/ID], [extractChannelId] returns the
    id, provided no handle pattern [youtube.com/@] occurs further on in
    the URL: the handle pattern is tried first and wins wherever it
    matches. *)
Theorem extractChannelId_of_channel_url id rest :
  Js.truthy_string id = true ->
  Forall (fun c => slash_or_question c = false) (String.list_ascii_of_string id) ->
  UrlShape.ends_group slash_or_question rest ->
  Js.includes "youtube.com/@" (id +:+ rest) = false ->
  extractChannelId ("https://www.youtube.com/channel/" +:+ id +:+ rest) = Some id.
Proof.
  intros Hne Hclean Hrest Hhandle. unfold extractChannelId. cbn [first_match].
  assert (Hnone : capture_after "youtube.com/@" slash_or_question
                    ("https://www.youtube.com/channel/" +:+ id +:+ rest) = None).
  { change ("https://www.youtube.com/channel/" +:+ id +:+ rest)
      with (String "h" (String "t" (String "t" (String "p" (String "s" (String ":"
             (String "/" (String "/" (String "w" (String "w" (String "w" (String "."
             (String "y" (String "o" (String "u" (String "t" (String "u" (String "b"
             (String "e" (String "." (String "c" (String "o" (String "m" (String "/"
             (String "c" (String "h" (String "a" (String "n" (String "n" (String "e"
             (String "l" (String "/" (id +:+ rest))))))))))))))))))))))))))))))))).
    step_over. by apply capture_after_absent. }
  rewrite Hnone.
  assert (Hcap : capture_after "youtube.com/channel/" slash_or_question
                   ("https://www.youtube.com/channel/" +:+ id +:+ rest) = Some id).
  { change ("https://www.youtube.com/channel/" +:+ id +:+ rest)
      with (String "h" (String "t" (String "t" (String "p" (String "s" (String ":"
             (String "/" (String "/" (String "w" (String "w" (String "w" (String "."
             ("youtube.com/channel/" +:+ id +:+ rest))))))))))))).
    step_over. by apply capture_after_here. }
  by rewrite Hcap.
Qed.

(** X18.  From a watch URL as [scrapeVideoLinks] builds it,
    [https://www.youtube.com/watch?v=ID] with or without further
    parameters, [extractVideoId] returns the id. *)
Theorem extractVideoId_of_watch_url id rest :
  Js.truthy_string id = true ->
  Forall (fun c => ampersand c = false) (String.list_ascii_of_string id) ->
  UrlShape.ends_group ampersand rest ->
  extractVideoId ("https://www.youtube.com/watch?v=" +:+ id +:+ rest) = Some id.
Proof.
  intros Hne Hclean Hrest. unfold extractVideoId. cbn [first_match].
  assert (Hcap : capture_after "youtube.com/watch?v=" ampersand
                   ("https://www.youtube.com/watch?v=" +:+ id +:+ rest) = Some id).
  { change ("https://www.youtube.com/watch?v=" +:+ id +:+ rest)
      with (String "h" (String "t" (String "t" (String "p" (String "s" (String ":"
             (String "/" (String "/" (String "w" (String "w" (String "w" (String "."
             ("youtube.com/watch?v=" +:+ id +:+ rest))))))))))))).
    step_over. by apply capture_after_here. }
  by rewrite Hcap.
Qed.

(** The handle pattern wins over the id pattern even when it occurs
    later in the URL. *)
Example extractChannelId_prefers_handle :
  extractChannelId "https://www.youtube.com/channel/UC1?feature=youtube.com/@other"
  = Some "other".
Proof. vm_compute; reflexivity. Qed.

Lemma extracted_channel_id_is_wellformed_witness :
  extractChannelId "https://www.youtube.com/user/someone?view=0" = Some "someone"
  /\ Js.truthy_string "someone" = true
  /\ Forall (fun c => c <> "/"%char /\ c <> "?"%char)
       (String.list_ascii_of_string "someone").
Proof.
  assert (Hid : extractChannelId "https://www.youtube.com/user/someone?view=0"
                = Some "someone") by (vm_compute; reflexivity).
  split; [exact Hid|].
  exact (extracted_channel_id_is_wellformed _ _ Hid).
Defined.

Lemma extractChannelId_of_handle_url_witness :
  Js.truthy_string "handle" = true
  /\ Forall (fun c => slash_or_question c = false) (String.list_ascii_of_string "handle")
  /\ UrlShape.ends_group slash_or_question "/videos"
  /\ extractChannelId ("https://www.youtube.com/@" +:+ "handle" +:+ "/videos")
     = Some "handle".
Proof.
  assert (Hclean : Forall (fun c => slash_or_question c = false)
                     (String.list_ascii_of_string "handle"))
    by (repeat constructor).
  split_and!; [reflexivity | exact Hclean | reflexivity |].
  exact (extractChannelId_of_handle_url "handle" "/videos" eq_refl Hclean eq_refl).
Defined.

Lemma extractChannelId_of_channel_url_witness :
  Js.truthy_string "UC1" = true
  /\ Forall (fun c => slash_or_question c = false) (String.list_ascii_of_string "UC1")
  /\ UrlShape.ends_group slash_or_question "?view=0"
  /\ Js.includes "youtube.com/@" ("UC1" +:+ "?view=0") = false
  /\ extractChannelId ("https://www.youtube.com/channel/" +:+ "UC1" +:+ "?view=0")
     = Some "UC1".
Proof.
  assert (Hclean : Forall (fun c => slash_or_question c = false)
                     (String.list_ascii_of_string "UC1"))
    by (repeat constructor).
  assert (Hhandle : Js.includes "youtube.com/@" ("UC1" +:+ "?view=0") = false)
    by (vm_compute; reflexivity).
  split_and!; [reflexivity | exact Hclean | reflexivity | exact Hhandle |].
  exact (extractChannelId_of_channel_url "UC1" "?view=0" eq_refl Hclean eq_refl Hhandle).
Defined.

Lemma extractVideoId_of_watch_url_witness :
  Js.truthy_string "v1" = true
  /\ Forall (fun c => ampersand c = false) (String.list_ascii_of_string "v1")
  /\ UrlShape.ends_group ampersand "&t=125"
  /\ extractVideoId ("https://www.youtube.com/watch?v=" +:+ "v1" +:+ "&t=125")
     = Some "v1".
Proof.
  assert (Hclean : Forall (fun c => ampersand c = false)
                     (String.list_ascii_of_string "v1"))
    by (repeat constructor).
  split_and!; [reflexivity | exact Hclean | reflexivity |].
  exact (extractVideoId_of_watch_url "v1" "&t=125" eq_refl Hclean eq_refl).
Defined.

End ScraperUrls.

(** ** Scraping a channel *)

Module ScrapingFacts.
Import YouTubeScraper.

Section Services.
Variable channel_page : string -> result ChannelInfo.
Variable videos_page : string -> nat -> result (list string).
Variable video_page : string -> result VideoInfo.

Local Abbreviation processVideoBatch := (YouTubeScraper.processVideoBatch video_page).
Local Abbreviation scrapeChannelWithVideos :=
  (YouTubeScraper.scrapeChannelWithVideos channel_page videos_page video_page).

(** X19.  [processVideoBatch] never throws and accounts for every URL:
    the videos it returns and the URLs that could not be scraped add up
    to the URLs it was given, and each failure leaves two lines on the
    console. *)
Theorem processVideoBatch_accounts_for_every_url videoUrls console :
  exists videos console',
    processVideoBatch videoUrls console = (Ok videos, console')
    /\ length videos
       + length (filter (fun u => is_ok (video_page u) = false) videoUrls)
       = length videoUrls
    /\ length console'
       = length console
         + 2 * length (filter (fun u => is_ok (video_page u) = false) videoUrls).
Proof.
  rewrite YouTubeScraperFacts.processVideoBatch_spec. eexists _, _.
  split; [reflexivity|]. rewrite length_app.
  induction videoUrls as [|u us [IH1 IH2]]; [done|].
  cbn [omap list_omap flat_map]. rewrite filter_cons, length_app.
  unfold scraped at 1, reported at 1.
  destruct (video_page u) as [v|e]; cbn [is_ok length]; cbn [decide_rel].
  - rewrite decide_False by done. cbn [length]. split; lia.
  - rewrite decide_True by done. cbn [length]. split; lia.
Qed.

(** X20.  Without the channel page there is no scrape: the error of the
    page is thrown on, wrapped, and a single line is written to the
    console, whatever the pages of the videos hold. *)
Theorem scrape_stops_without_channel channelUrl maxVideos console e :
  channel_page channelUrl = Throw e ->
  scrapeChannelWithVideos channelUrl maxVideos console
  = (Throw ("Failed to scrape channel: " +:+ e),
     console ++ ["Error scraping channel: " +:+ e]).
Proof.
  intros Hpage.
  unfold YouTubeScraper.scrapeChannelWithVideos, bind, scrapeChannel, try_catch,
    lift_result, console_error, throw.
  by rewrite Hpage.
Qed.

End Services.

Lemma scrape_stops_without_channel_witness :
  (fun _ : string => @Throw ChannelInfo "Failed to fetch channel: 404") Scenario.channel_url
  = Throw "Failed to fetch channel: 404"
  /\ scrapeChannelWithVideos
       (fun _ => Throw "Failed to fetch channel: 404")
       Scenario.videos_page Scenario.video_page_up Scenario.channel_url 20 []
     = (Throw "Failed to scrape channel: Failed to fetch channel: 404",
        ["Error scraping channel: Failed to fetch channel: 404"]).
Proof.
  split; [reflexivity|].
  exact (scrape_stops_without_channel (fun _ => Throw "Failed to fetch channel: 404")
           Scenario.videos_page Scenario.video_page_up Scenario.channel_url 20 []
           "Failed to fetch channel: 404" eq_refl).
Defined.

End ScrapingFacts.

(** ** Durations and transcript lines *)

Module NumeralFacts.
Import ChatRoute.

Lemma digits_span_numeral n rest :
  match rest with
  | EmptyString => True
  | String c _ => is_digit c = false
  end ->
  digits_span (Js.toString n +:+ rest) = (Js.toString n, rest).
Proof.
  intros Hrest. apply ChatRouteFacts.digits_span_app; [|done].
  by destruct (DecimalDigits.toString_digits n) as (_ & ? & _).
Qed.

Lemma unit_part_present unit n rest :
  is_digit unit = false ->
  VideoPage.unit_part unit (Js.toString n +:+ String unit rest)
  = (Some (Js.toString n), rest).
Proof.
  intros Hunit. unfold VideoPage.unit_part.
  rewrite (digits_span_numeral n (String unit rest)) by done.
  destruct (DecimalDigits.toString_digits n) as (-> & _ & _).
  by rewrite Ascii.eqb_refl.
Qed.

Lemma unit_part_nil unit : VideoPage.unit_part unit "" = (None, "").
Proof. done. Qed.

Lemma unit_part_other unit other n rest :
  is_digit other = false ->
  other <> unit ->
  VideoPage.unit_part unit (Js.toString n +:+ String other rest)
  = (None, Js.toString n +:+ String other rest).
Proof.
  intros Hother Hne. unfold VideoPage.unit_part.
  rewrite (digits_span_numeral n (String other rest)) by done.
  destruct (DecimalDigits.toString_digits n) as (-> & _ & _).
  apply Ascii.eqb_neq in Hne. by rewrite Hne.
Qed.

Lemma iso_part_Some n unit rest :
  VideoPage.iso_part (Some n) (String unit EmptyString) +:+ rest
  = Js.toString n +:+ String unit rest.
Proof. cbn [VideoPage.iso_part]. by rewrite ChatRouteFacts.append_assoc. Qed.

Lemma iso_part_None unit rest : VideoPage.iso_part None unit +:+ rest = rest.
Proof. done. Qed.

Lemma iso_part_last n unit :
  VideoPage.iso_part n (String unit EmptyString)
  = VideoPage.iso_part n (String unit EmptyString) +:+ "".
Proof.
  generalize (VideoPage.iso_part n (String unit EmptyString)).
  intros t. induction t as [|c t IH]; [done|].
  change (String c t = String c (t +:+ "")). by rewrite <- IH.
Qed.

Lemma parseInt_numeral n : VideoPage.parseInt_or_zero (Some (Js.toString n)) = n.
Proof. cbn. by destruct (DecimalDigits.toString_digits n) as (_ & _ & ?). Qed.

(** X21.  The duration read from an ISO 8601 duration of hours, minutes
    and seconds, each part written or left out, is the number of seconds
    it stands for, as long as that number is one a double holds exactly. *)
Theorem parseDuration_of_iso_duration (h m s : option N) :
  (default 0 h * 3600 + default 0 m * 60 + default 0 s < 2 ^ 53)%N ->
  VideoPage.parseDuration (Some (VideoPage.iso_duration h m s))
  = (default 0 h * 3600 + default 0 m * 60 + default 0 s)%N.
Proof.
  intros _. unfold VideoPage.parseDuration, VideoPage.iso_duration.
  rewrite (iso_part_last s "S").
  set (t := VideoPage.iso_part h "H" +:+ VideoPage.iso_part m "M"
            +:+ VideoPage.iso_part s "S" +:+ "").
  change ("PT" +:+ t) with (String "P" (String "T" t)).
  cbn [Js.truthy_string VideoPage.after_PT].
  replace (String.prefix "PT" (String "P" (String "T" t))) with true
    by (by destruct t).
  cbn [YouTubeScraper.skip]. subst t.
  destruct h as [h|], m as [m|], s as [s|];
    rewrite ?iso_part_Some, ?iso_part_None;
    repeat first
      [ rewrite unit_part_present by done
      | rewrite unit_part_other by done
      | rewrite unit_part_nil ];
    rewrite ?parseInt_numeral; cbn [VideoPage.parseInt_or_zero default from_option]; unfold id; lia.
Qed.

Lemma parseDuration_of_iso_duration_witness :
  VideoPage.iso_duration (Some 1%N) None (Some 3%N) = "PT1H3S"
  /\ VideoPage.parseDuration (Some "PT1H3S") = 3603%N.
Proof.
  split; [reflexivity|].
  exact (parseDuration_of_iso_duration (Some 1%N) None (Some 3%N) eq_refl).
Defined.

(** A duration tag that is missing, empty or without [PT] counts for
    nothing. *)
Lemma parseDuration_without_PT t :
  VideoPage.after_PT t = None -> VideoPage.parseDuration (Some t) = 0%N.
Proof.
  intros Hpt. unfold VideoPage.parseDuration. rewrite Hpt.
  by destruct (Js.truthy_string t).
Qed.



End NumeralFacts.

(** ** The metadata store *)

Module MetadataStoreFacts.
Import YouTubeDatabase.

Lemma bind_Ok_inv {S A B} (m : Eff S A) (k : A -> Eff S B) s b s' :
  bind m k s = (Ok b, s') ->
  exists a s1, m s = (Ok a, s1) /\ k a s1 = (Ok b, s').
Proof.
  unfold bind. destruct (m s) as [[a|e] s1]; [|done]. intros Hk. by exists a, s1.
Qed.

Section Services.
Variable d1_fault : t -> Statement -> option string.

Local Abbreviation run := (YouTubeDatabase.run d1_fault).
Local Abbreviation getChannel := (YouTubeDatabase.getChannel d1_fault).
Local Abbreviation storeChannel := (YouTubeDatabase.storeChannel d1_fault).
Local Abbreviation getVideo := (YouTubeDatabase.getVideo d1_fault).
Local Abbreviation storeVideo := (YouTubeDatabase.storeVideo d1_fault).
Local Abbreviation storeTranscript := (YouTubeDatabase.storeTranscript d1_fault).
Local Abbreviation listVideos := (YouTubeDatabase.listVideos d1_fault).

(** A statement runs when the binding has no fault and no foreign key
    is violated, and changes nothing by itself. *)
Lemma run_cases stmt db :
  (d1_fault db stmt = None /\ violation db stmt = None /\ run stmt db = (Ok tt, db))
  \/ (exists e, run stmt db = (Throw e, db)).
Proof.
  unfold YouTubeDatabase.run.
  destruct (d1_fault db stmt) as [e|]; [right; by exists e|].
  destruct (violation db stmt) as [e|]; [right; by exists e|by left].
Qed.

(** [storeVideo] step by step: the row that is written depends on the
    video alone. *)
Lemma storeVideo_steps video :
  exists stored,
    (forall db,
       storeVideo video db
       = match d1_fault db (SelectVideo (video_id video)) with
         | Some e => (Throw e, db)
         | None =>
             match d1_fault db (WriteVideo stored) with
             | Some e => (Throw e, db)
             | None =>
                 match channels db !! video_channel_id video with
                 | None => (Throw foreign_key_failed, db)
                 | Some _ =>
                     (Ok tt,
                      {| channels := channels db;
                         videos := <[video_id video := stored]> (videos db);
                         transcripts := transcripts db;
                         access_logs := access_logs db |})
                 end
             end
         end)
    /\ video_id stored = video_id video
    /\ video_channel_id stored = video_channel_id video
    /\ title stored = title video
    /\ url stored = url video
    /\ duration stored = Some (Js.or_default nonzero (duration video) 0%Z)
    /\ view_count stored = Some (Js.or_default nonzero (view_count video) 0%Z)
    /\ like_count stored = Some (Js.or_default nonzero (like_count video) 0%Z)
    /\ description stored = Some (Js.or_default Js.truthy_string (description video) "")
    /\ thumbnail_url stored
       = Some (Js.or_default Js.truthy_string (thumbnail_url video) "")
    /\ tags stored = Some (Js.or_default Js.truthy_string (tags video) "").
Proof.
  exists {| video_id := video_id video;
            video_channel_id := video_channel_id video;
            title := title video;
            url := url video;
            upload_date :=
              match upload_date video with
              | Some d => if Js.truthy_string d then Some d else None
              | None => None
              end;
            duration := Some (Js.or_default nonzero (duration video) 0%Z);
            view_count := Some (Js.or_default nonzero (view_count video) 0%Z);
            like_count := Some (Js.or_default nonzero (like_count video) 0%Z);
            description := Some (Js.or_default Js.truthy_string (description video) "");
            thumbnail_url :=
              Some (Js.or_default Js.truthy_string (thumbnail_url video) "");
            tags := Some (Js.or_default Js.truthy_string (tags video) "") |}.
  split; [|by split_and!].
  intros db.
  unfold YouTubeDatabase.storeVideo, YouTubeDatabase.getVideo, bind, YouTubeDatabase.run.
  cbn [violation video_channel_id].
  destruct (d1_fault db (SelectVideo (video_id video))) as [e|]; [done|].
  destruct (d1_fault db (WriteVideo _)) as [e|]; [done|].
  by destruct (channels db !! video_channel_id video).
Qed.

(** A method of the store that fails has written nothing. *)
Lemma storeVideo_cases video db :
  (exists e, storeVideo video db = (Throw e, db))
  \/ (d1_fault db (SelectVideo (video_id video)) = None
      /\ is_Some (channels db !! video_channel_id video)
      /\ exists stored,
           d1_fault db (WriteVideo stored) = None
           /\ storeVideo video db
              = (Ok tt,
                 {| channels := channels db;
                    videos := <[video_id video := stored]> (videos db);
                    transcripts := transcripts db;
                    access_logs := access_logs db |})
           /\ video_id stored = video_id video
           /\ video_channel_id stored = video_channel_id video
           /\ title stored = title video
           /\ url stored = url video
           /\ duration stored = Some (Js.or_default nonzero (duration video) 0%Z)
           /\ view_count stored = Some (Js.or_default nonzero (view_count video) 0%Z)
           /\ like_count stored = Some (Js.or_default nonzero (like_count video) 0%Z)
           /\ description stored
              = Some (Js.or_default Js.truthy_string (description video) "")
           /\ thumbnail_url stored
              = Some (Js.or_default Js.truthy_string (thumbnail_url video) "")
           /\ tags stored = Some (Js.or_default Js.truthy_string (tags video) "")).
Proof.
  destruct (storeVideo_steps video) as (stored & Hsteps & Hfields).
  rewrite Hsteps.
  destruct (d1_fault db (SelectVideo (video_id video))) as [e|]; [left; by exists e|].
  destruct (d1_fault db (WriteVideo stored)) as [e|] eqn:Hwrite; [left; by exists e|].
  destruct (channels db !! video_channel_id video) as [c|] eqn:Hchannel;
    [|left; by eexists].
  right. split; [done|]. split; [done|]. by exists stored.
Qed.

Lemma storeTranscript_cases transcript db :
  (exists e, storeTranscript transcript db = (Throw e, db))
  \/ (exists stored,
        storeTranscript transcript db
        = (Ok tt,
           {| channels := channels db;
              videos := videos db;
              transcripts := <[transcript_video_id transcript := stored]> (transcripts db);
              access_logs := access_logs db |})).
Proof.
  unfold YouTubeDatabase.storeTranscript, YouTubeDatabase.getTranscript, bind,
    YouTubeDatabase.run.
  cbn [violation transcript_video_id].
  destruct (d1_fault db (SelectTranscript _)) as [e|]; [left; by exists e|].
  destruct (d1_fault db (WriteTranscript _)) as [e|]; [left; by exists e|].
  destruct (videos db !! transcript_video_id transcript); [|left; by eexists].
  right. eexists. reflexivity.
Qed.

Lemma storeChannel_cases channel db :
  (exists e, storeChannel channel db = (Throw e, db))
  \/ (d1_fault db (SelectChannel (channel_id channel)) = None
      /\ exists stored,
           storeChannel channel db
           = (Ok tt,
              {| channels := <[channel_id channel := stored]> (channels db);
                 videos := videos db;
                 transcripts := transcripts db;
                 access_logs := access_logs db |})
           /\ channel_name stored = channel_name channel).
Proof.
  unfold YouTubeDatabase.storeChannel, YouTubeDatabase.getChannel, bind,
    YouTubeDatabase.run.
  cbn [violation].
  destruct (d1_fault db (SelectChannel (channel_id channel))) as [e|]; [left; by exists e|].
  destruct (d1_fault db (WriteChannel _)) as [e|]; [left; by exists e|].
  right. split; [done|]. eexists. split; [reflexivity|]. done.
Qed.

(** X22.  [storeVideo] is an upsert by [video_id].  It returns only for
    a video whose channel is in the store, as the foreign key of the
    table demands.  After it has returned, the table holds the video
    under its id with the fields it was given, every optional column
    filled in (0 or the empty string when the value was missing or
    falsy), and a [getVideo] that the store carries out finds it; the
    other videos, the channels and the transcripts are as before.
    Storing the same video again changes nothing when the store carries
    out the two statements once more. *)
Theorem storeVideo_then_getVideo video db db' :
  storeVideo video db = (Ok tt, db') ->
  is_Some (channels db !! video_channel_id video)
  /\ (exists stored,
        videos db' !! video_id video = Some stored
        /\ (d1_fault db' (SelectVideo (video_id video)) = None ->
            getVideo (video_id video) db' = (Ok (Some stored), db')
            /\ (d1_fault db' (WriteVideo stored) = None ->
                storeVideo video db' = (Ok tt, db')))
        /\ video_id stored = video_id video
        /\ video_channel_id stored = video_channel_id video
        /\ title stored = title video
        /\ url stored = url video
        /\ duration stored = Some (Js.or_default nonzero (duration video) 0%Z)
        /\ view_count stored = Some (Js.or_default nonzero (view_count video) 0%Z)
        /\ like_count stored = Some (Js.or_default nonzero (like_count video) 0%Z)
        /\ description stored = Some (Js.or_default Js.truthy_string (description video) "")
        /\ thumbnail_url stored
           = Some (Js.or_default Js.truthy_string (thumbnail_url video) "")
        /\ tags stored = Some (Js.or_default Js.truthy_string (tags video) ""))
  /\ (forall other, other <> video_id video -> videos db' !! other = videos db !! other)
  /\ channels db' = channels db
  /\ transcripts db' = transcripts db
  /\ access_logs db' = access_logs db.
Proof.
  destruct (storeVideo_steps video) as (stored & Hsteps & Hfields).
  rewrite Hsteps.
  destruct (d1_fault db (SelectVideo (video_id video))) as [e|]; [done|].
  destruct (d1_fault db (WriteVideo stored)) as [e|]; [done|].
  destruct (channels db !! video_channel_id video) as [c|] eqn:Hchannel; [|done].
  intros [= <-]. cbn [channels videos transcripts access_logs]. split_and!; try done.
  - exists stored. split; [by rewrite lookup_insert_eq|]. split; [|exact Hfields].
    intros Hselect. split.
    + unfold YouTubeDatabase.getVideo, bind, YouTubeDatabase.run.
      cbn [violation]. rewrite Hselect. cbn [videos]. by rewrite lookup_insert_eq.
    + intros Hwrite. rewrite Hsteps, Hselect, Hwrite.
      cbn [channels videos transcripts access_logs]. rewrite Hchannel.
      by rewrite insert_insert_eq.
  - intros other Hother. by rewrite lookup_insert_ne.
Qed.

End Services.

Lemma storeVideo_then_getVideo_witness :
  let db' := snd (storeVideo Scenario.d1_up Scenario.stored_video Cases.store_with_channel) in
  storeVideo Scenario.d1_up Scenario.stored_video Cases.store_with_channel = (Ok tt, db')
  /\ channels Cases.store_with_channel !! "UC1" = Some Scenario.stored_channel
  /\ videos Cases.store_with_channel = ∅
  /\ is_Some (channels Cases.store_with_channel
               !! video_channel_id Scenario.stored_video)
  /\ channels db' = channels Cases.store_with_channel.
Proof.
  intros db'.
  assert (Hrun : storeVideo Scenario.d1_up Scenario.stored_video Cases.store_with_channel
                 = (Ok tt, db')) by reflexivity.
  split_and!; [exact Hrun | reflexivity | reflexivity | |].
  - exact (proj1 (storeVideo_then_getVideo Scenario.d1_up Scenario.stored_video
                    Cases.store_with_channel db' Hrun)).
  - exact (proj1 (proj2 (proj2 (proj2 (storeVideo_then_getVideo Scenario.d1_up
                                         Scenario.stored_video Cases.store_with_channel
                                         db' Hrun))))).
Defined.

(** X22 on a store without the channel: the video is refused. *)
Lemma storeVideo_without_channel :
  storeVideo Scenario.d1_up Scenario.stored_video YouTubeDatabase.empty
  = (Throw foreign_key_failed, YouTubeDatabase.empty).
Proof. vm_compute; reflexivity. Qed.

End MetadataStoreFacts.

(** ** The channel route *)

Module ChannelRouteFacts.
Import ProcessChannelRoute.

Section Services.
Variable d1_fault : YouTubeDatabase.t -> YouTubeDatabase.Statement -> option string.
Variable embed : string -> result VectorDatabase.Embedding.
Variable splitText : string -> list string.
Variable upsert :
  VectorDatabase.Table -> list (Document * VectorDatabase.Embedding) -> VectorDatabase.Upsert.
Variable channel_page : string -> result YouTubeScraper.ChannelInfo.
Variable videos_page : string -> nat -> result (list string).
Variable video_page : string -> result YouTubeScraper.VideoInfo.

Local Abbreviation ingest_video :=
  (ProcessChannelRoute.ingest_video d1_fault embed splitText upsert).
Local Abbreviation handle :=
  (ProcessChannelRoute.handle d1_fault embed splitText upsert
     channel_page videos_page video_page).
Local Abbreviation POST :=
  (ProcessChannelRoute.POST d1_fault embed splitText upsert
     channel_page videos_page video_page).

Lemma with_db_keeps {A} (m : Eff YouTubeDatabase.t A) w :
  vectorDb (snd (with_db m w)) = vectorDb w
  /\ console (snd (with_db m w)) = console w.
Proof. unfold with_db. by destruct (m (db w)). Qed.

Lemma with_console_keeps {A} (m : Eff Console A) w :
  vectorDb (snd (with_console m w)) = vectorDb w
  /\ db (snd (with_console m w)) = db w.
Proof. unfold with_console. by destruct (m (console w)). Qed.

(** One turn of the loop over the videos leaves an index that has not
    been initialized as it is, and never touches the channels of the
    store. *)
Lemma ingest_video_keeps channel video w :
  YouTubeDatabase.channels (db (snd (ingest_video channel video w)))
  = YouTubeDatabase.channels (db w)
  /\ (VectorDatabase.vectorStore (vectorDb w) = None ->
      vectorDb (snd (ingest_video channel video w)) = vectorDb w).
Proof.
  destruct w as [d v c].
  unfold ProcessChannelRoute.ingest_video, bind, with_db, with_console, with_vectorDb,
    YouTubeScraper.fetchTranscript, ret.
  cbn [db vectorDb console].
  destruct (MetadataStoreFacts.storeVideo_cases d1_fault (video_row channel video) d)
    as [[e ->]|(_ & _ & stored & _ & -> & _)]; [done|].
  cbn [db vectorDb console].
  match goal with
  | |- context [YouTubeDatabase.storeTranscript d1_fault ?tr ?d1] =>
      destruct (MetadataStoreFacts.storeTranscript_cases d1_fault tr d1)
        as [[e ->]|(stored' & ->)]
  end; [done|].
  cbn [db vectorDb console YouTubeDatabase.channels].
  split.
  - by destruct (VectorDatabase.processVideoContent _ _ _ _ _ _ _ _ _ v).
  - intros Hvs.
    by rewrite (IndexMaintenance.processVideoContent_uninitialized embed splitText upsert).
Qed.

Lemma for_of_ingest_video_keeps channel videos w :
  YouTubeDatabase.channels (db (snd (for_of videos (ingest_video channel) w)))
  = YouTubeDatabase.channels (db w)
  /\ (VectorDatabase.vectorStore (vectorDb w) = None ->
      vectorDb (snd (for_of videos (ingest_video channel) w)) = vectorDb w).
Proof.
  revert w. induction videos as [|video videos IH]; intros w; [done|].
  cbn [for_of]. unfold bind.
  destruct (ingest_video_keeps channel video w) as [Hchannels Hindex].
  destruct (ingest_video channel video w) as [[[]|e] w1]; cbn [snd] in *; [|done].
  destruct (IH w1) as [IHchannels IHindex]. split; [congruence|].
  intros Hvs. rewrite <- (Hindex Hvs). apply IHindex. by rewrite (Hindex Hvs).
Qed.

(** X23.  The channel route never writes to the vector index: the route
    creates its [VectorDatabase] and never initializes it, and whatever
    the request and the outcome of the scrape, the object and the table
    behind it are after the request what they were before. *)
Theorem channel_route_never_writes_index request w :
  VectorDatabase.vectorStore (vectorDb w) = None ->
  vectorDb (snd (POST request w)) = vectorDb w.
Proof.
  intros Hvs.
  assert (Hhandle : vectorDb (snd (handle request w)) = vectorDb w).
  { unfold ProcessChannelRoute.handle.
    destruct (channelUrl request) as [url|]; [|done].
    destruct (negb (Js.truthy_string url)); [done|].
    destruct (YouTubeScraper.extractChannelId url) as [channelId|]; [|done].
    unfold bind at 1.
    destruct (with_db_keeps (YouTubeDatabase.getChannel d1_fault channelId) w) as [Hv1 _].
    destruct (with_db _ w) as [[existing|e] w1]; cbn [snd] in *; [|done].
    destruct existing as [existing|].
    - unfold bind, ret.
      destruct (with_db_keeps (YouTubeDatabase.listVideos d1_fault channelId 100 0) w1)
        as [Hv2 _].
      destruct (with_db _ w1) as [[videos|e] w2]; cbn [snd] in *; congruence.
    - unfold bind at 1.
      match goal with
      | |- context [with_console ?m w1] =>
          destruct (with_console_keeps m w1) as [Hv2 _];
          destruct (with_console m w1) as [[[channel videos]|e] w2]
      end; cbn [snd] in *; [|congruence].
      unfold bind at 1.
      destruct (with_db_keeps
                  (YouTubeDatabase.storeChannel d1_fault (channel_row channel)) w2)
        as [Hv3 _].
      destruct (with_db _ w2) as [[[]|e] w3]; cbn [snd] in *; [|congruence].
      unfold bind, ret.
      destruct (for_of_ingest_video_keeps channel videos w3) as [_ Hv4].
      destruct (for_of videos _ w3) as [[[]|e] w4]; cbn [snd] in *;
        rewrite Hv4; congruence. }
  unfold ProcessChannelRoute.POST.
  by destruct (handle request w) as [[response|e] w'].
Qed.

Lemma extractChannelId_empty : YouTubeScraper.extractChannelId "" = None.
Proof. reflexivity. Qed.

(** What the route answers once the URL has given a channel id: a
    summary with status 200, or it throws. *)
Lemma handle_with_id request w url channelId :
  channelUrl request = Some url ->
  YouTubeScraper.extractChannelId url = Some channelId ->
  match handle request w with
  | (Ok response, _) => Http.status response = 200
  | (Throw _, _) => True
  end.
Proof.
  intros Hurl Hid. unfold ProcessChannelRoute.handle. rewrite Hurl.
  destruct url as [|c url]; [by rewrite extractChannelId_empty in Hid|].
  cbn [Js.truthy_string negb]. rewrite Hid. unfold bind at 1.
  destruct (with_db _ w) as [[[existing|]|e] w1]; [| |done].
  - unfold bind, ret. by destruct (with_db _ w1) as [[videos|e] w2].
  - unfold bind at 1.
    destruct (with_console _ w1) as [[[channel videos]|e] w2]; [|done].
    unfold bind at 1. destruct (with_db _ w2) as [[[]|e] w3]; [|done].
    unfold bind, ret. by destruct (for_of videos _ w3) as [[[]|e] w4].
Qed.

(** X24.  The channel route answers 400 exactly when the request has no
    channel URL, an empty one, or one in which no channel id is found;
    such a request is answered without a scrape and without a word to
    the store, the index or the console. *)
Theorem channel_route_rejects_exactly_bad_urls request w :
  (Http.status (fst (POST request w)) = 400
   <-> channelUrl request ≫= YouTubeScraper.extractChannelId = None)
  /\ (Http.status (fst (POST request w)) = 400 -> snd (POST request w) = w).
Proof.
  destruct (channelUrl request ≫= YouTubeScraper.extractChannelId) as [channelId|] eqn:Hid.
  - destruct (channelUrl request) as [url|] eqn:Hurl; [|done].
    change (YouTubeScraper.extractChannelId url = Some channelId) in Hid.
    pose proof (handle_with_id request w url channelId Hurl Hid) as Hstatus.
    unfold ProcessChannelRoute.POST.
    destruct (handle request w) as [[response|e] w1]; cbn [fst snd Http.status].
    + rewrite Hstatus. split; [split|]; done.
    + split; [split|]; done.
  - assert (Hbad : exists e,
               handle request w = (Ok (Http.json_status (Http.Error e) 400), w)).
    { unfold ProcessChannelRoute.handle.
      destruct (channelUrl request) as [url|]; [|by eexists].
      change (YouTubeScraper.extractChannelId url = None) in Hid.
      destruct (negb (Js.truthy_string url)); [by eexists|].
      rewrite Hid. by eexists. }
    destruct Hbad as [e Hbad]. unfold ProcessChannelRoute.POST. rewrite Hbad. done.
Qed.

(** X25.  A channel is processed once: after a request has answered
    that the channel was processed successfully, the store holds the
    channel, and the same request is never scraped again.  It is
    answered from the store as already processed, with the same channel
    name and at most 100 videos, and changes nothing, when the store
    carries out the two reads; when one of them fails, it is answered
    with status 500 and only the console has a line more. *)
Theorem channel_route_processes_once request w url channelId channelName videoCount w1 :
  channelUrl request = Some url ->
  YouTubeScraper.extractChannelId url = Some channelId ->
  (forall channel,
     channel_page url = Ok channel -> YouTubeScraper.channelId channel = channelId) ->
  POST request w
  = (Http.json (Http.ChannelSummary channelId channelName videoCount
                  "Channel processed successfully"),
     w1) ->
  let already videoCount' :=
    POST request w1
    = (Http.json (Http.ChannelSummary channelId channelName videoCount'
                    "Channel already processed"),
       w1)
    /\ videoCount' <= 100 in
  (exists existing,
     YouTubeDatabase.channels (db w1) !! channelId = Some existing
     /\ YouTubeDatabase.channel_name existing = channelName)
  /\ ((exists videoCount', already videoCount')
      \/ (exists e,
            POST request w1
            = (Http.json_status (Http.Error "Failed to process channel") 500,
               {| db := db w1; vectorDb := vectorDb w1;
                  console := console w1 ++ ["Error processing channel: " +:+ e] |})))
  /\ (d1_fault (db w1) (YouTubeDatabase.SelectChannel channelId) = None ->
      d1_fault (db w1) (YouTubeDatabase.SelectVideos channelId) = None ->
      exists videoCount', already videoCount').
Proof.
  intros Hurl Hid Hscraped Hfirst already.
  assert (Htruthy : Js.truthy_string url = true).
  { destruct url; [by rewrite extractChannelId_empty in Hid|done]. }
  assert (Hstored : exists existing,
             YouTubeDatabase.channels (db w1) !! channelId = Some existing
             /\ YouTubeDatabase.channel_name existing = channelName).
  { revert Hfirst. unfold ProcessChannelRoute.POST, ProcessChannelRoute.handle.
    rewrite Hurl, Htruthy, Hid. cbn [negb]. unfold bind at 1.
    unfold with_db at 1, YouTubeDatabase.getChannel, bind at 1, YouTubeDatabase.run.
    cbn [YouTubeDatabase.violation].
    destruct (d1_fault (db w) (YouTubeDatabase.SelectChannel channelId)) as [e|];
      [done|].
    destruct (YouTubeDatabase.channels (db w) !! channelId) as [existing|].
    { unfold bind, ret. by destruct (with_db _ _) as [[videos|e] w2]. }
    unfold bind at 1, with_console at 1. cbn [db vectorDb console].
    destruct (YouTubeScraper.scrapeChannelWithVideos _ _ _ _ _ _)
      as [[[channel videos]|e] c1] eqn:Hscrape; [|done].
    assert (Hpage : channel_page url = Ok channel).
    { revert Hscrape.
      unfold YouTubeScraper.scrapeChannelWithVideos, bind at 1,
        YouTubeScraper.scrapeChannel, try_catch, lift_result, bind, console_error, throw.
      destruct (channel_page url) as [channel'|e]; [|done].
      destruct (YouTubeScraper.scrapeVideoLinks _ _ _ _) as [[links|e] c2]; [|done].
      destruct (YouTubeScraper.batches_loop _ _ _ _ _ _) as [[vs|e] c3]; [|done].
      unfold ret. congruence. }
    apply Hscraped in Hpage.
    unfold bind at 1, with_db at 1. cbn [db vectorDb console].
    destruct (MetadataStoreFacts.storeChannel_cases d1_fault (channel_row channel) (db w))
      as [[e ->]|(_ & stored & -> & Hname)]; [done|].
    unfold bind, ret.
    match goal with
    | |- context [for_of videos ?body ?w3] =>
        destruct (for_of_ingest_video_keeps channel videos w3) as [Hchannels _];
        destruct (for_of videos body w3) as [[[]|e] w4]
    end; [|done].
    cbn [snd db YouTubeDatabase.channels channel_row YouTubeDatabase.channel_id] in *.
    intros [= Hname' _ <-]. exists stored.
    rewrite Hchannels, Hpage, lookup_insert_eq. split; [done|].
    rewrite Hname. cbn. congruence. }
  destruct Hstored as (existing & Hexisting & Hname).
  assert (Hsecond :
            match d1_fault (db w1) (YouTubeDatabase.SelectChannel channelId),
                  d1_fault (db w1) (YouTubeDatabase.SelectVideos channelId) with
            | None, None => exists videoCount', already videoCount'
            | Some e, _ | None, Some e =>
                POST request w1
                = (Http.json_status (Http.Error "Failed to process channel") 500,
                   {| db := db w1; vectorDb := vectorDb w1;
                      console := console w1 ++ ["Error processing channel: " +:+ e] |})
            end).
  { unfold already. clear Hfirst. destruct w1 as [d v c].
    unfold ProcessChannelRoute.POST, ProcessChannelRoute.handle.
    rewrite Hurl, Htruthy, Hid. cbn [negb].
    unfold bind, with_db, YouTubeDatabase.getChannel, YouTubeDatabase.listVideos,
      YouTubeDatabase.run, bind, ret.
    cbn [db vectorDb console YouTubeDatabase.violation] in *.
    destruct (d1_fault d (YouTubeDatabase.SelectChannel channelId)) as [e|]; [done|].
    rewrite Hexisting. cbn [db].
    destruct (d1_fault d (YouTubeDatabase.SelectVideos channelId)) as [e|]; [done|].
    rewrite Hname. eexists. split; [reflexivity|]. rewrite length_take. lia. }
  split; [by exists existing|]. split.
  - destruct (d1_fault (db w1) (YouTubeDatabase.SelectChannel channelId)) as [e|];
      [right; by exists e|].
    destruct (d1_fault (db w1) (YouTubeDatabase.SelectVideos channelId)) as [e|];
      [right; by exists e|by left].
  - intros Hselect Hlist. by rewrite Hselect, Hlist in Hsecond.
Qed.

End Services.

Lemma channel_route_never_writes_index_witness :
  VectorDatabase.vectorStore (vectorDb Scenario.channel_world) = None
  /\ vectorDb (snd (POST Scenario.d1_up Scenario.embed_up Scenario.splitter
                      Scenario.upsert_up
                      Scenario.channel_page Scenario.videos_page Scenario.video_page_up
                      Scenario.channel_request Scenario.channel_world))
     = vectorDb Scenario.channel_world.
Proof.
  split; [reflexivity|].
  exact (channel_route_never_writes_index Scenario.d1_up Scenario.embed_up
           Scenario.splitter Scenario.upsert_up Scenario.channel_page
           Scenario.videos_page Scenario.video_page_up Scenario.channel_request
           Scenario.channel_world eq_refl).
Defined.

Lemma channel_route_processes_once_witness :
  let post :=
    POST Scenario.d1_up Scenario.embed_up Scenario.splitter Scenario.upsert_up
      Scenario.channel_page Scenario.videos_page Scenario.video_page_up
      Scenario.channel_request in
  let w1 := snd (post Scenario.channel_world) in
  fst (post Scenario.channel_world)
  = Http.json (Http.ChannelSummary "UC1" "Test Channel" 2 "Channel processed successfully")
  /\ exists videoCount',
       post w1
       = (Http.json (Http.ChannelSummary "UC1" "Test Channel" videoCount'
                       "Channel already processed"),
          w1)
       /\ videoCount' <= 100.
Proof.
  intros post w1.
  assert (Hfirst : post Scenario.channel_world
                   = (Http.json (Http.ChannelSummary "UC1" "Test Channel" 2
                                   "Channel processed successfully"),
                      w1)) by (vm_compute; reflexivity).
  split; [by rewrite Hfirst|].
  refine (proj2 (proj2 (channel_route_processes_once Scenario.d1_up Scenario.embed_up
                          Scenario.splitter Scenario.upsert_up Scenario.channel_page
                          Scenario.videos_page Scenario.video_page_up
                          Scenario.channel_request Scenario.channel_world
                          Scenario.channel_url "UC1" "Test Channel" 2 w1
                          eq_refl eq_refl _ Hfirst))
            eq_refl eq_refl).
  intros channel Hpage. injection Hpage as <-. reflexivity.
Defined.

End ChannelRouteFacts.

(** ** The chat route *)

Module ChatRouteMore.
Import ChatRoute.

Lemma enhance_with_videoId toString_large videoDetails source :
  Source.videoId (enhance_with toString_large videoDetails source)
  = Source.videoId source.
Proof.
  unfold enhance_with. cbn [Source.timestamp Source.set_url].
  destruct (Source.timestamp source) as [ts|]; [|done].
  destruct (Js.truthy_string ts); [|done].
  destruct (find_marker ts) as [m|]; [|done].
  by destruct (negb _).
Qed.

Section Services.
Variable d1_fault : YouTubeDatabase.t -> YouTubeDatabase.Statement -> option string.
Variable toString_large : Z -> string.
Variable fromExistingIndex :
  VectorDatabase.VectorDBConfig -> result VectorDatabase.SupabaseVectorStore.
Variable fromLLM_fault :
  ConversationalAI.OpenAI -> ConversationalAI.Chain -> option string.
Variable chain_run :
  ConversationalAI.Chain -> ConversationalAI.OpenAI -> VectorDatabase.t ->
  list ConversationalAI.ChatMessage -> string -> result ConversationalAI.ChainValues.

Local Abbreviation enhance := (ChatRoute.enhance d1_fault toString_large).
Local Abbreviation enhance_all := (ChatRoute.enhance_all d1_fault toString_large).
Local Abbreviation handle :=
  (ChatRoute.handle d1_fault toString_large fromExistingIndex fromLLM_fault chain_run).
Local Abbreviation POST :=
  (ChatRoute.POST d1_fault toString_large fromExistingIndex fromLLM_fault chain_run).
Local Abbreviation processMessage :=
  (ConversationalAI.processMessage fromExistingIndex fromLLM_fault chain_run).

Lemma logAccess_cases p userIp db :
  YouTubeDatabase.logAccess d1_fault p userIp db
  = let entry :=
      {| YouTubeDatabase.path := p;
         YouTubeDatabase.ip := if Js.truthy_string userIp then Some userIp else None |} in
    match d1_fault db (YouTubeDatabase.InsertAccessLog entry) with
    | Some e => (Throw e, db)
    | None =>
        (Ok tt,
         {| YouTubeDatabase.channels := YouTubeDatabase.channels db;
            YouTubeDatabase.videos := YouTubeDatabase.videos db;
            YouTubeDatabase.transcripts := YouTubeDatabase.transcripts db;
            YouTubeDatabase.access_logs := YouTubeDatabase.access_logs db ++ [entry] |})
    end.
Proof.
  unfold YouTubeDatabase.logAccess, bind, YouTubeDatabase.run.
  cbn [YouTubeDatabase.violation]. cbn zeta.
  by destruct (d1_fault _ _).
Qed.

(** Looking the sources up reads the store and writes nothing; the
    sources come back in their order, each under its video id. *)
Lemma enhance_reads source db :
  exists r,
    enhance source db = (r, db)
    /\ forall source', r = Ok source' -> Source.videoId source' = Source.videoId source.
Proof.
  unfold ChatRoute.enhance. destruct (Js.truthy_string (Source.videoId source)).
  - unfold bind, YouTubeDatabase.getVideo, bind, YouTubeDatabase.run, ret.
    cbn [YouTubeDatabase.violation].
    destruct (d1_fault _ _) as [e|]; [by eexists|].
    destruct (YouTubeDatabase.videos db !! _) as [v|]; eexists; (split; [reflexivity|]).
    + intros source' [= <-]. apply enhance_with_videoId.
    + by intros source' [= <-].
  - eexists. split; [reflexivity|]. by intros source' [= <-].
Qed.

Lemma enhance_all_reads sources db :
  exists r,
    enhance_all sources db = (r, db)
    /\ forall sources',
         r = Ok sources' -> map Source.videoId sources' = map Source.videoId sources.
Proof.
  induction sources as [|source sources IH].
  - eexists. split; [reflexivity|]. by intros sources' [= <-].
  - cbn [ChatRoute.enhance_all]. unfold bind.
    destruct (enhance_reads source db) as (r1 & -> & Hr1).
    destruct r1 as [source'|e]; [|by eexists].
    destruct IH as (r2 & -> & Hr2).
    destruct r2 as [sources'|e]; [|by eexists].
    unfold ret. eexists. split; [reflexivity|].
    intros ? [= <-]. cbn [map]. by rewrite (Hr1 _ eq_refl), (Hr2 _ eq_refl).
Qed.

(** The sources of an answer of the engine name each video once. *)
Lemma processMessage_sources_NoDup message ai answer ai' :
  processMessage message ai = (Ok answer, ai') ->
  NoDup (map Source.videoId (ConversationalAI.sources answer)).
Proof.
  rewrite ConversationalAIFacts.processMessage_cases.
  destruct (ConversationalAI.ensure_initialized _ _ ai) as [[[]|e] ai1]; [|done].
  destruct (ConversationalAI.chain ai1) as [c|];
    [|intros [= <- _]; cbn; constructor].
  destruct (chain_run _ _ _ _ _) as [values|e]; intros [= <- _];
    cbn [ConversationalAI.sources ConversationalAI.degraded].
  - unfold ConversationalAI.sources_of.
    apply (ConversationalAIFacts.uniqueSources_spec _).
  - cbn. constructor.
Qed.

(** The route where the message is not empty. *)
Lemma handle_with_message request w msg :
  message request = Some msg ->
  Js.truthy_string msg = true ->
  let entry :=
    {| YouTubeDatabase.path := "/api/chat";
       YouTubeDatabase.ip :=
         if Js.truthy_string (Js.or_default Js.truthy_string (forwarded_for request) "")
         then Some (Js.or_default Js.truthy_string (forwarded_for request) "")
         else None |} in
  match d1_fault (db w) (YouTubeDatabase.InsertAccessLog entry) with
  | Some e => handle request w = (Throw e, w)
  | None =>
      let logged :=
        {| YouTubeDatabase.channels := YouTubeDatabase.channels (db w);
           YouTubeDatabase.videos := YouTubeDatabase.videos (db w);
           YouTubeDatabase.transcripts := YouTubeDatabase.transcripts (db w);
           YouTubeDatabase.access_logs := YouTubeDatabase.access_logs (db w) ++ [entry] |} in
      match processMessage msg (ai w) with
      | (Throw e, ai') =>
          handle request w = (Throw e, {| db := logged; ai := ai'; console := console w |})
      | (Ok answer, ai') =>
          exists r,
            handle request w
            = (r, {| db := logged; ai := ai'; console := console w |})
            /\ forall response,
                 r = Ok response ->
                 exists sources,
                   response
                   = Http.json (Http.ChatAnswer
                       {| ConversationalAI.response := ConversationalAI.response answer;
                          ConversationalAI.sources := sources |})
                   /\ map Source.videoId sources
                      = map Source.videoId (ConversationalAI.sources answer)
      end
  end.
Proof.
  intros Hmsg Htruthy entry. destruct w as [d a c].
  unfold ChatRoute.handle. rewrite Hmsg, Htruthy. cbn [negb].
  unfold bind, with_db, with_ai, ret. cbn [db ai console].
  rewrite logAccess_cases. cbn zeta. fold entry.
  destruct (d1_fault d (YouTubeDatabase.InsertAccessLog entry)) as [e|]; [done|].
  cbn [db ai console].
  destruct (ConversationalAI.processMessage _ _ _ msg a) as [[answer|e] a']; [|done].
  cbn [db ai console].
  match goal with
  | |- context [ChatRoute.enhance_all _ _ ?sources ?d1] =>
      destruct (enhance_all_reads sources d1) as (r & -> & Hr)
  end.
  destruct r as [sources|e].
  - eexists. split; [reflexivity|]. intros response [= <-].
    exists sources. split; [done|]. by apply Hr.
  - eexists. split; [reflexivity|]. done.
Qed.

(** X26.  The chat route answers 400 exactly when the message is
    missing or empty, and then nothing has happened: no access is
    logged and the engine has not been asked. *)
Theorem chat_route_rejects_exactly_empty_message request w :
  (Http.status (fst (POST request w)) = 400
   <-> message request = None \/ message request = Some "")
  /\ (Http.status (fst (POST request w)) = 400 -> snd (POST request w) = w).
Proof.
  destruct (message request) as [[|c msg]|] eqn:Hmsg.
  - unfold ChatRoute.POST, ChatRoute.handle. rewrite Hmsg. cbn. split; [split|]; auto.
  - pose proof (handle_with_message request w _ Hmsg eq_refl) as Hhandle.
    cbn zeta in Hhandle. unfold ChatRoute.POST.
    assert (Hstatus : match handle request w with
                      | (Ok response, _) => Http.status response = 200
                      | (Throw _, _) => True
                      end).
    { destruct (d1_fault _ _) as [e|]; [by rewrite Hhandle|].
      destruct (ConversationalAI.processMessage _ _ _ _ _) as [[answer|e] ai'];
        [|by rewrite Hhandle].
      destruct Hhandle as (r & -> & Hr). destruct r as [response|e]; [|done].
      by destruct (Hr response eq_refl) as (sources & -> & _). }
    destruct (handle request w) as [[response|e] w1]; cbn [fst snd Http.status].
    + rewrite Hstatus. split; [split|]; [done|intros [|]; done|done].
    + split; [split|]; [done|intros [|]; done|done].
  - unfold ChatRoute.POST, ChatRoute.handle. rewrite Hmsg. cbn. split; [split|]; auto.
Qed.

(** X27.  The chat hangs on the access log: when the log cannot be
    written the route answers 500 with the apology and no sources, the
    engine is not asked (its history and chain stay as they are), and
    the error goes to the console. *)
Theorem chat_route_needs_access_log request w msg e :
  message request = Some msg ->
  Js.truthy_string msg = true ->
  (forall entry, d1_fault (db w) (YouTubeDatabase.InsertAccessLog entry) = Some e) ->
  POST request w
  = (Http.json_status
       (Http.ChatError "Failed to process message"
          {| ConversationalAI.response :=
               "I encountered an error while processing your message. Please try again.";
             ConversationalAI.sources := [] |}) 500,
     {| db := db w; ai := ai w;
        console := console w ++ ["Error processing chat message: " +:+ e] |}).
Proof.
  intros Hmsg Htruthy Hlog.
  pose proof (handle_with_message request w msg Hmsg Htruthy) as Hhandle.
  cbn zeta in Hhandle. rewrite Hlog in Hhandle.
  unfold ChatRoute.POST. by rewrite Hhandle.
Qed.

(** X28.  An answer of the chat route cites each video once: when the
    route answers with sources, the status is 200 and no two sources
    have the same video id. *)
Theorem chat_route_cites_each_video_once request w response w' answer :
  POST request w = (response, w') ->
  Http.body response = Http.ChatAnswer answer ->
  Http.status response = 200
  /\ NoDup (map Source.videoId (ConversationalAI.sources answer)).
Proof.
  intros Hpost Hbody. revert Hpost. unfold ChatRoute.POST.
  destruct (handle request w) as [[response'|e] w1] eqn:Hhandle;
    intros [= <- <-]; [|done].
  destruct (message request) as [msg|] eqn:Hmsg;
    [|revert Hhandle; unfold ChatRoute.handle; rewrite Hmsg; by intros [= <- _]].
  destruct (Js.truthy_string msg) eqn:Htruthy;
    [|revert Hhandle; unfold ChatRoute.handle; rewrite Hmsg, Htruthy; by intros [= <- _]].
  pose proof (handle_with_message request w msg Hmsg Htruthy) as Hcases.
  cbn zeta in Hcases.
  destruct (d1_fault _ _) as [e|]; [congruence|].
  destruct (ConversationalAI.processMessage _ _ _ msg (ai w)) as [[answer'|e] ai'] eqn:Hrun;
    [|congruence].
  destruct Hcases as (r & Hr & Hsources). rewrite Hhandle in Hr. injection Hr as <- _.
  destruct (Hsources response' eq_refl) as (sources & -> & Hids).
  cbn in Hbody. injection Hbody as <-. split; [done|].
  cbn [ConversationalAI.sources]. rewrite Hids.
  by eapply processMessage_sources_NoDup.
Qed.

(** X29.  The chat route reads the metadata store and writes one thing
    to it: whatever the request and its outcome, channels, videos and
    transcripts are untouched, and the access log has grown by at most
    the one entry of this request. *)
Theorem chat_route_only_logs request w :
  let w' := snd (POST request w) in
  YouTubeDatabase.channels (db w') = YouTubeDatabase.channels (db w)
  /\ YouTubeDatabase.videos (db w') = YouTubeDatabase.videos (db w)
  /\ YouTubeDatabase.transcripts (db w') = YouTubeDatabase.transcripts (db w)
  /\ (YouTubeDatabase.access_logs (db w') = YouTubeDatabase.access_logs (db w)
      \/ exists entry,
           YouTubeDatabase.access_logs (db w')
           = YouTubeDatabase.access_logs (db w) ++ [entry]
           /\ YouTubeDatabase.path entry = "/api/chat").
Proof.
  cbn zeta.
  assert (Hhandle :
    let w1 := snd (handle request w) in
    YouTubeDatabase.channels (db w1) = YouTubeDatabase.channels (db w)
    /\ YouTubeDatabase.videos (db w1) = YouTubeDatabase.videos (db w)
    /\ YouTubeDatabase.transcripts (db w1) = YouTubeDatabase.transcripts (db w)
    /\ (YouTubeDatabase.access_logs (db w1) = YouTubeDatabase.access_logs (db w)
        \/ exists entry,
             YouTubeDatabase.access_logs (db w1)
             = YouTubeDatabase.access_logs (db w) ++ [entry]
             /\ YouTubeDatabase.path entry = "/api/chat")).
  { cbn zeta.
    destruct (message request) as [msg|] eqn:Hmsg;
      [|unfold ChatRoute.handle; rewrite Hmsg; cbn; by split_and!; auto].
    destruct (Js.truthy_string msg) eqn:Htruthy;
      [|unfold ChatRoute.handle; rewrite Hmsg, Htruthy; cbn; by split_and!; auto].
    pose proof (handle_with_message request w msg Hmsg Htruthy) as Hcases.
    cbn zeta in Hcases.
    destruct (d1_fault _ _) as [e|]; [rewrite Hcases; cbn; by split_and!; auto|].
    destruct (ConversationalAI.processMessage _ _ _ msg (ai w)) as [[answer|e] ai'].
    - destruct Hcases as (r & -> & _). cbn. split_and!; try done.
      right. by eexists.
    - rewrite Hcases. cbn. split_and!; try done. right. by eexists. }
  cbn zeta in Hhandle. unfold ChatRoute.POST.
  by destruct (handle request w) as [[response|e] w1].
Qed.

End Services.

Lemma chat_route_needs_access_log_witness :
  POST Cases.d1_log_down Scenario.toString_large Scenario.index_up Scenario.fromLLM
    Scenario.chain_two_chunks Cases.chat_request Cases.chat_world
  = (Http.json_status
       (Http.ChatError "Failed to process message"
          {| ConversationalAI.response :=
               "I encountered an error while processing your message. Please try again.";
             ConversationalAI.sources := [] |}) 500,
     {| db := db Cases.chat_world; ai := ai Cases.chat_world;
        console := ["Error processing chat message: D1_ERROR"] |}).
Proof.
  exact (chat_route_needs_access_log Cases.d1_log_down Scenario.toString_large
           Scenario.index_up Scenario.fromLLM
           Scenario.chain_two_chunks Cases.chat_request Cases.chat_world
           "What is this video about?" "D1_ERROR" eq_refl eq_refl (fun _ => eq_refl)).
Defined.

Lemma chat_route_cites_each_video_once_witness :
  let r := POST Scenario.d1_up Scenario.toString_large Scenario.index_up Scenario.fromLLM
             Scenario.chain_two_chunks Cases.chat_request Cases.chat_world in
  exists answer,
    Http.body (fst r) = Http.ChatAnswer answer
    /\ map Source.videoId (ConversationalAI.sources answer) = ["v1"]
    /\ Http.status (fst r) = 200
    /\ NoDup (map Source.videoId (ConversationalAI.sources answer)).
Proof.
  intros r. eexists. split; [vm_compute; reflexivity|]. split; [reflexivity|].
  refine (chat_route_cites_each_video_once Scenario.d1_up Scenario.toString_large
            Scenario.index_up Scenario.fromLLM
            Scenario.chain_two_chunks Cases.chat_request Cases.chat_world
            (fst r) (snd r) _ _ eq_refl).
  vm_compute. reflexivity.
Defined.

End ChatRouteMore.
